(** * SerialPundit, native layer for Unix-like systems (unix_like_serial.c)

    A shallow embedding of the byte-stream I/O functions, the terminal
    configuration functions and the listener tables of
    [src/com.embeddedunveiled.native/macOS_serial/src/unix_like_serial.c],
    with the properties the specification states about them.

    Conventions.
    - C integers are [Z]; a [jbyte] is a [Z] too.
    - A C array is a [list]; [a[i] = v] is stdpp's [<[i:=v]>], and every
      store whose index the code does not bound is checked explicitly and
      reported as [OutOfBounds].
    - System and JNI calls are not part of the file: what they return is
      an argument of the model (a script of results), and what the code
      asks of them is recorded in a trace.
    - Header constants ([EINTR], [IXON], [CRTSCTS], ...) are not part of
      the file either: they are fields of a record the model is
      parametrised by. *)

From Stdlib Require Import ZArith List Bool Lia String.
From stdpp Require Import base list strings.
Import ListNotations.

Local Open Scope Z_scope.

(** The three platforms the file is conditionally compiled for. *)
Inductive platform := Linux | Apple | SunOS.

(** [errno] values of <errno.h>. *)
Class errno_consts := {
  EINTR : Z;
  EAGAIN : Z;
  EWOULDBLOCK : Z
}.

(** The values of Linux, for the examples. *)
Definition linux_errno : errno_consts :=
  {| EINTR := 4; EAGAIN := 11; EWOULDBLOCK := 11 |}.

Definition jbyte := Z.

(** What a function returns when it can stop in three ways: normally, by
    a store outside a global table (undefined behaviour in C), or not at
    all within the script of results it was given. *)
Inductive outcome (A : Type) :=
| Done (a : A)
| OutOfBounds (table : string) (index : Z)
| Spins.
Arguments Done {A} a.
Arguments OutOfBounds {A} table index.
Arguments Spins {A}.

#[global] Instance outcome_ret : MRet outcome := fun A a => Done a.
#[global] Instance outcome_bind : MBind outcome := fun A B k o =>
  match o with
  | Done a => k a
  | OutOfBounds t i => OutOfBounds t i
  | Spins => Spins
  end.

(* ================================================================== *)
(** ** readBytes *)

Module IO.

(** One call of [read(fd, buffer, nbyte)] as the caller sees it. *)
Inductive read_event :=
| Delivers (pending : list jbyte) (err : Z)
    (* the first [nbyte] bytes of [pending] are copied to the buffer and
       counted in the return value; [errno] is [err] afterwards
       (0: untouched, EINTR: interrupted after a partial transfer) *)
| Fails (err : Z).
    (* returns -1 with [errno = err] *)

Inductive jbyteArray := ByteArray (elems : list jbyte) | NULL.

Definition sys_read (ev : read_event) (buffer : list jbyte) (nbyte : Z)
  : Z * Z * list jbyte :=
  match ev with
  | Delivers pending err =>
      let got := take (Z.to_nat nbyte) pending in
      (Z.of_nat (length got), err, got ++ drop (length got) buffer)
  | Fails err => (-1, err, buffer)
  end.

(** [sizeof(buffer)] and [sizeof(final_buf)]. *)
Definition BUFFER_SIZE : Z := 1024.
Definition FINAL_BUF_SIZE : Z := 1024 * 3.

(** [for(i = index; i < ret; i++) final_buf[i] = buffer[i];]
    with [n] the number of iterations left. *)
Fixpoint copy_from (n : nat) (i : Z) (buffer final_buf : list jbyte)
  : list jbyte :=
  match n with
  | O => final_buf
  | S n' =>
      copy_from n' (i + 1) buffer
        (<[Z.to_nat i := buffer !!! Z.to_nat i]> final_buf)
  end.

Definition copy_loop (index ret : Z) (buffer final_buf : list jbyte) :=
  copy_from (Z.to_nat (ret - index)) index buffer final_buf.

Section ReadBytes.
Context {E : errno_consts}.

(** The [do { ... } while(1)] loop. The list is the script of results of
    the successive [read] calls; the first component of the result lists
    the sizes [read] was asked for, the second is what the function
    returned, [None] when the script ends with the loop still running. *)
Fixpoint read_loop (evs : list read_event) (index partialData : Z)
    (buffer final_buf : list jbyte) : list Z * option jbyteArray :=
  match evs with
  | [] => ([], None)
  | ev :: evs' =>
      let '(ret, errno, buffer) := sys_read ev buffer BUFFER_SIZE in
      let '(reqs, res) :=
        if (ret >? 0) && (errno =? 0) then
          if partialData =? 1 then
            let final_buf := copy_loop index ret buffer final_buf in
            ([], Some (ByteArray (take (Z.to_nat (index + ret)) final_buf)))
          else
            ([], Some (ByteArray (take (Z.to_nat ret) buffer)))
        else if (ret >? 0) && (errno =? EINTR) then
          let final_buf := copy_loop index ret buffer final_buf in
          read_loop evs' ret 1 buffer final_buf
        else if ret <? 0 then
          if (errno =? EAGAIN) || (errno =? EWOULDBLOCK) then
            ([], Some (ByteArray []))
          else if negb (errno =? EINTR) then
            ([], Some NULL)
          else
            read_loop evs' index partialData buffer final_buf
        else if ret =? 0 then
          ([], Some (ByteArray []))
        else
          read_loop evs' index partialData buffer final_buf
      in (BUFFER_SIZE :: reqs, res)
  end.

(** [buffer0] and [final0] are the contents of the two local arrays when
    the function is entered: they are not initialised. *)
Definition readBytes (fd : Z) (count : Z) (buffer0 final0 : list jbyte)
    (evs : list read_event) : list Z * option jbyteArray :=
  read_loop evs 0 (-1) buffer0 final0.

End ReadBytes.

(** Uninitialised local arrays of the right sizes, filled by [g]. *)
Definition stack_array (size : Z) (g : nat -> jbyte) : list jbyte :=
  map g (seq 0 (Z.to_nat size)).

(* ---------------------------------------------------------------- *)
(** ** writeBytes *)

(** What one [write(fd, &data_buf[index], count)] returns, and [errno]
    after it when it returns a negative value. *)
Record write_result := { w_ret : Z; w_errno : Z }.

(** What the function asks of the system, in order. *)
Inductive io_call :=
| SysWrite (fd index count : Z)
| ReleaseElements
| Tcdrain (fd : Z).

(** [size_t] arithmetic wraps at 2^64. *)
Definition size_t_wrap (n : Z) : Z := n mod 2 ^ 64.

Section WriteBytes.
Context {E : errno_consts}.

(** After the loop: the array is released, the output is drained, 0 is
    returned. *)
Definition write_done (fd : Z) : list io_call * option Z :=
  ([ReleaseElements; Tcdrain fd], Some 0).

(** [while((count > 0 && (ret = write(fd, &data_buf[index], count))) != count)].
    The parentheses make the left operand of [!=] the truth value of
    [count > 0 && ret], 0 or 1, and it is that value which is compared
    with [count]. When [count > 0] is false no [write] is issued and the
    comparison is [0 != count], false since [count] is an unsigned 0. *)
Fixpoint write_loop (ws : list write_result) (fd count index : Z)
  : list io_call * option Z :=
  if count >? 0 then
    match ws with
    | [] => ([], None)
    | w :: ws' =>
        let ret := w_ret w in
        let errno := w_errno w in
        let truth := if ret =? 0 then 0 else 1 in
        let '(calls, res) :=
          if negb (truth =? count) then
            if (ret <? 0) && (errno =? EINTR) then
              write_loop ws' fd count index
            else if ret <? 0 then
              ([], Some (-1 * errno))
            else
              write_loop ws' fd (size_t_wrap (count - ret)) (index + ret)
          else write_done fd
        in (SysWrite fd index count :: calls, res)
    end
  else write_done fd.

(** Both branches of [if(delay == 0)] hold the same loop. *)
Definition writeBytes (fd : Z) (buffer : list jbyte) (delay : Z)
    (ws : list write_result) : list io_call * option Z :=
  let count := Z.of_nat (length buffer) in
  if delay =? 0 then write_loop ws fd count 0
  else write_loop ws fd count 0.

End WriteBytes.

End IO.

(* ================================================================== *)
(** ** The table of listener threads *)

(** [#define MAX_NUM_THREADS 1024] *)
Definition MAX_NUM_THREADS : Z := 1024.

(** [pthread_create]: return value, [errno] after it, the thread's id. *)
Record create_result := { cr_ret : Z; cr_errno : Z; cr_tid : Z }.

(** Calls on threads and wake-up descriptors, in order. *)
Inductive thread_call :=
| PthreadCreate (routine : string) (slot : Z)
| EvfdWrite (evfd : Z)
| PthreadKill (tid : Z)
| PthreadJoin (tid : Z).

(** A flag that the calling thread reads while the thread it has just
    created may store to it. The script has one element per read of the
    caller: [Some v] when the thread stores [v] before that read, [None]
    when it does not. After the script the thread stores nothing. *)
Definition flag_script := list (option Z).

Definition store_of (s : option Z) (cell : Z) : Z :=
  match s with Some v => v | None => cell end.

(** One read of the flag. *)
Definition read_flag (script : flag_script) (cell : Z) : Z * flag_script :=
  match script with
  | [] => (cell, [])
  | s :: script' => (store_of s cell, script')
  end.

(** [while(0 == flag) { }]: the value that ended the loop and the rest of
    the script, or [None] when the flag is 0 at every read. *)
Fixpoint busy_wait (script : flag_script) (cell : Z)
  : option (Z * flag_script) :=
  match script with
  | [] => if 0 =? cell then None else Some (cell, [])
  | s :: script' =>
      let cell := store_of s cell in
      if 0 =? cell then busy_wait script' cell else Some (cell, script')
  end.

(** The three reads that end [setUpDataLooperThread] and
    [setUpEventLooperThread]: the loop, the test [1 == flag], and the
    [return flag]. The result is the value returned and the value left in
    the flag. *)
Definition rendezvous (script : flag_script) (cell : Z) : option (Z * Z) :=
  match busy_wait script cell with
  | None => None
  | Some (cell, script) =>
      let '(v, script) := read_flag script cell in
      if 1 =? v then Some (0, v)
      else let '(v, _) := read_flag script v in Some (v, v)
  end.

(** *** The two global tables

    [fd_looper_info] and [port_monitor_info] are arrays of
    [MAX_NUM_THREADS] structures that are searched and written in the
    same way; [fd_of] reads the field [fd] of an element and [name] is
    the name of the array. *)
Section Table.
Context {A : Type} `{Inhabited A} (fd_of : A -> Z) (name : string).

(** [for (x=0; x < MAX_NUM_THREADS; x++) { if(ptr->fd == fd) {...; break;} ptr++; }]
    [n] counts the iterations left and the list is what [ptr] points at.
    The result is [x] after the loop and whether the loop ended by
    [break]. *)
Fixpoint scan_loop (n : nat) (ptr : list A) (x : Z) (fd0 : Z) : Z * bool :=
  match n, ptr with
  | S n', e :: ptr' =>
      if fd_of e =? fd0 then (x, true) else scan_loop n' ptr' (x + 1) fd0
  | _, _ => (x, false)
  end.

Definition scan (t : list A) (fd0 : Z) : Z * bool :=
  scan_loop (Z.to_nat MAX_NUM_THREADS) t 0 fd0.

(** Is [i] an index of the table? *)
Definition in_table (i : Z) : bool := (0 <=? i) && (i <? MAX_NUM_THREADS).

(** [table[i] = params]; nothing in the code bounds [i]. *)
Definition store_slot (t : list A) (i : Z) (p : A) : outcome (list A) :=
  if in_table i then Done (<[Z.to_nat i := p]> t)
  else OutOfBounds name i.

(** [ptr->field = v] through a pointer to slot [i]. *)
Definition update_slot (t : list A) (i : Z) (f : A -> A)
  : outcome (list A) :=
  if in_table i then
    match t !! Z.to_nat i with
    | Some e => Done (<[Z.to_nat i := f e]> t)
    | None => OutOfBounds name i
    end
  else OutOfBounds name i.

(** The element a pointer to slot [i] reads. *)
Definition slot (t : list A) (i : Z) : A := t !!! Z.to_nat i.

End Table.

Module Registry.

(** [struct com_thread_params], with the fields the file assigns. *)
Record com_thread_params := {
  jvm : Z;
  fd : Z;
  looper : Z;
  data_thread_id : Z;
  event_thread_id : Z;
  evfd : Z;
  data_thread_exit : Z;
  event_thread_exit : Z;
  mutex : Z;
  data_init_done : Z;
  event_init_done : Z
}.

(** [{0}] *)
Definition zero_params : com_thread_params :=
  {| jvm := 0; fd := 0; looper := 0; data_thread_id := 0;
     event_thread_id := 0; evfd := 0; data_thread_exit := 0;
     event_thread_exit := 0; mutex := 0; data_init_done := 0;
     event_init_done := 0 |}.

#[global] Instance com_thread_params_inhabited : Inhabited com_thread_params :=
  populate zero_params.

Definition set_fd (v : Z) (p : com_thread_params) :=
  {| jvm := jvm p; fd := v; looper := looper p;
     data_thread_id := data_thread_id p;
     event_thread_id := event_thread_id p; evfd := evfd p;
     data_thread_exit := data_thread_exit p;
     event_thread_exit := event_thread_exit p; mutex := mutex p;
     data_init_done := data_init_done p;
     event_init_done := event_init_done p |}.

Definition set_data_thread_id (v : Z) (p : com_thread_params) :=
  {| jvm := jvm p; fd := fd p; looper := looper p;
     data_thread_id := v;
     event_thread_id := event_thread_id p; evfd := evfd p;
     data_thread_exit := data_thread_exit p;
     event_thread_exit := event_thread_exit p; mutex := mutex p;
     data_init_done := data_init_done p;
     event_init_done := event_init_done p |}.

Definition set_event_thread_id (v : Z) (p : com_thread_params) :=
  {| jvm := jvm p; fd := fd p; looper := looper p;
     data_thread_id := data_thread_id p;
     event_thread_id := v; evfd := evfd p;
     data_thread_exit := data_thread_exit p;
     event_thread_exit := event_thread_exit p; mutex := mutex p;
     data_init_done := data_init_done p;
     event_init_done := event_init_done p |}.

Definition set_data_thread_exit (v : Z) (p : com_thread_params) :=
  {| jvm := jvm p; fd := fd p; looper := looper p;
     data_thread_id := data_thread_id p;
     event_thread_id := event_thread_id p; evfd := evfd p;
     data_thread_exit := v;
     event_thread_exit := event_thread_exit p; mutex := mutex p;
     data_init_done := data_init_done p;
     event_init_done := event_init_done p |}.

Definition set_event_thread_exit (v : Z) (p : com_thread_params) :=
  {| jvm := jvm p; fd := fd p; looper := looper p;
     data_thread_id := data_thread_id p;
     event_thread_id := event_thread_id p; evfd := evfd p;
     data_thread_exit := data_thread_exit p;
     event_thread_exit := v; mutex := mutex p;
     data_init_done := data_init_done p;
     event_init_done := event_init_done p |}.

Definition set_data_init_done (v : Z) (p : com_thread_params) :=
  {| jvm := jvm p; fd := fd p; looper := looper p;
     data_thread_id := data_thread_id p;
     event_thread_id := event_thread_id p; evfd := evfd p;
     data_thread_exit := data_thread_exit p;
     event_thread_exit := event_thread_exit p; mutex := mutex p;
     data_init_done := v;
     event_init_done := event_init_done p |}.

Definition set_event_init_done (v : Z) (p : com_thread_params) :=
  {| jvm := jvm p; fd := fd p; looper := looper p;
     data_thread_id := data_thread_id p;
     event_thread_id := event_thread_id p; evfd := evfd p;
     data_thread_exit := data_thread_exit p;
     event_thread_exit := event_thread_exit p; mutex := mutex p;
     data_init_done := data_init_done p;
     event_init_done := v |}.

(** The globals the listener functions share: [jvm], [dtp_index],
    [fd_looper_info] and the address of [mutex]. *)
Record globals := {
  g_jvm : Z;
  g_mutex : Z;
  dtp_index : Z;
  fd_looper_info : list com_thread_params
}.

Definition with_table (t : list com_thread_params) (g : globals) :=
  {| g_jvm := g_jvm g; g_mutex := g_mutex g; dtp_index := dtp_index g;
     fd_looper_info := t |}.

Definition with_index (i : Z) (g : globals) :=
  {| g_jvm := g_jvm g; g_mutex := g_mutex g; dtp_index := i;
     fd_looper_info := fd_looper_info g |}.

(** The globals when the library is loaded. *)
Definition initial (jvm0 mutex0 : Z) : globals :=
  {| g_jvm := jvm0; g_mutex := mutex0; dtp_index := 0;
     fd_looper_info := replicate (Z.to_nat MAX_NUM_THREADS) zero_params |}.

Definition table_name : string := "fd_looper_info".

(** The result of a listener function: what it returns, the globals
    after it, and the calls it made. *)
Definition result : Type := Z * globals * list thread_call.

(** The parameters of a new entry. *)
Definition new_params (g : globals) (fd0 ref : Z) : com_thread_params :=
  {| jvm := g_jvm g; fd := fd0; looper := ref; data_thread_id := 0;
     event_thread_id := 0; evfd := 0; data_thread_exit := 0;
     event_thread_exit := 0; mutex := g_mutex g; data_init_done := 0;
     event_init_done := 0 |}.

(** [setUpDataLooperThread(fd, looper)]. [newref] is what
    [NewGlobalRef] returns (0 is [NULL]), [cr] what [pthread_create]
    returns, [script] what the new thread does to [data_init_done]. *)
Definition setUpDataLooperThread (g : globals) (fd0 : Z)
    (newref : Z) (cr : create_result) (script : flag_script)
  : outcome result :=
  let '(x, entry_found) := scan fd (fd_looper_info g) fd0 in
  if negb entry_found && (newref =? 0) then Done (-240, g, [])
  else
    '(t, arg) ←
       (if entry_found then Done (fd_looper_info g, x)
        else t ← store_slot table_name (fd_looper_info g) (dtp_index g)
                    (new_params g fd0 newref);
             Done (t, dtp_index g));
    let calls := [PthreadCreate "data_looper" arg] in
    if cr_ret cr <? 0 then Done (-1 * cr_errno cr, with_table t g, calls)
    else
      t ← update_slot table_name t arg (set_data_thread_id (cr_tid cr));
      let g := with_table t g in
      let g := if entry_found then g else with_index (dtp_index g + 1) g in
      match rendezvous script (data_init_done (slot t arg)) with
      | None => Spins
      | Some (r, flag) =>
          t ← update_slot table_name t arg (set_data_init_done flag);
          Done (r, with_table t g, calls)
      end.

(** [setUpEventLooperThread(fd, looper)], the same with the event
    fields. *)
Definition setUpEventLooperThread (g : globals) (fd0 : Z)
    (newref : Z) (cr : create_result) (script : flag_script)
  : outcome result :=
  let '(x, entry_found) := scan fd (fd_looper_info g) fd0 in
  if negb entry_found && (newref =? 0) then Done (-240, g, [])
  else
    '(t, arg) ←
       (if entry_found then Done (fd_looper_info g, x)
        else t ← store_slot table_name (fd_looper_info g) (dtp_index g)
                    (new_params g fd0 newref);
             Done (t, dtp_index g));
    let calls := [PthreadCreate "event_looper" arg] in
    if cr_ret cr <? 0 then Done (-1 * cr_errno cr, with_table t g, calls)
    else
      t ← update_slot table_name t arg (set_event_thread_id (cr_tid cr));
      let g := with_table t g in
      let g := if entry_found then g else with_index (dtp_index g + 1) g in
      match rendezvous script (event_init_done (slot t arg)) with
      | None => Spins
      | Some (r, flag) =>
          t ← update_slot table_name t arg (set_event_init_done flag);
          Done (r, with_table t g, calls)
      end.

(** [destroyDataLooperThread(fd)]. [join_ret] is what [pthread_join]
    returns. The scan leaves [ptr] at slot [x], one past the table when
    no entry has the descriptor, and the stores go through [ptr]. *)
Definition destroyDataLooperThread (g : globals) (fd0 : Z) (join_ret : Z)
  : outcome result :=
  let t := fd_looper_info g in
  let '(x, found) := scan fd t fd0 in
  let tid := if found then data_thread_id (slot t x) else 0 in
  t ← update_slot table_name t x (set_data_thread_exit 1);
  let calls := [EvfdWrite (evfd (slot t x)); PthreadJoin tid] in
  if negb (join_ret =? 0) then Done (-1 * join_ret, with_table t g, calls)
  else
    t ← update_slot table_name t x (set_data_thread_id 0);
    t ← (if event_thread_id (slot t x) =? 0
          then update_slot table_name t x (set_fd (-1)) else Done t);
    Done (0, with_table t g, calls).

(** [destroyEventLooperThread(fd)]. [kill_ret] is what [pthread_kill]
    returns. *)
Definition destroyEventLooperThread (g : globals) (fd0 : Z)
    (kill_ret join_ret : Z) : outcome result :=
  let t := fd_looper_info g in
  let '(x, found) := scan fd t fd0 in
  let tid := if found then event_thread_id (slot t x) else 0 in
  t ← update_slot table_name t x (set_event_thread_exit 1);
  if negb (kill_ret =? 0) then
    Done (-1 * kill_ret, with_table t g, [PthreadKill tid])
  else
    let calls := [PthreadKill tid; PthreadJoin tid] in
    if negb (join_ret =? 0) then Done (-1 * join_ret, with_table t g, calls)
    else
      t ← update_slot table_name t x (set_event_thread_id 0);
      t ← (if data_thread_id (slot t x) =? 0
            then update_slot table_name t x (set_fd (-1)) else Done t);
      Done (0, with_table t g, calls).

End Registry.

(* ================================================================== *)
(** ** The table of port monitors *)

Module Monitor.

(** [struct port_info], with the fields the file assigns. A [char *] is
    [None] when it is [NULL]. *)
Record port_info := {
  jvm : Z;
  portName : option string;
  fd : Z;
  port_listener : Z;
  thread_exit : Z;
  mutex : Z;
  thread_id : Z
}.

Definition zero_info : port_info :=
  {| jvm := 0; portName := None; fd := 0; port_listener := 0;
     thread_exit := 0; mutex := 0; thread_id := 0 |}.

#[global] Instance port_info_inhabited : Inhabited port_info :=
  populate zero_info.

Definition set_fd (v : Z) (p : port_info) :=
  {| jvm := jvm p; portName := portName p; fd := v;
     port_listener := port_listener p; thread_exit := thread_exit p;
     mutex := mutex p; thread_id := thread_id p |}.

Definition set_thread_exit (v : Z) (p : port_info) :=
  {| jvm := jvm p; portName := portName p; fd := fd p;
     port_listener := port_listener p; thread_exit := v;
     mutex := mutex p; thread_id := thread_id p |}.

Definition set_thread_id (v : Z) (p : port_info) :=
  {| jvm := jvm p; portName := portName p; fd := fd p;
     port_listener := port_listener p; thread_exit := thread_exit p;
     mutex := mutex p; thread_id := v |}.

(** [jvm], [port_monitor_index], [port_monitor_info] and the address of
    [mutex]. *)
Record globals := {
  g_jvm : Z;
  g_mutex : Z;
  port_monitor_index : Z;
  port_monitor_info : list port_info
}.

Definition with_table (t : list port_info) (g : globals) :=
  {| g_jvm := g_jvm g; g_mutex := g_mutex g;
     port_monitor_index := port_monitor_index g;
     port_monitor_info := t |}.

Definition with_index (i : Z) (g : globals) :=
  {| g_jvm := g_jvm g; g_mutex := g_mutex g; port_monitor_index := i;
     port_monitor_info := port_monitor_info g |}.

Definition initial (jvm0 mutex0 : Z) : globals :=
  {| g_jvm := jvm0; g_mutex := mutex0; port_monitor_index := 0;
     port_monitor_info := replicate (Z.to_nat MAX_NUM_THREADS) zero_info |}.

Definition table_name : string := "port_monitor_info".

Definition result : Type := Z * globals * list thread_call.

(** [registerPortMonitorListener(fd, portName, listener)]. [newref] is
    what [NewGlobalRef] returns, [chars] what [GetStringUTFChars]
    returns for [portName], [cr] what [pthread_create] returns;
    [junk] is what the local [params.thread_id], never assigned, holds. *)
Definition registerPortMonitorListener (g : globals) (fd0 : Z)
    (chars : option string) (newref : Z) (junk : Z) (cr : create_result)
  : outcome result :=
  if newref =? 0 then Done (-240, g, [])
  else
    let params :=
      {| jvm := g_jvm g; portName := chars; fd := fd0;
         port_listener := newref; thread_exit := 0; mutex := g_mutex g;
         thread_id := junk |} in
    let arg := port_monitor_index g in
    t ← store_slot table_name (port_monitor_info g) arg params;
    let calls := [PthreadCreate "port_monitor" arg] in
    if cr_ret cr <? 0 then Done (-1 * cr_errno cr, with_table t g, calls)
    else
      t ← update_slot table_name t arg (set_thread_id (cr_tid cr));
      Done (0, with_index (port_monitor_index g + 1) (with_table t g), calls).

(** [unregisterPortMonitorListener(fd)]; only Linux signals the
    thread. *)
Definition unregisterPortMonitorListener (p : platform) (g : globals)
    (fd0 : Z) (kill_ret join_ret : Z) : outcome result :=
  let t := port_monitor_info g in
  let '(x, found) := scan fd t fd0 in
  let tid := if found then thread_id (slot t x) else 0 in
  t ← update_slot table_name t x (set_thread_exit 1);
  let killed :=
    match p with Linux => [PthreadKill tid] | _ => [] end in
  if match p with Linux => negb (kill_ret =? 0) | _ => false end then
    Done (-1 * kill_ret, with_table t g, killed)
  else
    let calls := killed ++ [PthreadJoin tid] in
    if negb (join_ret =? 0) then Done (-1 * join_ret, with_table t g, calls)
    else
      t ← update_slot table_name t x (set_thread_id 0);
      t ← update_slot table_name t x (set_fd (-1));
      Done (0, with_table t g, calls).

(** The number of entries of the table that monitor [name]. *)
Definition monitors_of (name : string) (t : list port_info) : nat :=
  length (filter (fun e => portName e = Some name) t).

End Monitor.

(* ================================================================== *)
(** ** configureComPortData and configureComPortControl *)

Module Termios.

(** The control block, [struct termios] or [struct termios2]. *)
Record termios := {
  c_iflag : Z;
  c_oflag : Z;
  c_cflag : Z;
  c_lflag : Z;
  c_cc : list Z;
  c_ispeed : Z;
  c_ospeed : Z
}.

(** The macros of <termios.h> the two functions use. [CMSPAR] and
    [PAREXT] are [None] where the header does not define them; a macro
    that only one platform's branch uses is read on that platform only.
    [Bmacro n] is the value of the macro [Bn] ([B0], [B50], ...). *)
Class termios_consts := {
  IXON : Z; IXOFF : Z; INPCK : Z; IGNPAR : Z; PARMRK : Z; IMAXBEL : Z;
  CSIZE : Z; CS5 : Z; CS6 : Z; CS7 : Z; CS8 : Z; CSTOPB : Z;
  PARENB : Z; PARODD : Z; CRTSCTS : Z; CBAUD : Z; BOTHER : Z;
  CRTS_IFLOW : Z; CCTS_OFLOW : Z; CRTSXOFF : Z;
  CMSPAR : option Z; PAREXT : option Z;
  VSTART : Z; VSTOP : Z;
  Bmacro : Z -> Z
}.

Definition set_iflag (v : Z) (c : termios) :=
  {| c_iflag := v; c_oflag := c_oflag c; c_cflag := c_cflag c;
     c_lflag := c_lflag c; c_cc := c_cc c; c_ispeed := c_ispeed c;
     c_ospeed := c_ospeed c |}.

Definition set_cflag (v : Z) (c : termios) :=
  {| c_iflag := c_iflag c; c_oflag := c_oflag c; c_cflag := v;
     c_lflag := c_lflag c; c_cc := c_cc c; c_ispeed := c_ispeed c;
     c_ospeed := c_ospeed c |}.

Definition set_cc (v : list Z) (c : termios) :=
  {| c_iflag := c_iflag c; c_oflag := c_oflag c; c_cflag := c_cflag c;
     c_lflag := c_lflag c; c_cc := v; c_ispeed := c_ispeed c;
     c_ospeed := c_ospeed c |}.

(** [(speed_t) x]: the speed fields of [struct termios2] are unsigned
    and 32 bits wide, and the code assigns an [int] to them. *)
Definition speed_t (x : Z) : Z := x mod 2 ^ 32.

(** [c.c_ispeed = i; c.c_ospeed = o;] *)
Definition set_speeds (i o : Z) (c : termios) :=
  {| c_iflag := c_iflag c; c_oflag := c_oflag c; c_cflag := c_cflag c;
     c_lflag := c_lflag c; c_cc := c_cc c; c_ispeed := speed_t i;
     c_ospeed := speed_t o |}.

(** [flags |= m] and [flags &= ~m]. *)
Definition bis (flags m : Z) : Z := Z.lor flags m.
Definition bic (flags m : Z) : Z := Z.land flags (Z.lnot m).

Definition iflag_or (m : Z) (c : termios) := set_iflag (bis (c_iflag c) m) c.
Definition iflag_clear (m : Z) (c : termios) := set_iflag (bic (c_iflag c) m) c.
Definition cflag_or (m : Z) (c : termios) := set_cflag (bis (c_cflag c) m) c.
Definition cflag_clear (m : Z) (c : termios) := set_cflag (bic (c_cflag c) m) c.

(** Is every bit of [m] set in [flags]? *)
Definition has_bits (flags m : Z) : bool := Z.land flags m =? m.
(** Is no bit of [m] set in [flags]? *)
Definition no_bits (flags m : Z) : bool := Z.land flags m =? 0.

(** A system call's return value and [errno] after it. *)
Record sys_result := { s_ret : Z; s_errno : Z }.

Definition ok : sys_result := {| s_ret := 0; s_errno := 0 |}.

(** What the functions ask of the system, in order. *)
Inductive term_call :=
| GetAttr (fd : Z)                      (* TCGETS2 or tcgetattr *)
| SetCustomSpeed (fd : Z) (c : termios) (* TCSETS2 with BOTHER *)
| SetIOSSIOSPEED (fd : Z) (speed : Z)
| Cfsetspeed (baud : Z)
| SetAttr (fd : Z) (c : termios)        (* TCSETS2 or tcsetattr *)
| Flush (fd : Z).                       (* TCFLSH or tcflush, TCIOFLUSH *)

(** What the system answers to one call of [configureComPortData] or
    [configureComPortControl]: the result of reading the control block
    and the block read, the result of the call that sets the speed, the
    block as [cfsetspeed] leaves it, the result of writing the block. *)
Record answers := {
  a_get : sys_result;
  a_current : termios;
  a_speed : sys_result;
  a_cfsetspeed : termios -> Z -> termios;
  a_set : sys_result
}.

Section Configure.
Context {T : termios_consts}.

(** [switch (baudRateTranslated)] *)
Definition baud_of (baudRateTranslated : Z) : Z :=
  let b := baudRateTranslated in
  if b =? 0 then Bmacro 0 else if b =? 50 then Bmacro 50
  else if b =? 75 then Bmacro 75 else if b =? 110 then Bmacro 110
  else if b =? 134 then Bmacro 134 else if b =? 150 then Bmacro 150
  else if b =? 200 then Bmacro 200 else if b =? 300 then Bmacro 300
  else if b =? 600 then Bmacro 600 else if b =? 1200 then Bmacro 1200
  else if b =? 1800 then Bmacro 1800 else if b =? 2400 then Bmacro 2400
  else if b =? 4800 then Bmacro 4800 else if b =? 9600 then Bmacro 9600
  else if b =? 14400 then 14400 else if b =? 19200 then Bmacro 19200
  else if b =? 28800 then 28800 else if b =? 38400 then Bmacro 38400
  else if b =? 56000 then 56000 else if b =? 57600 then Bmacro 57600
  else if b =? 115200 then Bmacro 115200 else if b =? 128000 then 128000
  else if b =? 153600 then 153600 else if b =? 230400 then Bmacro 230400
  else if b =? 256000 then 256000 else if b =? 460800 then 460800
  else if b =? 500000 then 500000 else if b =? 576000 then 576000
  else if b =? 921600 then 921600 else if b =? 1000000 then 1000000
  else if b =? 1152000 then 1152000 else if b =? 1500000 then 1500000
  else if b =? 2000000 then 2000000 else if b =? 2500000 then 2500000
  else if b =? 3000000 then 3000000 else if b =? 3500000 then 3500000
  else if b =? 4000000 then 4000000 else -1.

(** The extended-parity bit of the platform, 0 when it has none. *)
Definition stick_bit : Z :=
  match CMSPAR, PAREXT with
  | Some m, _ => m
  | None, Some m => m
  | None, None => 0
  end.

Definition set_data_bits (dataBits : Z) (c : termios) : termios :=
  let c := cflag_clear CSIZE c in
  if dataBits =? 5 then cflag_or CS5 c
  else if dataBits =? 6 then cflag_or CS6 c
  else if dataBits =? 7 then cflag_or CS7 c
  else if dataBits =? 8 then cflag_or CS8 c
  else c.

Definition set_stop_bits (stopBits : Z) (c : termios) : termios :=
  if stopBits =? 1 then cflag_clear CSTOPB c else cflag_or CSTOPB c.

Definition set_parity (parity : Z) (c : termios) : termios :=
  let c := cflag_clear (Z.lor (Z.lor PARENB PARODD) stick_bit) c in
  if parity =? 1 then cflag_clear PARENB c
  else if parity =? 2 then
    iflag_or INPCK (cflag_or (Z.lor PARENB PARODD) c)
  else if parity =? 3 then
    iflag_or INPCK (cflag_clear PARODD (cflag_or PARENB c))
  else if parity =? 4 then
    let c := match CMSPAR, PAREXT with
             | None, None => c
             | _, _ => cflag_or (Z.lor (Z.lor PARENB PARODD) stick_bit) c
             end in
    iflag_or INPCK c
  else if parity =? 5 then
    let c := match CMSPAR, PAREXT with
             | None, None => c
             | _, _ => cflag_or (Z.lor PARENB stick_bit) c
             end in
    iflag_or INPCK (cflag_clear PARODD c)
  else c.

(** The part of [configureComPortData] after the speed: data bits, stop
    bits, parity, then the block is written and both queues flushed. *)
Definition data_tail (p : platform) (a : answers) (fd : Z)
    (dataBits stopBits parity : Z) (c : termios) (calls : list term_call)
  : Z * list term_call :=
  let c := set_parity parity (set_stop_bits stopBits (set_data_bits dataBits c)) in
  let calls := calls ++ [SetAttr fd c] in
  match p with
  | Linux => (0, calls ++ [Flush fd])
  | _ => if s_ret (a_set a) <? 0 then (-1 * s_errno (a_set a), calls)
         else (0, calls ++ [Flush fd])
  end.

Definition configureComPortData (p : platform) (a : answers) (fd : Z)
    (dataBits stopBits parity baudRateTranslated custBaudTranslated : Z)
  : Z * list term_call :=
  let calls := [GetAttr fd] in
  if s_ret (a_get a) <? 0 then (-1 * s_errno (a_get a), calls)
  else
    let c := a_current a in
    if baudRateTranslated =? 251 then
      match p with
      | Linux =>
          let c := cflag_or BOTHER (cflag_clear CBAUD c) in
          let c := set_speeds custBaudTranslated custBaudTranslated c in
          let calls := calls ++ [SetCustomSpeed fd c] in
          if s_ret (a_speed a) <? 0 then (-1 * s_errno (a_speed a), calls)
          else data_tail p a fd dataBits stopBits parity c calls
      | Apple =>
          let calls := calls ++ [SetIOSSIOSPEED fd custBaudTranslated] in
          if s_ret (a_speed a) <? 0 then (-1 * s_errno (a_speed a), calls)
          else data_tail p a fd dataBits stopBits parity c calls
      | SunOS =>
          (* a message on stderr, and nothing else *)
          data_tail p a fd dataBits stopBits parity c calls
      end
    else
      let baud := baud_of baudRateTranslated in
      match p with
      | Linux =>
          data_tail p a fd dataBits stopBits parity (set_speeds baud baud c)
            calls
      | _ =>
          let calls := calls ++ [Cfsetspeed baud] in
          if s_ret (a_speed a) <? 0 then (-1 * s_errno (a_speed a), calls)
          else data_tail p a fd dataBits stopBits parity
                 (a_cfsetspeed a c baud) calls
      end.

(** A [jchar] stored in a [cc_t], an unsigned char. *)
Definition cc_t (ch : Z) : Z := ch mod 256.

(** The flow-control part of [configureComPortControl]. *)
Definition set_flow_control (p : platform) (flowctrl xon xoff : Z)
    (c : termios) : termios :=
  if flowctrl =? 1 then
    let c := iflag_clear (Z.lor IXON IXOFF) c in
    match p with
    | Linux => cflag_clear CRTSCTS c
    | Apple =>
        cflag_clear CCTS_OFLOW (cflag_clear CRTS_IFLOW (cflag_clear CRTSCTS c))
    | SunOS => cflag_clear CRTSCTS (cflag_clear CRTSXOFF c)
    end
  else if flowctrl =? 2 then
    let c := iflag_clear (Z.lor IXON IXOFF) c in
    match p with
    | Linux => cflag_or CRTSCTS c
    | Apple => cflag_or CCTS_OFLOW (cflag_or CRTS_IFLOW (cflag_or CRTSCTS c))
    | SunOS => cflag_or CRTSCTS (cflag_or CRTSXOFF c)
    end
  else if flowctrl =? 3 then
    let c := cflag_clear CRTSCTS c in
    let c := iflag_or (Z.lor IXON IXOFF) c in
    let c := set_cc (<[Z.to_nat VSTART := cc_t xon]> (c_cc c)) c in
    set_cc (<[Z.to_nat VSTOP := cc_t xoff]> (c_cc c)) c
  else c.

(** [configureComPortControl]; the result also holds the control block
    the function ends with. *)
Definition configureComPortControl (p : platform) (a : answers) (fd : Z)
    (flowctrl xon xoff : Z) (ParFraError overFlowErr : bool)
  : Z * termios * list term_call :=
  let calls := [GetAttr fd] in
  let c := a_current a in
  if s_ret (a_get a) <? 0 then (-1 * s_errno (a_get a), c, calls)
  else
    let c := set_flow_control p flowctrl xon xoff c in
    if ParFraError && negb (Z.land (c_cflag c) PARENB =? PARENB) then
      (-242, c, calls)
    else
      let c :=
        if ParFraError then iflag_or PARMRK (iflag_clear IGNPAR c)
        else iflag_clear PARMRK (iflag_clear IGNPAR
               (iflag_or PARMRK (iflag_or IGNPAR c))) in
      let c := if overFlowErr then iflag_or IMAXBEL c
               else iflag_clear IMAXBEL c in
      let calls := calls ++ [SetAttr fd c] in
      if s_ret (a_set a) <? 0 then (-1 * s_errno (a_set a), c, calls)
      else (0, c, calls ++ [Flush fd]).

End Configure.

(** The codes of the [Bn] macros of Solaris. *)
Definition solaris_Bmacro (n : Z) : Z :=
  match n with
  | 0 => 0 | 50 => 1 | 75 => 2 | 110 => 3 | 134 => 4 | 150 => 5
  | 200 => 6 | 300 => 7 | 600 => 8 | 1200 => 9 | 1800 => 10
  | 2400 => 11 | 4800 => 12 | 9600 => 13 | 19200 => 14 | 38400 => 15
  | 57600 => 16 | 115200 => 18 | 230400 => 20
  | _ => -1
  end.

(** The macros as Solaris defines them in <sys/termios.h>, for the
    examples. Solaris has no [BOTHER], [CRTS_IFLOW], [CCTS_OFLOW] or
    [CMSPAR], and its branches read none of them. *)
Definition solaris_consts : termios_consts :=
  {| IXON := 0x400; IXOFF := 0x1000; INPCK := 0x10; IGNPAR := 0x4;
     PARMRK := 0x8; IMAXBEL := 0x2000;
     CSIZE := 0x30; CS5 := 0; CS6 := 0x10; CS7 := 0x20; CS8 := 0x30;
     CSTOPB := 0x40; PARENB := 0x100; PARODD := 0x200;
     CRTSCTS := 0x80000000; CBAUD := 0xF; BOTHER := 0;
     CRTS_IFLOW := 0; CCTS_OFLOW := 0; CRTSXOFF := 0x40000000;
     CMSPAR := None; PAREXT := Some 0x100000;
     VSTART := 8; VSTOP := 9;
     Bmacro := solaris_Bmacro |}.

End Termios.

(* ================================================================== *)
(** ** States and answers of the examples *)

Module Examples.

(** [pthread_create] succeeded and named the thread [tid]. *)
Definition started (tid : Z) : create_result :=
  {| cr_ret := 0; cr_errno := 0; cr_tid := tid |}.

(** A thread that stores 1 in its flag before the third read of the
    caller. *)
Definition ready : flag_script := [None; None; Some 1].

(** The entry of the listener table that a data listener on descriptor
    [d], started from globals with [jvm = 7] and [&mutex = 9], leaves. *)
Definition data_entry (d : Z) : Registry.com_thread_params :=
  {| Registry.jvm := 7; Registry.fd := d; Registry.looper := 9000 + d;
     Registry.data_thread_id := 5000 + d; Registry.event_thread_id := 0;
     Registry.evfd := 0; Registry.data_thread_exit := 0;
     Registry.event_thread_exit := 0; Registry.mutex := 9;
     Registry.data_init_done := 1; Registry.event_init_done := 0 |}.

(** [n] data listeners registered one after the other, on the
    descriptors [d], [d + 1], ... *)
Fixpoint register_data (n : nat) (d : Z) (g : Registry.globals)
  : outcome Registry.globals :=
  match n with
  | O => Done g
  | S n' =>
      r ← Registry.setUpDataLooperThread g d (9000 + d)
            (started (5000 + d)) ready;
      register_data n' (d + 1) r.1.2
  end.

(** The listener table with a data listener on each of the descriptors
    3, ..., 1026. *)
Definition full_registry : Registry.globals :=
  {| Registry.g_jvm := 7; Registry.g_mutex := 9;
     Registry.dtp_index := MAX_NUM_THREADS;
     Registry.fd_looper_info :=
       map (fun k => data_entry (3 + Z.of_nat k))
         (seq 0 (Z.to_nat MAX_NUM_THREADS)) |}.

(** The listener table with one entry in slot 0, for descriptor 5. *)
Definition one_entry (e : Registry.com_thread_params) : Registry.globals :=
  {| Registry.g_jvm := 7; Registry.g_mutex := 9; Registry.dtp_index := 1;
     Registry.fd_looper_info :=
       <[0%nat := e]> (Registry.fd_looper_info (Registry.initial 7 9)) |}.

(** Descriptor 5 with a data listener only, and with both listeners. *)
Definition data_only : Registry.globals := one_entry (data_entry 5).
Definition both_listeners : Registry.globals :=
  one_entry
    (Registry.set_event_init_done 1
       (Registry.set_event_thread_id 6005 (data_entry 5))).

(** The monitor table after one monitor was registered for [name] on
    descriptor 5. *)
Definition monitor_entry (name : string) (tid : Z) : Monitor.port_info :=
  {| Monitor.jvm := 7; Monitor.portName := Some name; Monitor.fd := 5;
     Monitor.port_listener := 300; Monitor.thread_exit := 0;
     Monitor.mutex := 9; Monitor.thread_id := tid |}.

Definition one_monitor (name : string) : Monitor.globals :=
  {| Monitor.g_jvm := 7; Monitor.g_mutex := 9;
     Monitor.port_monitor_index := 1;
     Monitor.port_monitor_info :=
       <[0%nat := monitor_entry name 41]>
         (Monitor.port_monitor_info (Monitor.initial 7 9)) |}.

Definition two_monitors (name : string) : Monitor.globals :=
  {| Monitor.g_jvm := 7; Monitor.g_mutex := 9;
     Monitor.port_monitor_index := 2;
     Monitor.port_monitor_info :=
       <[1%nat := monitor_entry name 42]>
         (Monitor.port_monitor_info (one_monitor name)) |}.

(** A control block of Solaris: 8 data bits, receiver enabled, no flow
    control, 19 control characters. *)
Definition plain_block : Termios.termios :=
  {| Termios.c_iflag := 0; Termios.c_oflag := 0;
     Termios.c_cflag := 0xB0; Termios.c_lflag := 0;
     Termios.c_cc := replicate 19 0;
     Termios.c_ispeed := 0; Termios.c_ospeed := 0 |}.

(** Every call succeeds and the control block read is [c]. *)
Definition all_ok (c : Termios.termios) : Termios.answers :=
  {| Termios.a_get := Termios.ok; Termios.a_current := c;
     Termios.a_speed := Termios.ok;
     Termios.a_cfsetspeed := fun c _ => c;
     Termios.a_set := Termios.ok |}.

End Examples.


(* ================================================================== *)
(** ** Modem lines and queues *)

Module Lines.

(** The [TIOCM_*] bits of <sys/ioctl.h>. *)
Class modem_consts := {
  TIOCM_RTS : Z; TIOCM_DTR : Z; TIOCM_CTS : Z; TIOCM_DSR : Z;
  TIOCM_CD : Z; TIOCM_RI : Z
}.

(** The bits as Linux, mac OS and Solaris define them. *)
Definition unix_modem_consts : modem_consts :=
  {| TIOCM_RTS := 0x004; TIOCM_DTR := 0x002; TIOCM_CTS := 0x020;
     TIOCM_DSR := 0x100; TIOCM_CD := 0x040; TIOCM_RI := 0x080 |}.

(** The queue argument of [tcflush]. *)
Inductive queue_selector := TCIFLUSH | TCOFLUSH | TCIOFLUSH.

(** What the functions ask of the system, in order. *)
Inductive line_call :=
| ModemGet (fd : Z)                 (* TIOCMGET *)
| ModemSet (fd : Z) (status : Z)    (* TIOCMSET *)
| Tcflush (fd : Z) (q : queue_selector).

Section LineFunctions.
Context {M : modem_consts}.

(** The body that [setRTS] and [setDTR] share, for the bit [line].
    [get] is what [TIOCMGET] returns and [status] the word it stores,
    [set] what [TIOCMSET] returns. *)
Definition set_line (line : Z) (get : Termios.sys_result) (status : Z)
    (set : Termios.sys_result) (fd : Z) (enabled : bool)
  : Z * list line_call :=
  if Termios.s_ret get <? 0 then (-1 * Termios.s_errno get, [ModemGet fd])
  else
    let status :=
      if enabled then Z.lor status line
      else Z.land status (Z.lnot line) in
    let calls := [ModemGet fd; ModemSet fd status] in
    if Termios.s_ret set <? 0 then (-1 * Termios.s_errno set, calls)
    else (0, calls).

Definition setRTS := set_line TIOCM_RTS.
Definition setDTR := set_line TIOCM_DTR.

(** [(lines_status & bit) ? 1 : 0] *)
Definition asserted (lines_status bit : Z) : Z :=
  if Z.land lines_status bit =? 0 then 0 else 1.

(** [getLinesStatus]: the eight elements of the array returned. *)
Definition getLinesStatus (get : Termios.sys_result) (lines_status : Z)
    (fd : Z) : list Z :=
  if Termios.s_ret get <? 0 then
    [-1 * Termios.s_errno get; 0; 0; 0; 0; 0; 0; 0]
  else
    [0;
     asserted lines_status TIOCM_CTS;
     asserted lines_status TIOCM_DSR;
     asserted lines_status TIOCM_CD;
     asserted lines_status TIOCM_RI;
     0;
     asserted lines_status TIOCM_RTS;
     asserted lines_status TIOCM_DTR].

End LineFunctions.

(** [clearPortIOBuffers]; [res] is what [tcflush] returns. *)
Definition clearPortIOBuffers (res : Termios.sys_result) (fd : Z)
    (rxPortbuf txPortbuf : bool) : Z * list line_call :=
  let flush q :=
    if Termios.s_ret res <? 0
    then (-1 * Termios.s_errno res, [Tcflush fd q])
    else (0, [Tcflush fd q]) in
  if rxPortbuf && txPortbuf then flush TCIOFLUSH
  else if rxPortbuf then flush TCIFLUSH
  else if txPortbuf then flush TCOFLUSH
  else (0, []).

(** Does a call discard the input queue, the output queue? *)
Definition discards_input (c : line_call) : bool :=
  match c with
  | Tcflush _ TCIFLUSH | Tcflush _ TCIOFLUSH => true
  | _ => false
  end.
Definition discards_output (c : line_call) : bool :=
  match c with
  | Tcflush _ TCOFLUSH | Tcflush _ TCIOFLUSH => true
  | _ => false
  end.

End Lines.

(* ================================================================== *)
(** ** Opening and closing a port *)

Module Port.
Import Termios.

(** The macros [openComPort] uses beyond those of [termios_consts]. A
    macro the file tests with [#ifdef] is [None] where the header does
    not define it. [NCCS] is the size of [c_cc]. *)
Class open_consts := {
  O_RDWR : Z; O_RDONLY : Z; O_WRONLY : Z; O_NOCTTY : Z; O_NONBLOCK : Z;
  CREAD : Z; CLOCAL : Z; HUPCL : Z; MDMBUF : Z;
  NCCS : Z; VMIN : Z; VTIME : Z;
  BRKINT : Z; ISTRIP : Z; INLCR : Z; IGNCR : Z; ICRNL : Z; IXANY : Z;
  IGNBRK : Z; IUCLC : option Z;
  OPOST : Z; ONLCR : Z; OCRNL : Z; ONOCR : Z; ONLRET : Z;
  OXTABS : option Z; ONOEOT : option Z;
  ECHO : Z; ECHOE : Z; ECHOK : Z; ECHONL : Z; ECHOCTL : Z; ECHOPRT : Z;
  ECHOKE : Z; ICANON : Z; ISIG : Z; IEXTEN : Z
}.

(** What the two functions ask of the system, in order. *)
Inductive port_call :=
| Open (path : string) (flags : Z)
| ReleaseChars
| Exclusive (fd : Z)                    (* TIOCEXCL *)
| SetSpeed (baud : Z)                   (* cfsetspeed *)
| SetAttr (fd : Z) (c : termios)        (* TCSETS2 or tcsetattr *)
| Flush (fd : Z)                        (* TCFLSH or tcflush, TCIOFLUSH *)
| Drain (fd : Z)                        (* TCSBRK or tcdrain *)
| NotExclusive (fd : Z)                 (* TIOCNXCL *)
| Close (fd : Z).

(** Is the call a [close]? *)
Definition is_close (c : port_call) : bool :=
  match c with Close _ => true | _ => false end.

(** What the system answers to one call of [openComPort]: the
    descriptor [open] returns and [errno] after it, the results of
    [TIOCEXCL], of [cfsetspeed] with the block as it leaves it, and of
    writing the block. *)
Record open_answers := {
  o_fd : Z; o_errno : Z;
  o_excl : sys_result;
  o_speed : sys_result;
  o_cfsetspeed : termios -> Z -> termios;
  o_set : sys_result
}.

Definition oflag_clear (m : Z) (c : termios) :=
  {| c_iflag := c_iflag c; c_oflag := bic (c_oflag c) m;
     c_cflag := c_cflag c; c_lflag := c_lflag c; c_cc := c_cc c;
     c_ispeed := c_ispeed c; c_ospeed := c_ospeed c |}.

Definition lflag_clear (m : Z) (c : termios) :=
  {| c_iflag := c_iflag c; c_oflag := c_oflag c;
     c_cflag := c_cflag c; c_lflag := bic (c_lflag c) m; c_cc := c_cc c;
     c_ispeed := c_ispeed c; c_ospeed := c_ospeed c |}.

(** [m1 | m2 | ...] *)
Definition bits (ms : list Z) : Z := foldr Z.lor 0 ms.

(** [#ifdef M  flags &= ~M;  #endif] *)
Definition clear_if_defined (clear : Z -> termios -> termios)
    (m : option Z) (c : termios) : termios :=
  match m with Some m => clear m c | None => c end.

Section OpenClose.
Context {T : termios_consts} {O : open_consts}.

(** [struct termios settings = {0}] *)
Definition zero_settings : termios :=
  {| c_iflag := 0; c_oflag := 0; c_cflag := 0; c_lflag := 0;
     c_cc := replicate (Z.to_nat NCCS) 0; c_ispeed := 0; c_ospeed := 0 |}.

(** The settings [openComPort] builds before it sets the speed. *)
Definition default_settings (p : platform) : termios :=
  let c := zero_settings in
  let c := cflag_clear CRTSCTS c in
  let c := cflag_clear CSIZE c in
  let c := cflag_clear PARENB c in
  let c := cflag_clear CSTOPB c in
  let c := cflag_or (bits [CS8; CREAD; CLOCAL]) c in
  let c := cflag_or HUPCL c in
  let c := match p with Apple => cflag_clear MDMBUF c | _ => c end in
  let c := set_cc (<[Z.to_nat VMIN := 1]> (c_cc c)) c in
  let c := set_cc (<[Z.to_nat VTIME := 1]> (c_cc c)) c in
  let c := iflag_clear
             (bits [BRKINT; PARMRK; ISTRIP; INLCR; IGNCR; ICRNL; IXON;
                    IXOFF; IXANY; INPCK; IGNPAR]) c in
  let c := iflag_or IGNBRK c in
  let c := clear_if_defined iflag_clear IUCLC c in
  let c := oflag_clear (bits [OPOST; ONLCR; OCRNL; ONOCR; ONLRET]) c in
  let c := clear_if_defined oflag_clear OXTABS c in
  let c := clear_if_defined oflag_clear ONOEOT c in
  lflag_clear
    (bits [ECHO; ECHOE; ECHOK; ECHONL; ECHOCTL; ECHOPRT; ECHOKE; ICANON;
           ISIG; IEXTEN]) c.

(** [OPEN_MODE], -1 when neither reading nor writing is enabled. *)
Definition open_mode (enableRead enableWrite : bool) : Z :=
  if enableRead && enableWrite then O_RDWR
  else if enableRead then O_RDONLY
  else if enableWrite then O_WRONLY
  else -1.

(** [openComPort]; [chars] is what [GetStringUTFChars] returns for
    [portName]. *)
Definition openComPort (p : platform) (a : open_answers)
    (chars : option string)
    (enableRead enableWrite exclusiveOwner : bool)
  : Z * list port_call :=
  match chars with
  | None => (-240, [])
  | Some portpath =>
      let flags :=
        Z.lor (Z.lor (open_mode enableRead enableWrite) O_NOCTTY)
          O_NONBLOCK in
      let fd := o_fd a in
      if fd <? 0 then (-1 * o_errno a, [Open portpath flags; ReleaseChars])
      else
        let calls := [Open portpath flags; ReleaseChars] in
        let after_excl (calls : list port_call) : Z * list port_call :=
          let c := default_settings p in
          match p with
          | Linux =>
              let c := set_speeds (Bmacro 9600) (Bmacro 9600) c in
              let calls := calls ++ [SetAttr fd c] in
              if s_ret (o_set a) <? 0 then (-1 * s_errno (o_set a), calls)
              else (fd, calls ++ [Flush fd])
          | _ =>
              let calls := calls ++ [SetSpeed (Bmacro 9600)] in
              if s_ret (o_speed a) <? 0
              then (-1 * s_errno (o_speed a), calls)
              else
                let c := o_cfsetspeed a c (Bmacro 9600) in
                let calls := calls ++ [SetAttr fd c] in
                if s_ret (o_set a) <? 0 then (-1 * s_errno (o_set a), calls)
                else (fd, calls ++ [Flush fd])
          end in
        if exclusiveOwner then
          match p with
          | SunOS => (-241, calls)
          | _ =>
              let calls := calls ++ [Exclusive fd] in
              if s_ret (o_excl a) <? 0
              then (-1 * s_errno (o_excl a), calls)
              else after_excl calls
          end
        else after_excl calls
  end.

End OpenClose.

(** [closeComPort]; [drain], [nxcl] and [close] are what draining the
    output, [TIOCNXCL] and [close] return. *)
Definition closeComPort (p : platform)
    (drain nxcl close : sys_result) (fd : Z) : Z * list port_call :=
  let calls := [Drain fd] in
  let finish (calls : list port_call) : Z * list port_call :=
    let calls := calls ++ [Close fd] in
    if s_ret close <? 0 then (-1 * s_errno close, calls)
    else (s_ret close, calls) in
  match p with
  | SunOS => finish calls
  | _ =>
      let calls := calls ++ [NotExclusive fd] in
      if s_ret nxcl <? 0 then (-1 * s_errno nxcl, calls)
      else finish calls
  end.

End Port.

(* ================================================================== *)
(** ** Reading the configuration, and the minimum read length *)

Module Config.
Import Termios.

(** [(jint) x]: the low 32 bits of [x] as a signed integer. *)
Definition to_jint (x : Z) : Z := (x + 2 ^ 31) mod 2 ^ 32 - 2 ^ 31.

(** What [setMinDataLength] asks of the system. *)
Inductive config_call :=
| GetBlock (fd : Z)
| SetBlock (fd : Z) (c : termios).

(** [setMinDataLength]; [vmin] is the macro [VMIN]. *)
Definition setMinDataLength (vmin : Z) (get : sys_result) (c : termios)
    (set : sys_result) (fd numOfBytes : Z) : Z * list config_call :=
  if s_ret get <? 0 then (-1 * s_errno get, [GetBlock fd])
  else
    let c := set_cc (<[Z.to_nat vmin := cc_t numOfBytes]> (c_cc c)) c in
    let calls := [GetBlock fd; SetBlock fd c] in
    if s_ret set <? 0 then (-1 * s_errno set, calls)
    else (0, calls).

(** [c_cc[0]], ..., [c_cc[16]] *)
Definition control_chars (c : termios) : list Z :=
  map (fun i => to_jint (c_cc c !!! i)) (seq 0 17).

(** [getCurrentConfigurationU]: the elements of the array returned.
    [c_line] is the field of that name of [struct termios2]. On mac OS
    and Solaris the array has 23 elements, of which the function sets
    22; a new array holds 0. *)
Definition getCurrentConfigurationU (p : platform) (get : sys_result)
    (c : termios) (c_line : Z) (fd : Z) : list Z :=
  if s_ret get <? 0 then [-1]
  else
    match p with
    | Linux =>
        [0; to_jint (c_iflag c); to_jint (c_oflag c); to_jint (c_cflag c);
         to_jint (c_lflag c); to_jint c_line]
        ++ control_chars c
        ++ [to_jint (c_ispeed c); to_jint (c_ospeed c)]
    | _ =>
        [0; to_jint (c_iflag c); to_jint (c_oflag c); to_jint (c_cflag c);
         to_jint (c_lflag c)]
        ++ control_chars c
        ++ [0]
    end.

End Config.

(* ================================================================== *)
(** ** Scripts of writes *)

Module Script.

(** A [write] that accepts [r] bytes, and one that a signal interrupts
    before it accepts any. *)
Definition accepts (r : Z) : IO.write_result :=
  {| IO.w_ret := r; IO.w_errno := 0 |}.
Definition interrupted {E : errno_consts} : IO.write_result :=
  {| IO.w_ret := -1; IO.w_errno := EINTR |}.

(** The [write] calls of a transfer of [count] bytes from offset
    [index] that the system accepts in pieces of the sizes [rs]: each
    call starts where the pieces before it ended and asks for all that
    is left. *)
Fixpoint piece_calls (fd count index : Z) (rs : list Z)
  : list IO.io_call :=
  match rs with
  | [] => []
  | r :: rs' =>
      IO.SysWrite fd index count :: piece_calls fd (count - r) (index + r) rs'
  end.

(** The sum of the sizes. *)
Definition total (rs : list Z) : Z := foldr Z.add 0 rs.

End Script.

(* ================================================================== *)
(** ** More constants and blocks for the examples *)

Module Samples.

(** The macros as mac OS defines them in <sys/termios.h>. mac OS has no
    [CBAUD], [BOTHER], [CRTSXOFF], [CMSPAR] or [PAREXT], and its [Bn]
    macros are the rates themselves. *)
Definition apple_consts : Termios.termios_consts :=
  {| Termios.IXON := 0x200; Termios.IXOFF := 0x400; Termios.INPCK := 0x10;
     Termios.IGNPAR := 0x4; Termios.PARMRK := 0x8;
     Termios.IMAXBEL := 0x2000;
     Termios.CSIZE := 0x300; Termios.CS5 := 0; Termios.CS6 := 0x100;
     Termios.CS7 := 0x200; Termios.CS8 := 0x300;
     Termios.CSTOPB := 0x400; Termios.PARENB := 0x1000;
     Termios.PARODD := 0x2000;
     Termios.CRTSCTS := 0x30000; Termios.CBAUD := 0; Termios.BOTHER := 0;
     Termios.CRTS_IFLOW := 0x20000; Termios.CCTS_OFLOW := 0x10000;
     Termios.CRTSXOFF := 0;
     Termios.CMSPAR := None; Termios.PAREXT := None;
     Termios.VSTART := 12; Termios.VSTOP := 13;
     Termios.Bmacro := fun n => n |}.

(** The macros of [openComPort] as mac OS defines them. *)
Definition apple_open_consts : Port.open_consts :=
  {| Port.O_RDWR := 0x2; Port.O_RDONLY := 0x0; Port.O_WRONLY := 0x1;
     Port.O_NOCTTY := 0x20000; Port.O_NONBLOCK := 0x4;
     Port.CREAD := 0x800; Port.CLOCAL := 0x8000; Port.HUPCL := 0x4000;
     Port.MDMBUF := 0x100000;
     Port.NCCS := 20; Port.VMIN := 16; Port.VTIME := 17;
     Port.BRKINT := 0x2; Port.ISTRIP := 0x20; Port.INLCR := 0x40;
     Port.IGNCR := 0x80; Port.ICRNL := 0x100; Port.IXANY := 0x800;
     Port.IGNBRK := 0x1; Port.IUCLC := None;
     Port.OPOST := 0x1; Port.ONLCR := 0x2; Port.OCRNL := 0x10;
     Port.ONOCR := 0x20; Port.ONLRET := 0x40;
     Port.OXTABS := Some 0x4; Port.ONOEOT := Some 0x8;
     Port.ECHO := 0x8; Port.ECHOE := 0x2; Port.ECHOK := 0x4;
     Port.ECHONL := 0x10; Port.ECHOCTL := 0x40; Port.ECHOPRT := 0x20;
     Port.ECHOKE := 0x1; Port.ICANON := 0x100; Port.ISIG := 0x80;
     Port.IEXTEN := 0x400 |}.

(** A control block of mac OS: 8 data bits, receiver enabled, 20 control
    characters. *)
Definition apple_block : Termios.termios :=
  {| Termios.c_iflag := 0; Termios.c_oflag := 0;
     Termios.c_cflag := 0xB00; Termios.c_lflag := 0;
     Termios.c_cc := replicate 20 0;
     Termios.c_ispeed := 9600; Termios.c_ospeed := 9600 |}.

(** A call fails with [errno = e]. *)
Definition failed (e : Z) : Termios.sys_result :=
  {| Termios.s_ret := -1; Termios.s_errno := e |}.

End Samples.
(* ================================================================== *)
(** * Properties *)

(** ** readBytes and writeBytes *)

Section IOFacts.
Import IO.
Context {E : errno_consts}.

(** The copy loop moves the bytes of [buffer] from position [i] on to
    the same positions of [final_buf]. *)
Lemma copy_from_spec n i (buffer final_buf : list jbyte) :
  0 <= i ->
  (Z.to_nat i + n <= length buffer)%nat ->
  (Z.to_nat i + n <= length final_buf)%nat ->
  copy_from n i buffer final_buf =
    take (Z.to_nat i) final_buf ++ take n (drop (Z.to_nat i) buffer)
      ++ drop (Z.to_nat i + n) final_buf.
Proof.
  revert i final_buf. induction n as [|n IH]; intros i final_buf Hi Hb Hf.
  - simpl. rewrite Nat.add_0_r. by rewrite take_drop.
  - simpl copy_from. rewrite IH; [|lia|lia|rewrite length_insert; lia].
    replace (Z.to_nat (i + 1)) with (S (Z.to_nat i)) by lia.
    assert (Hlt : (Z.to_nat i < length buffer)%nat) by lia.
    destruct (lookup_lt_is_Some_2 buffer _ Hlt) as [b Hb'].
    rewrite (list_lookup_total_correct _ _ _ Hb').
    rewrite (take_S_r _ _ b);
      [|rewrite list_lookup_insert_eq; [done|lia]].
    rewrite take_insert_ge by lia.
    rewrite drop_insert_lt by lia.
    rewrite (drop_S _ _ _ Hb'). simpl.
    rewrite <- app_assoc. simpl.
    replace (S (Z.to_nat i + n))%nat with (Z.to_nat i + S n)%nat by lia.
    reflexivity.
Qed.

(** Every [read] is asked for [sizeof(buffer)] bytes. *)
Lemma read_loop_requests evs index partialData buffer final_buf :
  Forall (fun nbyte => nbyte = BUFFER_SIZE)
    (read_loop evs index partialData buffer final_buf).1.
Proof.
  revert index partialData buffer final_buf.
  induction evs as [|ev evs IH]; intros index partialData buffer final_buf.
  - constructor.
  - simpl. destruct (sys_read ev buffer BUFFER_SIZE) as [[ret errno] buffer'].
    repeat match goal with
    | |- context [if ?b then _ else _] => destruct b
    | |- context [let '(_, _) := read_loop ?a ?b ?c ?d ?e in _] =>
        let H := fresh in
        pose proof (IH b c d e) as H; destruct (read_loop a b c d e); simpl in H
    end; simpl; constructor; auto.
Qed.

(** A read that is interrupted before any byte arrives is repeated, and
    nothing of the state changes. *)
Lemma read_loop_retry evs index partialData buffer final_buf :
  EINTR <> EAGAIN -> EINTR <> EWOULDBLOCK ->
  read_loop (Fails EINTR :: evs) index partialData buffer final_buf =
  (BUFFER_SIZE :: (read_loop evs index partialData buffer final_buf).1,
   (read_loop evs index partialData buffer final_buf).2).
Proof.
  intros H1 H2. cbn [read_loop sys_read].
  change (-1 >? 0) with false. change (-1 <? 0) with true. cbn [andb].
  rewrite (proj2 (Z.eqb_neq _ _) H1), (proj2 (Z.eqb_neq _ _) H2).
  rewrite Z.eqb_refl. cbn [orb negb].
  by destruct (read_loop evs index partialData buffer final_buf).
Qed.

(** With one interrupted read of [d1] followed by one complete read of
    [d2], the array returned starts with [d1]; of [d2] it holds only the
    bytes beyond position [length d1], at their own positions, and the
    rest is what the uninitialised [final_buf] held. *)
Lemma readBytes_two_reads fd count buffer0 final0 d1 d2 evs :
  EINTR <> 0 ->
  length buffer0 = Z.to_nat BUFFER_SIZE ->
  length final0 = Z.to_nat FINAL_BUF_SIZE ->
  (0 < length d1 <= 1024)%nat -> (0 < length d2 <= 1024)%nat ->
  readBytes fd count buffer0 final0
    (Delivers d1 EINTR :: Delivers d2 0 :: evs) =
  ([1024; 1024],
   Some (ByteArray
     (d1 ++ drop (length d1) d2 ++
      take (length d1 + length d2 - length d1 `max` length d2)
        (drop (length d1 `max` length d2) final0)))).
Proof.
  intros HE Hb Hf H1 H2. unfold readBytes. cbn [read_loop sys_read].
  change (Z.to_nat BUFFER_SIZE) with 1024%nat in *.
  change (Z.to_nat FINAL_BUF_SIZE) with 3072%nat in *.
  rewrite !take_ge by lia.
  replace (Z.of_nat (length d1) >? 0) with true
    by (symmetry; apply Z.gtb_lt; lia).
  replace (EINTR =? 0) with false by (symmetry; by apply Z.eqb_neq).
  rewrite Z.eqb_refl. cbn [andb read_loop sys_read].
  change (Z.to_nat BUFFER_SIZE) with 1024%nat in *.
  rewrite (take_ge d2) by lia.
  replace (Z.of_nat (length d2) >? 0) with true
    by (symmetry; apply Z.gtb_lt; lia).
  cbn [andb Z.eqb]. change (1 =? 1) with true. cbv iota.
  change BUFFER_SIZE with 1024. f_equal. f_equal. f_equal.
  unfold copy_loop.
  rewrite Z.sub_0_r, Nat2Z.id.
  rewrite (copy_from_spec (length d1) 0);
    [|lia|rewrite length_app, length_drop; lia|lia].
  change (Z.to_nat 0) with 0%nat.
  rewrite take_0, drop_0, Nat.add_0_l. cbn [app].
  rewrite take_app_length.
  set (buffer2 := d2 ++ drop (length d2) (d1 ++ drop (length d1) buffer0)).
  set (final1 := d1 ++ drop (length d1) final0).
  assert (Hb2 : length buffer2 = 1024%nat).
  { unfold buffer2.
    rewrite length_app, length_drop, length_app, length_drop. lia. }
  assert (Hf1 : length final1 = 3072%nat).
  { unfold final1. rewrite length_app, length_drop. lia. }
  rewrite copy_from_spec; [|lia|lia|lia].
  replace (Z.to_nat (Z.of_nat (length d1) + Z.of_nat (length d2)))
    with (length d1 + length d2)%nat by lia.
  replace (Z.to_nat (Z.of_nat (length d2) - Z.of_nat (length d1)))
    with (length d2 - length d1)%nat by lia.
  rewrite Nat2Z.id.
  unfold final1 at 1. rewrite take_app_length.
  assert (Hmid : take (length d2 - length d1) (drop (length d1) buffer2)
                 = drop (length d1) d2).
  { unfold buffer2. rewrite drop_app.
    rewrite take_app. rewrite length_drop.
    rewrite (take_ge (drop _ d2)) by (rewrite length_drop; lia).
    rewrite Nat.sub_diag, take_0. by rewrite app_nil_r. }
  rewrite Hmid.
  rewrite !take_app. rewrite take_ge by lia.
  f_equal.
  rewrite (take_ge (drop _ d2)) by (rewrite length_drop; lia).
  f_equal. rewrite length_drop.
  unfold final1. rewrite drop_app.
  rewrite (drop_ge d1) by lia. cbn [app].
  rewrite drop_drop.
  f_equal; [lia|]. f_equal. lia.
Qed.

(** C1, at a failing input: [readBytes] on Linux ([EINTR = 4]), where a
    first [read] delivers the two bytes 1, 2 and leaves [errno = EINTR],
    and a second [read] delivers the two bytes 3, 4. The claim asks for
    the array 1, 2, 3, 4. The array returned has four elements, but its
    last two are not the bytes of the second read: they are whatever the
    uninitialised local array [final_buf] held at positions 2 and 3. The
    bytes 3 and 4 are dropped. *)
Theorem readBytes_partial_then_read_drops_second (fd count : Z)
    (g1 g2 : nat -> jbyte) :
  readBytes (E := linux_errno) fd count
    (stack_array BUFFER_SIZE g1) (stack_array FINAL_BUF_SIZE g2)
    [Delivers [1; 2] (EINTR (errno_consts := linux_errno));
     Delivers [3; 4] 0]
  = ([1024; 1024], Some (ByteArray [1; 2; g2 2%nat; g2 3%nat])).
Proof. vm_compute. reflexivity. Qed.

(** C9: [readBytes] does not read [count]. Whatever [count] is, the
    result is the same; every [read] is asked for 1024 bytes, the size of
    the local buffer; and when the first [read] delivers bytes without an
    interruption, the array returned holds the first 1024 of the bytes
    that were pending, so at most 1024 bytes, and never fewer because
    [count] is small. *)
Theorem readBytes_ignores_count (fd count count' : Z)
    (buffer0 final0 : list jbyte) (evs : list read_event)
    (x : jbyte) (pending : list jbyte) :
  readBytes fd count buffer0 final0 evs
    = readBytes fd count' buffer0 final0 evs
  /\ Forall (fun nbyte => nbyte = 1024)
       (readBytes fd count buffer0 final0 evs).1
  /\ readBytes fd count buffer0 final0 (Delivers (x :: pending) 0 :: evs)
     = ([1024], Some (ByteArray (take 1024 (x :: pending))))
  /\ (length (take 1024 (x :: pending)) <= 1024)%nat.
Proof.
  split; [reflexivity|]. split; [apply read_loop_requests|]. split.
  - unfold readBytes. cbn [read_loop sys_read].
    change (Z.to_nat BUFFER_SIZE) with 1024%nat.
    set (got := take 1024 (x :: pending)).
    assert (Hgot : (0 < length got)%nat) by (unfold got; simpl; lia).
    replace (Z.of_nat (length got) >? 0) with true
      by (symmetry; apply Z.gtb_lt; lia).
    cbn [andb Z.eqb]. change (-1 =? 1) with false. cbv iota.
    rewrite Nat2Z.id, take_app_length. reflexivity.
  - rewrite length_take. lia.
Qed.

(** *** writeBytes *)

(** While more than one byte is left, a failed [write] ends the function
    with the negated [errno], and the array is neither released nor the
    output drained. *)
Lemma write_loop_abort w ws fd count index :
  1 < count -> w_ret w < 0 -> w_errno w <> EINTR ->
  write_loop (w :: ws) fd count index =
    ([SysWrite fd index count], Some (-1 * w_errno w)).
Proof.
  intros Hc Hr He. cbn [write_loop].
  replace (count >? 0) with true by (symmetry; apply Z.gtb_lt; lia).
  replace (w_ret w =? 0) with false by (symmetry; apply Z.eqb_neq; lia).
  replace (1 =? count) with false by (symmetry; apply Z.eqb_neq; lia).
  replace (w_ret w <? 0) with true by (symmetry; apply Z.ltb_lt; lia).
  replace (w_errno w =? EINTR) with false
    by (symmetry; by apply Z.eqb_neq).
  reflexivity.
Qed.

(** While more than one byte is left, an interrupted [write] is
    repeated with the same offset and count. *)
Lemma write_loop_retry w ws fd count index :
  1 < count -> w_ret w < 0 -> w_errno w = EINTR ->
  write_loop (w :: ws) fd count index =
    (SysWrite fd index count :: (write_loop ws fd count index).1,
     (write_loop ws fd count index).2).
Proof.
  intros Hc Hr He. cbn [write_loop].
  replace (count >? 0) with true by (symmetry; apply Z.gtb_lt; lia).
  replace (w_ret w =? 0) with false by (symmetry; apply Z.eqb_neq; lia).
  replace (1 =? count) with false by (symmetry; apply Z.eqb_neq; lia).
  replace (w_ret w <? 0) with true by (symmetry; apply Z.ltb_lt; lia).
  rewrite He, Z.eqb_refl. cbn [negb andb].
  by destruct (write_loop ws fd count index).
Qed.

(** While more than one byte is left, a [write] that accepts [ret]
    bytes moves the offset by [ret]. *)
Lemma write_loop_advance w ws fd count index :
  1 < count < 2 ^ 64 -> 0 <= w_ret w <= count ->
  write_loop (w :: ws) fd count index =
    (SysWrite fd index count
       :: (write_loop ws fd (count - w_ret w) (index + w_ret w)).1,
     (write_loop ws fd (count - w_ret w) (index + w_ret w)).2).
Proof.
  intros Hc Hr. cbn [write_loop].
  replace (count >? 0) with true by (symmetry; apply Z.gtb_lt; lia).
  replace ((if w_ret w =? 0 then 0 else 1) =? count) with false
    by (symmetry; apply Z.eqb_neq; destruct (w_ret w =? 0); lia).
  replace (w_ret w <? 0) with false by (symmetry; apply Z.ltb_ge; lia).
  cbn [negb andb]. unfold size_t_wrap.
  rewrite Z.mod_small by lia.
  by destruct (write_loop ws fd (count - w_ret w) (index + w_ret w)).
Qed.

(** When one byte is left, any [write] that does not return 0 ends the
    loop, a failed one too: the truth value of [count > 0 && ret] is 1,
    and 1 is [count]. *)
Lemma write_loop_last_byte w ws fd index :
  w_ret w <> 0 ->
  write_loop (w :: ws) fd 1 index =
    ([SysWrite fd index 1; ReleaseElements; Tcdrain fd], Some 0).
Proof.
  intros Hr. cbn [write_loop]. change (1 >? 0) with true. cbv iota.
  replace (w_ret w =? 0) with false by (symmetry; by apply Z.eqb_neq).
  reflexivity.
Qed.

(** C2, at a failing input: [writeBytes] with an array of one byte, when
    the only [write] fails with a negative return value and [errno = e].
    The claim asks for the return value [-e] (or, for [e = EINTR], for a
    second [write]). The function returns 0, after releasing the array
    and draining the output, with the byte not written: the loop
    condition compares the truth value of [count > 0 && ret], which is 1,
    with [count], which is 1 too. *)
Theorem writeBytes_failed_last_write_returns_0 (fd : Z) (b : jbyte)
    (delay e : Z) (ws : list write_result) :
  writeBytes fd [b] delay ({| w_ret := -1; w_errno := e |} :: ws)
  = ([SysWrite fd 0 1; ReleaseElements; Tcdrain fd], Some 0).
Proof.
  unfold writeBytes. destruct (delay =? 0); by apply write_loop_last_byte.
Qed.

End IOFacts.

(** ** The two tables *)

Section TableFacts.
Context {A : Type} `{Inhabited A} (fd_of : A -> Z) (name : string).

Lemma scan_loop_found n (ptr : list A) x fd0 y :
  scan_loop fd_of n ptr x fd0 = (y, true) ->
  exists k e, y = x + Z.of_nat k /\ (k < n)%nat /\ ptr !! k = Some e /\
    fd_of e = fd0 /\
    forall j e', (j < k)%nat -> ptr !! j = Some e' -> fd_of e' <> fd0.
Proof.
  revert ptr x. induction n as [|n IH]; intros ptr x; simpl.
  - destruct ptr; discriminate.
  - destruct ptr as [|e ptr]; [discriminate|].
    destruct (fd_of e =? fd0) eqn:He.
    + intros [= <-]. exists 0%nat, e. apply Z.eqb_eq in He.
      repeat split; try done; try lia.
    + intros Hs. apply IH in Hs as (k & e' & -> & Hk & Hl & Hfd & Hfirst).
      exists (S k), e'. repeat split; try done; try lia.
      intros [|j] e'' Hj; simpl.
      * intros [= <-]. by apply Z.eqb_neq.
      * apply Hfirst. lia.
Qed.

Lemma scan_loop_not_found n (ptr : list A) x fd0 y :
  scan_loop fd_of n ptr x fd0 = (y, false) ->
  y = x + Z.of_nat (n `min` length ptr) /\
  forall j e', (j < n)%nat -> ptr !! j = Some e' -> fd_of e' <> fd0.
Proof.
  revert ptr x. induction n as [|n IH]; intros ptr x; simpl.
  - intros [= <-]. split; [lia|]. intros; lia.
  - destruct ptr as [|e ptr].
    + intros [= <-]. split; [simpl; lia|]. intros j e' _. by destruct j.
    + destruct (fd_of e =? fd0) eqn:He; [discriminate|].
      intros Hs. apply IH in Hs as [-> Hall]. split; [simpl; lia|].
      intros [|j] e' Hj; simpl.
      * intros [= <-]. by apply Z.eqb_neq.
      * apply Hall. lia.
Qed.

(** In a table of [MAX_NUM_THREADS] slots, a scan that ends by [break]
    stops at a slot of the table that holds the descriptor. *)
Lemma scan_found (t : list A) fd0 x :
  length t = Z.to_nat MAX_NUM_THREADS ->
  scan fd_of t fd0 = (x, true) ->
  0 <= x < MAX_NUM_THREADS /\ (Z.to_nat x < length t)%nat /\
  t !! Z.to_nat x = Some (slot t x) /\ fd_of (slot t x) = fd0.
Proof.
  intros Hlen Hs. apply scan_loop_found in Hs as (k & e & -> & Hk & Hl & Hfd & _).
  rewrite Z.add_0_l, Nat2Z.id. unfold slot. rewrite Nat2Z.id.
  rewrite (list_lookup_total_correct _ _ _ Hl).
  repeat split; try done; lia.
Qed.

(** In a table of [MAX_NUM_THREADS] slots, a scan that does not end by
    [break] leaves [x] at [MAX_NUM_THREADS], and no slot holds the
    descriptor. *)
Lemma scan_not_found (t : list A) fd0 x :
  length t = Z.to_nat MAX_NUM_THREADS ->
  scan fd_of t fd0 = (x, false) ->
  x = MAX_NUM_THREADS /\ forall e, e ∈ t -> fd_of e <> fd0.
Proof.
  intros Hlen Hs. apply scan_loop_not_found in Hs as [-> Hall].
  rewrite Hlen, Nat.min_id, Z2Nat.id by done. split; [done|].
  intros e [j Hj]%list_elem_of_lookup. apply (Hall j); [|done].
  apply lookup_lt_Some in Hj. lia.
Qed.

Lemma scan_finds (t : list A) fd0 e :
  length t = Z.to_nat MAX_NUM_THREADS -> e ∈ t -> fd_of e = fd0 ->
  exists x, scan fd_of t fd0 = (x, true).
Proof.
  intros Hlen Hin Hfd. destruct (scan fd_of t fd0) as [x [|]] eqn:Hs; [eauto|].
  apply scan_not_found in Hs as [_ Hall]; [|done]. by destruct (Hall e Hin).
Qed.

Lemma scan_misses (t : list A) fd0 :
  length t = Z.to_nat MAX_NUM_THREADS -> (forall e, e ∈ t -> fd_of e <> fd0) ->
  scan fd_of t fd0 = (MAX_NUM_THREADS, false).
Proof.
  intros Hlen Hall. destruct (scan fd_of t fd0) as [x [|]] eqn:Hs.
  - apply scan_found in Hs as (_ & _ & Hl & Hfd); [|done].
    destruct (Hall (slot t x)); [|done]. eapply list_elem_of_lookup_2, Hl.
  - by apply scan_not_found in Hs as [-> _].
Qed.

Lemma in_table_true i : 0 <= i < MAX_NUM_THREADS -> in_table i = true.
Proof.
  intros Hi. unfold in_table. apply andb_true_intro.
  split; [apply Z.leb_le|apply Z.ltb_lt]; lia.
Qed.

Lemma in_table_false i : ~ (0 <= i < MAX_NUM_THREADS) -> in_table i = false.
Proof.
  intros Hi. unfold in_table.
  destruct (0 <=? i) eqn:H0, (i <? MAX_NUM_THREADS) eqn:H1; simpl; try done.
  apply Z.leb_le in H0. apply Z.ltb_lt in H1. lia.
Qed.

Lemma update_slot_in (t : list A) i f :
  0 <= i < MAX_NUM_THREADS -> (Z.to_nat i < length t)%nat ->
  update_slot name t i f = Done (<[Z.to_nat i := f (slot t i)]> t).
Proof.
  intros Hi Hlen. unfold update_slot, slot. rewrite in_table_true by done.
  destruct (lookup_lt_is_Some_2 t (Z.to_nat i) Hlen) as [e He].
  rewrite He. by rewrite (list_lookup_total_correct _ _ _ He).
Qed.

Lemma update_slot_out (t : list A) i f :
  ~ (0 <= i < MAX_NUM_THREADS) -> update_slot name t i f = OutOfBounds name i.
Proof. intros Hi. unfold update_slot. by rewrite in_table_false. Qed.

Lemma store_slot_out (t : list A) i p :
  ~ (0 <= i < MAX_NUM_THREADS) -> store_slot name t i p = OutOfBounds name i.
Proof. intros Hi. unfold store_slot. by rewrite in_table_false. Qed.

Lemma slot_insert (t : list A) i e :
  (Z.to_nat i < length t)%nat -> slot (<[Z.to_nat i := e]> t) i = e.
Proof. intros Hi. unfold slot. by apply list_lookup_total_insert_eq. Qed.

End TableFacts.

(** ** The waiting loop *)

(** As long as the new thread stores nothing, a flag that holds 0 keeps
    the caller in the loop. *)
Lemma busy_wait_spins n : busy_wait (replicate n None) 0 = None.
Proof.
  induction n as [|n IH]; [reflexivity|].
  cbn [busy_wait replicate store_of]. exact IH.
Qed.

(** A flag that holds a value other than 0 when the caller reads it
    first ends the loop at once, whatever the new thread does later. *)
Lemma busy_wait_stale n cell :
  cell <> 0 -> exists rest, busy_wait (replicate n None) cell = Some (cell, rest).
Proof.
  intros Hc. apply Z.eqb_neq in Hc. rewrite Z.eqb_sym in Hc.
  destruct n as [|n]; cbn [busy_wait replicate store_of]; rewrite Hc; eauto.
Qed.

(** From a flag that holds 0, when the new thread stores [v], not 0,
    once, before the read number [n + 1]: the caller leaves the loop at
    that read, and returns 0 when [v] is 1 and [v] otherwise. *)
Lemma rendezvous_once n m v :
  v <> 0 ->
  rendezvous (replicate n None ++ Some v :: replicate m None) 0 =
    Some (if 1 =? v then 0 else v, v).
Proof.
  intros Hv. unfold rendezvous.
  assert (Hb : busy_wait (replicate n None ++ Some v :: replicate m None) 0
               = Some (v, replicate m None)).
  { induction n as [|n IH]; cbn [busy_wait replicate store_of app].
    - apply Z.eqb_neq in Hv. rewrite Z.eqb_sym in Hv. by rewrite Hv.
    - exact IH. }
  rewrite Hb.
  destruct m as [|m]; cbn [read_flag replicate store_of];
    destruct (1 =? v) eqn:H1; try done.
  by destruct m.
Qed.

(** A flag that is never stored to keeps the caller in the loop for
    ever. *)
Lemma rendezvous_never n : rendezvous (replicate n None) 0 = None.
Proof. unfold rendezvous. by rewrite busy_wait_spins. Qed.

(** ** The listener table *)

Section RegistryFacts.
Import Registry.

(** What [destroyDataLooperThread] does when the scan finds the
    descriptor in slot [x]. *)
Lemma destroyDataLooperThread_found g fd0 join_ret x :
  length (fd_looper_info g) = Z.to_nat MAX_NUM_THREADS ->
  scan fd (fd_looper_info g) fd0 = (x, true) ->
  let t := fd_looper_info g in
  let e := slot t x in
  let e1 := set_data_thread_exit 1 e in
  let e2 := set_data_thread_id 0 e1 in
  let e3 := if event_thread_id e =? 0 then set_fd (-1) e2 else e2 in
  let calls := [EvfdWrite (evfd e); PthreadJoin (data_thread_id e)] in
  destroyDataLooperThread g fd0 join_ret =
    if join_ret =? 0
    then Done (0, with_table (<[Z.to_nat x := e3]> t) g, calls)
    else Done (-1 * join_ret, with_table (<[Z.to_nat x := e1]> t) g, calls).
Proof.
  intros Hlen Hs. destruct (scan_found fd _ _ _ Hlen Hs) as (Hx & Hxl & _ & _).
  cbv zeta. unfold destroyDataLooperThread. rewrite Hs.
  rewrite (update_slot_in table_name) by done.
  cbn [mbind outcome_bind]. rewrite ?slot_insert by done.
  destruct (join_ret =? 0); cbn [negb]; [|reflexivity].
  rewrite (update_slot_in table_name) by (rewrite ?length_insert; done).
  cbn [mbind outcome_bind]. rewrite ?slot_insert by (rewrite ?length_insert; done).
  rewrite list_insert_insert_eq.
  change (event_thread_id (set_data_thread_id 0 (set_data_thread_exit 1
            (slot (fd_looper_info g) x))))
    with (event_thread_id (slot (fd_looper_info g) x)).
  destruct (event_thread_id (slot (fd_looper_info g) x) =? 0).
  - rewrite (update_slot_in table_name) by (rewrite ?length_insert; done).
    cbn [mbind outcome_bind]. rewrite ?slot_insert by done.
    by rewrite list_insert_insert_eq.
  - reflexivity.
Qed.

(** What [destroyEventLooperThread] does when the scan finds the
    descriptor in slot [x]. *)
Lemma destroyEventLooperThread_found g fd0 kill_ret join_ret x :
  length (fd_looper_info g) = Z.to_nat MAX_NUM_THREADS ->
  scan fd (fd_looper_info g) fd0 = (x, true) ->
  let t := fd_looper_info g in
  let e := slot t x in
  let e1 := set_event_thread_exit 1 e in
  let e2 := set_event_thread_id 0 e1 in
  let e3 := if data_thread_id e =? 0 then set_fd (-1) e2 else e2 in
  let tid := event_thread_id e in
  destroyEventLooperThread g fd0 kill_ret join_ret =
    if negb (kill_ret =? 0)
    then Done (-1 * kill_ret, with_table (<[Z.to_nat x := e1]> t) g,
               [PthreadKill tid])
    else if join_ret =? 0
    then Done (0, with_table (<[Z.to_nat x := e3]> t) g,
               [PthreadKill tid; PthreadJoin tid])
    else Done (-1 * join_ret, with_table (<[Z.to_nat x := e1]> t) g,
               [PthreadKill tid; PthreadJoin tid]).
Proof.
  intros Hlen Hs. destruct (scan_found fd _ _ _ Hlen Hs) as (Hx & Hxl & _ & _).
  cbv zeta. unfold destroyEventLooperThread. rewrite Hs.
  rewrite (update_slot_in table_name) by done.
  cbn [mbind outcome_bind]. rewrite ?slot_insert by done.
  destruct (kill_ret =? 0); cbn [negb]; [|reflexivity].
  destruct (join_ret =? 0); cbn [negb]; [|reflexivity].
  rewrite (update_slot_in table_name) by (rewrite ?length_insert; done).
  cbn [mbind outcome_bind]. rewrite ?slot_insert by (rewrite ?length_insert; done).
  rewrite list_insert_insert_eq.
  change (data_thread_id (set_event_thread_id 0 (set_event_thread_exit 1
            (slot (fd_looper_info g) x))))
    with (data_thread_id (slot (fd_looper_info g) x)).
  destruct (data_thread_id (slot (fd_looper_info g) x) =? 0).
  - rewrite (update_slot_in table_name) by (rewrite ?length_insert; done).
    cbn [mbind outcome_bind]. rewrite ?slot_insert by done.
    by rewrite list_insert_insert_eq.
  - reflexivity.
Qed.

(** When no slot holds the descriptor, the first store of either
    function goes through a pointer one past the table. *)
Lemma destroyDataLooperThread_not_found g fd0 join_ret :
  scan fd (fd_looper_info g) fd0 = (MAX_NUM_THREADS, false) ->
  destroyDataLooperThread g fd0 join_ret
  = OutOfBounds "fd_looper_info" MAX_NUM_THREADS.
Proof. intros Hs. unfold destroyDataLooperThread. by rewrite Hs. Qed.

Lemma destroyEventLooperThread_not_found g fd0 kill_ret join_ret :
  scan fd (fd_looper_info g) fd0 = (MAX_NUM_THREADS, false) ->
  destroyEventLooperThread g fd0 kill_ret join_ret
  = OutOfBounds "fd_looper_info" MAX_NUM_THREADS.
Proof. intros Hs. unfold destroyEventLooperThread. by rewrite Hs. Qed.

(** A registration that makes a new entry stores it at [dtp_index],
    whatever [dtp_index] is. *)
Lemma setUpDataLooperThread_unbounded g fd0 newref cr script x :
  scan fd (fd_looper_info g) fd0 = (x, false) -> newref <> 0 ->
  ~ (0 <= dtp_index g < MAX_NUM_THREADS) ->
  setUpDataLooperThread g fd0 newref cr script
  = OutOfBounds "fd_looper_info" (dtp_index g).
Proof.
  intros Hs Hr Hi. unfold setUpDataLooperThread. rewrite Hs.
  apply Z.eqb_neq in Hr. rewrite Hr. cbn [negb andb].
  by rewrite store_slot_out.
Qed.

Lemma setUpEventLooperThread_unbounded g fd0 newref cr script x :
  scan fd (fd_looper_info g) fd0 = (x, false) -> newref <> 0 ->
  ~ (0 <= dtp_index g < MAX_NUM_THREADS) ->
  setUpEventLooperThread g fd0 newref cr script
  = OutOfBounds "fd_looper_info" (dtp_index g).
Proof.
  intros Hs Hr Hi. unfold setUpEventLooperThread. rewrite Hs.
  apply Z.eqb_neq in Hr. rewrite Hr. cbn [negb andb].
  by rewrite store_slot_out.
Qed.

(** A registration that makes a new entry in a table with room waits
    for the flag of the new thread: it does not return while the thread
    stores nothing, and returns 0 exactly when the thread stores 1. *)
Lemma setUpDataLooperThread_new_entry g fd0 newref cr n m v x :
  length (fd_looper_info g) = Z.to_nat MAX_NUM_THREADS ->
  scan fd (fd_looper_info g) fd0 = (x, false) -> newref <> 0 ->
  0 <= dtp_index g < MAX_NUM_THREADS -> 0 <= cr_ret cr -> v <> 0 ->
  setUpDataLooperThread g fd0 newref cr (replicate n None) = Spins /\
  setUpDataLooperThread g fd0 newref cr
    (replicate n None ++ Some v :: replicate m None) =
  Done (if 1 =? v then 0 else v,
        with_index (dtp_index g + 1)
          (with_table
             (<[Z.to_nat (dtp_index g) :=
                  set_data_init_done v
                    (set_data_thread_id (cr_tid cr) (new_params g fd0 newref))]>
                (fd_looper_info g)) g),
        [PthreadCreate "data_looper" (dtp_index g)]).
Proof.
  intros Hlen Hs Hr Hi Hc Hv.
  assert (Hil : (Z.to_nat (dtp_index g) < length (fd_looper_info g))%nat).
  { rewrite Hlen. unfold MAX_NUM_THREADS in *. lia. }
  unfold setUpDataLooperThread. rewrite Hs.
  apply Z.eqb_neq in Hr. rewrite Hr. cbn [negb andb].
  unfold store_slot. rewrite in_table_true by done.
  cbn [mbind outcome_bind].
  replace (cr_ret cr <? 0) with false by (symmetry; apply Z.ltb_ge; lia).
  rewrite (update_slot_in table_name) by (rewrite ?length_insert; done).
  cbn [mbind outcome_bind].
  rewrite ?slot_insert by (rewrite ?length_insert; done).
  rewrite list_insert_insert_eq.
  change (data_init_done (set_data_thread_id (cr_tid cr)
            (new_params g fd0 newref))) with 0.
  split.
  - by rewrite rendezvous_never.
  - rewrite rendezvous_once by done.
    rewrite (update_slot_in table_name) by (rewrite ?length_insert; done).
    cbn [mbind outcome_bind].
    rewrite ?slot_insert by (rewrite ?length_insert; done).
    by rewrite list_insert_insert_eq.
Qed.

(** C3, at a failing input. [full_registry] is the table after data
    listeners were registered on the 1024 descriptors 3, ..., 1026: every
    slot holds a descriptor and a thread, and [dtp_index] is 1024. The
    claim asks that one more registration, for a descriptor without an
    entry, fail with a capacity error. Neither function returns an
    error: each stores the new entry in [fd_looper_info[1024]], outside
    the table. *)
Theorem setUp_on_full_table_stores_outside
    (cr : create_result) (script : flag_script) :
  Examples.register_data 1024 3 (initial 7 9) = Done Examples.full_registry
  /\ length (fd_looper_info Examples.full_registry) = 1024%nat
  /\ Forall (fun e => fd e <> 0 /\ fd e <> -1 /\ data_thread_id e <> 0)
       (fd_looper_info Examples.full_registry)
  /\ scan fd (fd_looper_info Examples.full_registry) 2000 = (1024, false)
  /\ setUpDataLooperThread Examples.full_registry 2000 77 cr script
     = OutOfBounds "fd_looper_info" 1024
  /\ setUpEventLooperThread Examples.full_registry 2000 77 cr script
     = OutOfBounds "fd_looper_info" 1024.
Proof.
  assert (Hs : scan fd (fd_looper_info Examples.full_registry) 2000
               = (1024, false)) by (vm_compute; reflexivity).
  split; [vm_compute; reflexivity|].
  split; [vm_compute; reflexivity|].
  split.
  { apply Forall_forall. intros e He.
    unfold Examples.full_registry in He. cbn [fd_looper_info] in He.
    apply list_elem_of_fmap in He as (k & -> & _).
    cbn [Examples.data_entry fd data_thread_id]. lia. }
  split; [exact Hs|].
  split.
  - rewrite (setUpDataLooperThread_unbounded _ _ _ _ _ _ Hs); [done|done|].
    cbn [Examples.full_registry dtp_index]. unfold MAX_NUM_THREADS. lia.
  - rewrite (setUpEventLooperThread_unbounded _ _ _ _ _ _ Hs); [done|done|].
    cbn [Examples.full_registry dtp_index]. unfold MAX_NUM_THREADS. lia.
Qed.

(** A flag that already holds a value other than 0 ends the wait at the
    first read, before the new thread has stored anything. *)
Lemma rendezvous_stale n cell :
  cell <> 0 ->
  rendezvous (replicate n None) cell = Some (if 1 =? cell then 0 else cell, cell).
Proof.
  intros Hc. unfold rendezvous.
  apply Z.eqb_neq in Hc. rewrite Z.eqb_sym in Hc.
  destruct n as [|[|[|n]]];
    cbn [busy_wait replicate store_of read_flag]; rewrite Hc;
    cbn [busy_wait replicate store_of read_flag];
    by destruct (1 =? cell).
Qed.

(** What the two registrations do when the scan finds the descriptor in
    slot [x]: the entry is kept as it is, its flag too. *)
Lemma setUpDataLooperThread_found g fd0 newref cr script x :
  length (fd_looper_info g) = Z.to_nat MAX_NUM_THREADS ->
  scan fd (fd_looper_info g) fd0 = (x, true) -> 0 <= cr_ret cr ->
  let t := fd_looper_info g in
  setUpDataLooperThread g fd0 newref cr script =
    match rendezvous script (data_init_done (slot t x)) with
    | None => Spins
    | Some (r, flag) =>
        Done (r,
              with_table
                (<[Z.to_nat x :=
                     set_data_init_done flag
                       (set_data_thread_id (cr_tid cr) (slot t x))]> t) g,
              [PthreadCreate "data_looper" x])
    end.
Proof.
  intros Hlen Hs Hc. destruct (scan_found fd _ _ _ Hlen Hs) as (Hx & Hxl & _ & _).
  cbv zeta. unfold setUpDataLooperThread. rewrite Hs. cbn [negb andb].
  cbn [mbind outcome_bind].
  replace (cr_ret cr <? 0) with false by (symmetry; apply Z.ltb_ge; lia).
  rewrite (update_slot_in table_name) by done.
  cbn [mbind outcome_bind]. rewrite ?slot_insert by done.
  change (data_init_done (set_data_thread_id (cr_tid cr)
            (slot (fd_looper_info g) x)))
    with (data_init_done (slot (fd_looper_info g) x)).
  destruct (rendezvous script (data_init_done (slot (fd_looper_info g) x)))
    as [[r flag]|]; [|reflexivity].
  rewrite (update_slot_in table_name) by (rewrite ?length_insert; done).
  cbn [mbind outcome_bind]. rewrite ?slot_insert by done.
  by rewrite list_insert_insert_eq.
Qed.

Lemma setUpEventLooperThread_found g fd0 newref cr script x :
  length (fd_looper_info g) = Z.to_nat MAX_NUM_THREADS ->
  scan fd (fd_looper_info g) fd0 = (x, true) -> 0 <= cr_ret cr ->
  let t := fd_looper_info g in
  setUpEventLooperThread g fd0 newref cr script =
    match rendezvous script (event_init_done (slot t x)) with
    | None => Spins
    | Some (r, flag) =>
        Done (r,
              with_table
                (<[Z.to_nat x :=
                     set_event_init_done flag
                       (set_event_thread_id (cr_tid cr) (slot t x))]> t) g,
              [PthreadCreate "event_looper" x])
    end.
Proof.
  intros Hlen Hs Hc. destruct (scan_found fd _ _ _ Hlen Hs) as (Hx & Hxl & _ & _).
  cbv zeta. unfold setUpEventLooperThread. rewrite Hs. cbn [negb andb].
  cbn [mbind outcome_bind].
  replace (cr_ret cr <? 0) with false by (symmetry; apply Z.ltb_ge; lia).
  rewrite (update_slot_in table_name) by done.
  cbn [mbind outcome_bind]. rewrite ?slot_insert by done.
  change (event_init_done (set_event_thread_id (cr_tid cr)
            (slot (fd_looper_info g) x)))
    with (event_init_done (slot (fd_looper_info g) x)).
  destruct (rendezvous script (event_init_done (slot (fd_looper_info g) x)))
    as [[r flag]|]; [|reflexivity].
  rewrite (update_slot_in table_name) by (rewrite ?length_insert; done).
  cbn [mbind outcome_bind]. rewrite ?slot_insert by done.
  by rewrite list_insert_insert_eq.
Qed.

(** C4, at a failing input. A first [setUpDataLooperThread] for
    descriptor 5 returns 0 after its thread stored 1 in
    [data_init_done]; the entry keeps that 1. A second
    [setUpDataLooperThread] for descriptor 5 finds the entry, creates a
    second thread, and reads the flag the first thread set: it returns 0
    at its first read, however many reads pass before the new thread
    stores anything ([n] reads here, and the new thread stores nothing at
    all). The claim asks that the call not return before the thread it
    created has set the flag. [setUpEventLooperThread] does the same with
    [event_init_done]. *)
Theorem setUp_again_returns_before_new_thread_is_ready (n : nat) :
  setUpDataLooperThread (initial 7 9) 5 9005 (Examples.started 5005)
    Examples.ready
  = Done (0, Examples.data_only, [PthreadCreate "data_looper" 0])
  /\ setUpDataLooperThread Examples.data_only 5 9006 (Examples.started 5006)
       (replicate n None)
     = Done (0,
             Examples.one_entry
               (set_data_thread_id 5006 (Examples.data_entry 5)),
             [PthreadCreate "data_looper" 0])
  /\ setUpEventLooperThread Examples.both_listeners 5 9006
       (Examples.started 6006) (replicate n None)
     = Done (0,
             Examples.one_entry
               (set_event_thread_id 6006
                  (set_event_init_done 1
                     (set_event_thread_id 6005 (Examples.data_entry 5)))),
             [PthreadCreate "event_looper" 0]).
Proof.
  split; [vm_compute; reflexivity|]. split.
  - rewrite (setUpDataLooperThread_found _ _ _ _ _ 0);
      [|vm_compute; reflexivity|vm_compute; reflexivity
       |cbn [Examples.started cr_ret]; lia].
    change (data_init_done (slot (fd_looper_info Examples.data_only) 0))
      with 1.
    rewrite rendezvous_stale by lia. vm_compute. reflexivity.
  - rewrite (setUpEventLooperThread_found _ _ _ _ _ 0);
      [|vm_compute; reflexivity|vm_compute; reflexivity
       |cbn [Examples.started cr_ret]; lia].
    change (event_init_done
              (slot (fd_looper_info Examples.both_listeners) 0)) with 1.
    rewrite rendezvous_stale by lia. vm_compute. reflexivity.
Qed.

(** C5: a stop operation that returns leaves every entry of the table
    in place, and in each entry it leaves the thread of the other kind
    as it was. [destroyDataLooperThread] changes the descriptor of an
    entry only to mark it free, -1, and only in the entry of the
    descriptor given, when that entry records no event thread and the
    data thread was joined (the function returns 0 and the entry records
    no data thread any more). An entry that records an event thread
    keeps its descriptor. [destroyEventLooperThread] does the same with
    the two kinds exchanged. *)
Theorem destroy_frees_entry_only_without_other_thread
    (g : globals) (fd0 kill_ret join_ret : Z) :
  length (fd_looper_info g) = Z.to_nat MAX_NUM_THREADS ->
  (forall r g' calls,
     destroyDataLooperThread g fd0 join_ret = Done (r, g', calls) ->
     forall i e, fd_looper_info g !! i = Some e ->
     exists e', fd_looper_info g' !! i = Some e' /\
       event_thread_id e' = event_thread_id e /\
       (event_thread_id e <> 0 -> fd e' = fd e) /\
       (fd e' <> fd e ->
          fd e' = -1 /\ fd e = fd0 /\ event_thread_id e = 0 /\
          data_thread_id e' = 0 /\ r = 0)) /\
  (forall r g' calls,
     destroyEventLooperThread g fd0 kill_ret join_ret = Done (r, g', calls) ->
     forall i e, fd_looper_info g !! i = Some e ->
     exists e', fd_looper_info g' !! i = Some e' /\
       data_thread_id e' = data_thread_id e /\
       (data_thread_id e <> 0 -> fd e' = fd e) /\
       (fd e' <> fd e ->
          fd e' = -1 /\ fd e = fd0 /\ data_thread_id e = 0 /\
          event_thread_id e' = 0 /\ r = 0)).
Proof.
  intros Hlen. split.
  - intros r g' calls Hd i e Hi.
    destruct (scan fd (fd_looper_info g) fd0) as [x [|]] eqn:Hs.
    + destruct (scan_found fd _ _ _ Hlen Hs) as (Hx & Hxl & Hsl & Hfd).
      rewrite (destroyDataLooperThread_found _ _ _ _ Hlen Hs) in Hd.
      destruct (decide (i = Z.to_nat x)) as [->|Hne].
      * assert (Hee : slot (fd_looper_info g) x = e) by congruence.
        rewrite Hee in Hd, Hfd.
        destruct (join_ret =? 0); injection Hd as <- <- <-;
          cbn [fd_looper_info with_table];
          rewrite list_lookup_insert_eq by done;
          eexists; (split; [reflexivity|]).
        -- destruct (event_thread_id e =? 0) eqn:He;
             [apply Z.eqb_eq in He|apply Z.eqb_neq in He];
             cbn; repeat split; try done; try congruence.
        -- cbn; repeat split; try done.
      * exists e.
        destruct (join_ret =? 0); injection Hd as <- <- <-;
          cbn [fd_looper_info with_table];
          rewrite list_lookup_insert_ne by done; repeat split; done.
    + destruct (scan_not_found fd _ _ _ Hlen Hs) as [-> _].
      by rewrite (destroyDataLooperThread_not_found _ _ _ Hs) in Hd.
  - intros r g' calls Hd i e Hi.
    destruct (scan fd (fd_looper_info g) fd0) as [x [|]] eqn:Hs.
    + destruct (scan_found fd _ _ _ Hlen Hs) as (Hx & Hxl & Hsl & Hfd).
      rewrite (destroyEventLooperThread_found _ _ _ _ _ Hlen Hs) in Hd.
      destruct (decide (i = Z.to_nat x)) as [->|Hne].
      * assert (Hee : slot (fd_looper_info g) x = e) by congruence.
        rewrite Hee in Hd, Hfd.
        destruct (kill_ret =? 0), (join_ret =? 0); cbn [negb] in Hd;
          injection Hd as <- <- <-;
          cbn [fd_looper_info with_table];
          rewrite list_lookup_insert_eq by done;
          eexists; (split; [reflexivity|]).
        -- destruct (data_thread_id e =? 0) eqn:He;
             [apply Z.eqb_eq in He|apply Z.eqb_neq in He];
             cbn; repeat split; try done; try congruence.
        -- cbn; repeat split; try done.
        -- cbn; repeat split; try done.
        -- cbn; repeat split; try done.
      * exists e.
        destruct (kill_ret =? 0), (join_ret =? 0); cbn [negb] in Hd;
          injection Hd as <- <- <-;
          cbn [fd_looper_info with_table];
          rewrite list_lookup_insert_ne by done; repeat split; done.
    + destruct (scan_not_found fd _ _ _ Hlen Hs) as [-> _].
      by rewrite (destroyEventLooperThread_not_found _ _ _ _ Hs) in Hd.
Qed.

End RegistryFacts.

(** With both listeners on descriptor 5, stopping the data listener
    keeps the entry: descriptor and event thread stay. Stopping the event
    listener afterwards frees it. *)
Example destroyData_then_destroyEvent :
  Registry.destroyDataLooperThread Examples.both_listeners 5 0
  = Done (0,
          Examples.one_entry
            (Registry.set_data_thread_id 0
               (Registry.set_data_thread_exit 1
                  (Registry.set_event_init_done 1
                     (Registry.set_event_thread_id 6005
                        (Examples.data_entry 5))))),
          [EvfdWrite 0; PthreadJoin 5005])
  /\ Registry.destroyEventLooperThread
       (Examples.one_entry
          (Registry.set_data_thread_id 0
             (Registry.set_data_thread_exit 1
                (Registry.set_event_init_done 1
                   (Registry.set_event_thread_id 6005
                      (Examples.data_entry 5)))))) 5 0 0
     = Done (0,
             Examples.one_entry
               (Registry.set_fd (-1)
                  (Registry.set_event_thread_id 0
                     (Registry.set_event_thread_exit 1
                        (Registry.set_data_thread_id 0
                           (Registry.set_data_thread_exit 1
                              (Registry.set_event_init_done 1
                                 (Registry.set_event_thread_id 6005
                                    (Examples.data_entry 5)))))))),
             [PthreadKill 6005; PthreadJoin 6005]).
Proof. split; vm_compute; reflexivity. Qed.

(** The theorem at the table with both listeners on descriptor 5. *)
Lemma destroy_frees_entry_only_without_other_thread_witness :
  length (Registry.fd_looper_info Examples.both_listeners)
    = Z.to_nat MAX_NUM_THREADS /\
  ((forall r g' calls,
     Registry.destroyDataLooperThread Examples.both_listeners 5 0
       = Done (r, g', calls) ->
     forall i e,
       Registry.fd_looper_info Examples.both_listeners !! i = Some e ->
     exists e', Registry.fd_looper_info g' !! i = Some e' /\
       Registry.event_thread_id e' = Registry.event_thread_id e /\
       (Registry.event_thread_id e <> 0 -> Registry.fd e' = Registry.fd e) /\
       (Registry.fd e' <> Registry.fd e ->
          Registry.fd e' = -1 /\ Registry.fd e = 5 /\
          Registry.event_thread_id e = 0 /\
          Registry.data_thread_id e' = 0 /\ r = 0)) /\
   (forall r g' calls,
     Registry.destroyEventLooperThread Examples.both_listeners 5 0 0
       = Done (r, g', calls) ->
     forall i e,
       Registry.fd_looper_info Examples.both_listeners !! i = Some e ->
     exists e', Registry.fd_looper_info g' !! i = Some e' /\
       Registry.data_thread_id e' = Registry.data_thread_id e /\
       (Registry.data_thread_id e <> 0 -> Registry.fd e' = Registry.fd e) /\
       (Registry.fd e' <> Registry.fd e ->
          Registry.fd e' = -1 /\ Registry.fd e = 5 /\
          Registry.data_thread_id e = 0 /\
          Registry.event_thread_id e' = 0 /\ r = 0))).
Proof.
  split; [reflexivity|].
  apply (destroy_frees_entry_only_without_other_thread
           Examples.both_listeners 5 0 0).
  reflexivity.
Defined.

(** ** The monitor table *)

Section MonitorFacts.
Import Monitor.

(** What [unregisterPortMonitorListener] does when the scan finds the
    descriptor in slot [x]. *)
Lemma unregisterPortMonitorListener_found p g fd0 kill_ret join_ret x :
  length (port_monitor_info g) = Z.to_nat MAX_NUM_THREADS ->
  scan fd (port_monitor_info g) fd0 = (x, true) ->
  exists r, unregisterPortMonitorListener p g fd0 kill_ret join_ret = Done r.
Proof.
  intros Hlen Hs. destruct (scan_found fd _ _ _ Hlen Hs) as (Hx & Hxl & _ & _).
  unfold unregisterPortMonitorListener. rewrite Hs.
  rewrite (update_slot_in table_name) by done.
  cbn [mbind outcome_bind].
  destruct (match p with Linux => negb (kill_ret =? 0) | _ => false end);
    [eauto|].
  destruct (negb (join_ret =? 0)); [eauto|].
  rewrite (update_slot_in table_name) by (rewrite ?length_insert; done).
  cbn [mbind outcome_bind].
  rewrite (update_slot_in table_name) by (rewrite ?length_insert; done).
  cbn [mbind outcome_bind]. eauto.
Qed.

Lemma unregisterPortMonitorListener_not_found p g fd0 kill_ret join_ret :
  scan fd (port_monitor_info g) fd0 = (MAX_NUM_THREADS, false) ->
  unregisterPortMonitorListener p g fd0 kill_ret join_ret
  = OutOfBounds "port_monitor_info" MAX_NUM_THREADS.
Proof. intros Hs. unfold unregisterPortMonitorListener. by rewrite Hs. Qed.

(** C8, counterexample. After a monitor was registered for
    "/dev/ttyUSB0" on descriptor 5, a second
    [registerPortMonitorListener] for the same path and descriptor
    returns 0: it creates a second thread and a second entry for the
    path, in slot 1, and the table holds two monitors of the path. *)
Lemma register_same_path_twice_succeeds :
  registerPortMonitorListener (initial 7 9) 5 (Some "/dev/ttyUSB0") 300 0
    (Examples.started 41)
  = Done (0, Examples.one_monitor "/dev/ttyUSB0",
          [PthreadCreate "port_monitor" 0])
  /\ monitors_of "/dev/ttyUSB0"
       (port_monitor_info (Examples.one_monitor "/dev/ttyUSB0")) = 1%nat
  /\ registerPortMonitorListener (Examples.one_monitor "/dev/ttyUSB0") 5
       (Some "/dev/ttyUSB0") 300 0 (Examples.started 42)
     = Done (0, Examples.two_monitors "/dev/ttyUSB0",
             [PthreadCreate "port_monitor" 1])
  /\ monitors_of "/dev/ttyUSB0"
       (port_monitor_info (Examples.two_monitors "/dev/ttyUSB0")) = 2%nat.
Proof. repeat split; vm_compute; reflexivity. Qed.

(** C8, as amended: [registerPortMonitorListener] does not look at the
    entries the table holds. Whenever [NewGlobalRef] returns a reference,
    [port_monitor_index] is inside the table and [pthread_create]
    returns 0, having created the thread, the call returns 0: it has
    stored a new entry for the path at [port_monitor_index], with the
    thread [pthread_create] made, and incremented [port_monitor_index].
    Every other entry stays as it was, the entries that monitor the
    same path too. *)
Theorem registerPortMonitorListener_accepts_any_path
    (g : globals) (fd0 : Z) (chars : option string) (newref junk : Z)
    (cr : create_result) :
  length (port_monitor_info g) = Z.to_nat MAX_NUM_THREADS ->
  newref <> 0 ->
  0 <= port_monitor_index g < MAX_NUM_THREADS ->
  cr_ret cr = 0 ->
  let idx := port_monitor_index g in
  let entry :=
    {| jvm := g_jvm g; portName := chars; fd := fd0;
       port_listener := newref; thread_exit := 0; mutex := g_mutex g;
       thread_id := cr_tid cr |} in
  let t' := <[Z.to_nat idx := entry]> (port_monitor_info g) in
  registerPortMonitorListener g fd0 chars newref junk cr
  = Done (0, with_index (idx + 1) (with_table t' g),
          [PthreadCreate "port_monitor" idx])
  /\ t' !! Z.to_nat idx = Some entry
  /\ forall i, i <> Z.to_nat idx -> t' !! i = port_monitor_info g !! i.
Proof.
  intros Hlen Hr Hi Hc. cbv zeta.
  assert (Hil : (Z.to_nat (port_monitor_index g)
                 < length (port_monitor_info g))%nat).
  { rewrite Hlen. unfold MAX_NUM_THREADS in *. lia. }
  split; [|split].
  - unfold registerPortMonitorListener.
    apply Z.eqb_neq in Hr. rewrite Hr.
    unfold store_slot. rewrite in_table_true by done.
    cbn [mbind outcome_bind].
    replace (cr_ret cr <? 0) with false by (symmetry; apply Z.ltb_ge; lia).
    rewrite (update_slot_in table_name) by (rewrite ?length_insert; done).
    cbn [mbind outcome_bind]. rewrite slot_insert by done.
    by rewrite list_insert_insert_eq.
  - by apply list_lookup_insert_eq.
  - intros i Hne. by apply list_lookup_insert_ne.
Qed.

(** The theorem at the table that already holds a monitor of the
    path. *)
Lemma registerPortMonitorListener_accepts_any_path_witness :
  let g := Examples.one_monitor "/dev/ttyUSB0" in
  let entry := Examples.monitor_entry "/dev/ttyUSB0" 42 in
  let t' := <[1%nat := entry]> (port_monitor_info g) in
  registerPortMonitorListener g 5 (Some "/dev/ttyUSB0") 300 0
    (Examples.started 42)
  = Done (0, with_index 2 (with_table t' g),
          [PthreadCreate "port_monitor" 1])
  /\ t' !! 1%nat = Some entry
  /\ forall i, i <> 1%nat -> t' !! i = port_monitor_info g !! i.
Proof.
  apply (registerPortMonitorListener_accepts_any_path
           (Examples.one_monitor "/dev/ttyUSB0") 5 (Some "/dev/ttyUSB0")
           300 0 (Examples.started 42)).
  - reflexivity.
  - discriminate.
  - split; [discriminate|reflexivity].
  - reflexivity.
Defined.

End MonitorFacts.

(** ** The teardown functions *)

(** C10: the three teardown functions scan their table for the
    descriptor and then store through the pointer the scan left. In
    tables of [MAX_NUM_THREADS] slots: when some entry holds the
    descriptor, the scan stops at an index below [MAX_NUM_THREADS] whose
    slot holds the descriptor, and each function returns, every store
    being inside the table; when no entry holds the descriptor, the scan
    ends with the index [MAX_NUM_THREADS] and the first store, that of
    the exit flag, goes to the slot one past the table. *)
Theorem teardown_needs_an_entry (p : platform)
    (g : Registry.globals) (m : Monitor.globals)
    (fd0 kill_ret join_ret : Z) :
  length (Registry.fd_looper_info g) = Z.to_nat MAX_NUM_THREADS ->
  length (Monitor.port_monitor_info m) = Z.to_nat MAX_NUM_THREADS ->
  ((exists e, e ∈ Registry.fd_looper_info g /\ Registry.fd e = fd0) ->
     exists x, scan Registry.fd (Registry.fd_looper_info g) fd0 = (x, true)
       /\ 0 <= x < MAX_NUM_THREADS
       /\ Registry.fd (slot (Registry.fd_looper_info g) x) = fd0
       /\ (exists r, Registry.destroyDataLooperThread g fd0 join_ret = Done r)
       /\ (exists r, Registry.destroyEventLooperThread g fd0 kill_ret join_ret
                     = Done r))
  /\ ((forall e, e ∈ Registry.fd_looper_info g -> Registry.fd e <> fd0) ->
     scan Registry.fd (Registry.fd_looper_info g) fd0
       = (MAX_NUM_THREADS, false)
     /\ Registry.destroyDataLooperThread g fd0 join_ret
        = OutOfBounds "fd_looper_info" MAX_NUM_THREADS
     /\ Registry.destroyEventLooperThread g fd0 kill_ret join_ret
        = OutOfBounds "fd_looper_info" MAX_NUM_THREADS)
  /\ ((exists e, e ∈ Monitor.port_monitor_info m /\ Monitor.fd e = fd0) ->
     exists x, scan Monitor.fd (Monitor.port_monitor_info m) fd0 = (x, true)
       /\ 0 <= x < MAX_NUM_THREADS
       /\ Monitor.fd (slot (Monitor.port_monitor_info m) x) = fd0
       /\ (exists r, Monitor.unregisterPortMonitorListener p m fd0 kill_ret
                       join_ret = Done r))
  /\ ((forall e, e ∈ Monitor.port_monitor_info m -> Monitor.fd e <> fd0) ->
     scan Monitor.fd (Monitor.port_monitor_info m) fd0
       = (MAX_NUM_THREADS, false)
     /\ Monitor.unregisterPortMonitorListener p m fd0 kill_ret join_ret
        = OutOfBounds "port_monitor_info" MAX_NUM_THREADS).
Proof.
  intros Hg Hm. split; [|split; [|split]].
  - intros (e & Hin & Hfd).
    destruct (scan_finds Registry.fd _ _ _ Hg Hin Hfd) as [x Hs].
    destruct (scan_found Registry.fd _ _ _ Hg Hs) as (Hx & _ & _ & Hfx).
    exists x. repeat apply conj; try done; try lia.
    + rewrite (destroyDataLooperThread_found _ _ _ _ Hg Hs).
      destruct (join_ret =? 0); eauto.
    + rewrite (destroyEventLooperThread_found _ _ _ _ _ Hg Hs).
      destruct (kill_ret =? 0), (join_ret =? 0); cbn [negb]; eauto.
  - intros Hall.
    pose proof (scan_misses Registry.fd _ _ Hg Hall) as Hs.
    split; [exact Hs|]. split.
    + by apply destroyDataLooperThread_not_found.
    + by apply destroyEventLooperThread_not_found.
  - intros (e & Hin & Hfd).
    destruct (scan_finds Monitor.fd _ _ _ Hm Hin Hfd) as [x Hs].
    destruct (scan_found Monitor.fd _ _ _ Hm Hs) as (Hx & _ & _ & Hfx).
    exists x. repeat apply conj; try done; try lia.
    by apply (unregisterPortMonitorListener_found _ _ _ _ _ x).
  - intros Hall.
    pose proof (scan_misses Monitor.fd _ _ Hm Hall) as Hs.
    split; [exact Hs|].
    by apply unregisterPortMonitorListener_not_found.
Qed.

(** The theorem at tables with one entry, for descriptor 5: descriptor 5
    is found, descriptor 6 is not. *)
Lemma teardown_needs_an_entry_witness :
  (exists x,
     scan Registry.fd (Registry.fd_looper_info Examples.data_only) 5 = (x, true)
     /\ 0 <= x < MAX_NUM_THREADS
     /\ Registry.fd (slot (Registry.fd_looper_info Examples.data_only) x) = 5
     /\ (exists r,
           Registry.destroyDataLooperThread Examples.data_only 5 0 = Done r)
     /\ (exists r,
           Registry.destroyEventLooperThread Examples.data_only 5 0 0 = Done r))
  /\ Registry.destroyDataLooperThread Examples.data_only 6 0
     = OutOfBounds "fd_looper_info" MAX_NUM_THREADS
  /\ Monitor.unregisterPortMonitorListener Linux
       (Examples.one_monitor "/dev/ttyUSB0") 6 0 0
     = OutOfBounds "port_monitor_info" MAX_NUM_THREADS.
Proof.
  destruct (teardown_needs_an_entry Linux Examples.data_only
              (Examples.one_monitor "/dev/ttyUSB0") 5 0 0 eq_refl eq_refl)
    as (Hfound & _).
  destruct (teardown_needs_an_entry Linux Examples.data_only
              (Examples.one_monitor "/dev/ttyUSB0") 6 0 0 eq_refl eq_refl)
    as (_ & Hmiss & _ & Hmiss').
  split; [|split].
  - apply Hfound. exists (Examples.data_entry 5). split; [|reflexivity].
    apply (list_elem_of_lookup_2 _ 0%nat). reflexivity.
  - apply Hmiss. apply Forall_forall.
    refine (bool_decide_unpack (Forall (fun e => Registry.fd e <> 6) _) _).
    vm_compute. exact I.
  - apply Hmiss'. apply Forall_forall.
    refine (bool_decide_unpack (Forall (fun e => Monitor.fd e <> 6) _) _).
    vm_compute. exact I.
Defined.

(** ** The terminal configuration *)

Section TermiosFacts.
Import Termios.

Lemma bic_no_bits flags m : no_bits (bic flags m) m = true.
Proof.
  unfold no_bits, bic. apply Z.eqb_eq.
  by rewrite <- Z.land_assoc, (Z.land_comm (Z.lnot m)), Z.land_lnot_diag,
    Z.land_0_r.
Qed.

Lemma bis_has_bits flags m : has_bits (bis flags m) m = true.
Proof.
  unfold has_bits, bis. apply Z.eqb_eq. apply Z.bits_inj'. intros n Hn.
  rewrite Z.land_spec, Z.lor_spec.
  by destruct (Z.testbit flags n), (Z.testbit m n).
Qed.

(** Clearing the bits of [m] keeps the bits of [k] that are set, when
    [k] and [m] share no bit. *)
Lemma bic_keeps flags m k :
  Z.land k m = 0 -> has_bits flags k = true -> has_bits (bic flags m) k = true.
Proof.
  unfold has_bits, bic. intros Hkm Hk. apply Z.eqb_eq in Hk.
  apply Z.eqb_eq. apply Z.bits_inj'. intros n Hn.
  apply (f_equal (fun z => Z.testbit z n)) in Hkm, Hk.
  rewrite Z.land_spec in Hkm, Hk. rewrite Z.bits_0 in Hkm.
  rewrite !Z.land_spec, Z.lnot_spec by done.
  by destruct (Z.testbit flags n), (Z.testbit m n), (Z.testbit k n).
Qed.

Context {T : termios_consts}.

(** Selecting no flow control or hardware flow control clears [IXON] and
    [IXOFF], on every platform. *)
Lemma set_flow_control_clears_software p flowctrl xon xoff c :
  flowctrl = 1 \/ flowctrl = 2 ->
  no_bits (c_iflag (set_flow_control p flowctrl xon xoff c))
    (Z.lor IXON IXOFF) = true.
Proof. intros [-> | ->]; destruct p; apply bic_no_bits. Qed.

(** Selecting software flow control sets [IXON] and [IXOFF], and of the
    control flags it clears the bits of [CRTSCTS] and no other, on every
    platform. *)
Lemma set_flow_control_software p xon xoff c :
  has_bits (c_iflag (set_flow_control p 3 xon xoff c)) (Z.lor IXON IXOFF)
    = true
  /\ c_cflag (set_flow_control p 3 xon xoff c) = bic (c_cflag c) CRTSCTS
  /\ no_bits (c_cflag (set_flow_control p 3 xon xoff c)) CRTSCTS = true.
Proof.
  split; [apply bis_has_bits|]. split; [reflexivity|apply bic_no_bits].
Qed.

(** On Solaris, where [CRTSXOFF] is a bit of its own, software flow
    control leaves inbound hardware flow control on when it was on. *)
Lemma set_flow_control_software_keeps_CRTSXOFF xon xoff c :
  Z.land CRTSXOFF CRTSCTS = 0 ->
  has_bits (c_cflag c) CRTSXOFF = true ->
  has_bits (c_cflag (set_flow_control SunOS 3 xon xoff c)) CRTSXOFF = true.
Proof. intros Hd Hc. by apply bic_keeps. Qed.

(** C6, at a failing input: [configureComPortData] on Solaris with
    [baudRateTranslated = 251], the request for a custom baud rate, when
    reading and writing the control block succeed. The claim asks for a
    failure that says the rate is not supported. The function returns 0.
    It makes no call that sets a speed: it writes the block it read with
    the data bits, stop bits and parity requested, whatever
    [custBaudTranslated] is, and flushes the queues. *)
Theorem configureComPortData_custom_baud_on_SunOS_returns_0
    (c : termios) (spd : sys_result) (f : termios -> Z -> termios)
    (fd dataBits stopBits parity custBaudTranslated : Z) :
  configureComPortData SunOS
    {| a_get := ok; a_current := c; a_speed := spd; a_cfsetspeed := f;
       a_set := ok |}
    fd dataBits stopBits parity 251 custBaudTranslated
  = (0,
     [GetAttr fd;
      SetAttr fd
        (set_parity parity (set_stop_bits stopBits (set_data_bits dataBits c)));
      Flush fd]).
Proof. reflexivity. Qed.

End TermiosFacts.

(** C7, at a failing input: [configureComPortControl] on Solaris, with
    the macros of its header. A first call selects hardware flow control
    (2) and succeeds: [CRTSXOFF] and [CRTSCTS] are set. A second call, on
    the block the first one wrote, selects software flow control (3) and
    succeeds: [IXON] and [IXOFF] are set, [CRTSCTS] is cleared, and
    [CRTSXOFF], the inbound hardware flow control of Solaris, is still
    set. The claim asks that exactly one mode be active, every hardware
    bit of the platform being cleared. *)
Theorem software_flow_control_keeps_CRTSXOFF_on_SunOS :
  let T := Termios.solaris_consts in
  let r1 := Termios.configureComPortControl (T := T) SunOS
              (Examples.all_ok Examples.plain_block) 5 2 17 19 false false in
  let c1 := r1.1.2 in
  let r2 := Termios.configureComPortControl (T := T) SunOS
              (Examples.all_ok c1) 5 3 17 19 false false in
  let c2 := r2.1.2 in
  r1 = (0, c1, [Termios.GetAttr 5; Termios.SetAttr 5 c1; Termios.Flush 5])
  /\ Termios.has_bits (Termios.c_cflag c1)
       (Z.lor (Termios.CRTSXOFF (termios_consts := T))
              (Termios.CRTSCTS (termios_consts := T))) = true
  /\ r2 = (0, c2, [Termios.GetAttr 5; Termios.SetAttr 5 c2; Termios.Flush 5])
  /\ Termios.has_bits (Termios.c_iflag c2)
       (Z.lor (Termios.IXON (termios_consts := T))
              (Termios.IXOFF (termios_consts := T))) = true
  /\ Termios.no_bits (Termios.c_cflag c2)
       (Termios.CRTSCTS (termios_consts := T)) = true
  /\ Termios.has_bits (Termios.c_cflag c2)
       (Termios.CRTSXOFF (termios_consts := T)) = true.
Proof. cbv zeta. repeat split; vm_compute; reflexivity. Qed.

(* ================================================================== *)
(** * Further properties *)

(** ** readBytes and writeBytes, continued *)

Section IOMore.
Import IO.
Context {E : errno_consts}.

Lemma read_loop_complete_read index buffer final_buf x pending evs :
  read_loop (Delivers (x :: pending) 0 :: evs) index (-1) buffer final_buf
  = ([BUFFER_SIZE], Some (ByteArray (take 1024 (x :: pending)))).
Proof.
  cbn [read_loop sys_read].
  change (Z.to_nat BUFFER_SIZE) with 1024%nat.
  set (got := take 1024 (x :: pending)).
  assert (Hgot : (0 < length got)%nat) by (unfold got; simpl; lia).
  replace (Z.of_nat (length got) >? 0) with true
    by (symmetry; apply Z.gtb_lt; lia).
  cbn [andb Z.eqb]. change (-1 =? 1) with false. cbv iota.
  rewrite Nat2Z.id, take_app_length. reflexivity.
Qed.

(** X1: [readBytes] repeats a [read] that a signal interrupts before any
    byte arrives, as often as that happens, and then returns the bytes
    of the first [read] that delivers some: the first 1024 of the bytes
    pending. *)
Theorem readBytes_retries_until_data (fd count : Z)
    (buffer0 final0 : list jbyte) (n : nat) (x : jbyte)
    (pending : list jbyte) (evs : list read_event) :
  EINTR <> EAGAIN -> EINTR <> EWOULDBLOCK ->
  readBytes fd count buffer0 final0
    (replicate n (Fails EINTR) ++ Delivers (x :: pending) 0 :: evs)
  = (replicate (S n) 1024, Some (ByteArray (take 1024 (x :: pending)))).
Proof.
  intros H1 H2. unfold readBytes.
  induction n as [|n IH]; cbn [replicate app].
  - apply read_loop_complete_read.
  - rewrite read_loop_retry by done. by rewrite IH.
Qed.

(** X2: when an interrupted [read] that delivered [d1] is followed by
    a complete [read] that delivers [d2], the array returned has
    [length d1 + length d2] elements and starts with [d1], but [d2] is
    not appended: its bytes beyond position [length d1] are returned at
    the positions they had in [d2], and when [d2] is not longer than
    [d1] the array holds no byte of [d2] at all, [d1] being followed by
    what the uninitialised [final_buf] held. *)
Theorem readBytes_keeps_first_part_only (fd count : Z)
    (buffer0 final0 d1 d2 : list jbyte) (evs : list read_event) :
  EINTR <> 0 ->
  length buffer0 = Z.to_nat BUFFER_SIZE ->
  length final0 = Z.to_nat FINAL_BUF_SIZE ->
  (0 < length d1 <= 1024)%nat -> (0 < length d2 <= 1024)%nat ->
  exists l,
    readBytes fd count buffer0 final0
      (Delivers d1 EINTR :: Delivers d2 0 :: evs)
    = ([1024; 1024], Some (ByteArray l))
    /\ length l = (length d1 + length d2)%nat
    /\ take (length d1) l = d1
    /\ take (length d2 - length d1) (drop (length d1) l)
       = drop (length d1) d2
    /\ ((length d2 <= length d1)%nat ->
        l = d1 ++ take (length d2) (drop (length d1) final0)).
Proof.
  intros HE Hb Hf H1 H2.
  change (Z.to_nat FINAL_BUF_SIZE) with 3072%nat in Hf.
  eexists. split; [by apply readBytes_two_reads|].
  split; [|split; [|split]].
  - rewrite !length_app, length_drop, length_take, length_drop. lia.
  - by rewrite take_app_length.
  - rewrite drop_app_length, take_app_length'; [done|].
    by rewrite length_drop.
  - intros Hle. rewrite (drop_ge d2) by lia. cbn [app].
    rewrite Nat.max_l by lia. do 2 f_equal. lia.
Qed.

(** X3: after an interrupted [read] has delivered bytes, [readBytes] keeps
    them only for a next [read] that delivers more. When the next
    [read] reports that no data is available, or the end of the stream,
    the array returned is empty; when it fails with another error the
    function returns [NULL]. The bytes already read reach nobody. *)
Theorem readBytes_partial_data_is_lost (fd count : Z)
    (buffer0 final0 : list jbyte) (x : jbyte) (d1 : list jbyte)
    (e : Z) (evs : list read_event) :
  EINTR <> 0 ->
  readBytes fd count buffer0 final0
    (Delivers (x :: d1) EINTR :: Fails EAGAIN :: evs)
  = ([1024; 1024], Some (ByteArray []))
  /\ readBytes fd count buffer0 final0
       (Delivers (x :: d1) EINTR :: Delivers [] e :: evs)
     = ([1024; 1024], Some (ByteArray []))
  /\ (e <> EAGAIN -> e <> EWOULDBLOCK -> e <> EINTR ->
      readBytes fd count buffer0 final0
        (Delivers (x :: d1) EINTR :: Fails e :: evs)
      = ([1024; 1024], Some NULL)).
Proof.
  intros HE.
  assert (Hfirst : forall rest,
    readBytes fd count buffer0 final0 (Delivers (x :: d1) EINTR :: rest)
    = (BUFFER_SIZE ::
         (read_loop rest (Z.of_nat (length (take 1024 (x :: d1)))) 1
            (take 1024 (x :: d1)
               ++ drop (length (take 1024 (x :: d1))) buffer0)
            (copy_loop 0 (Z.of_nat (length (take 1024 (x :: d1))))
               (take 1024 (x :: d1)
                  ++ drop (length (take 1024 (x :: d1))) buffer0)
               final0)).1,
       (read_loop rest (Z.of_nat (length (take 1024 (x :: d1)))) 1
            (take 1024 (x :: d1)
               ++ drop (length (take 1024 (x :: d1))) buffer0)
            (copy_loop 0 (Z.of_nat (length (take 1024 (x :: d1))))
               (take 1024 (x :: d1)
                  ++ drop (length (take 1024 (x :: d1))) buffer0)
               final0)).2)).
  { intros rest. unfold readBytes. cbn [read_loop sys_read].
    change (Z.to_nat BUFFER_SIZE) with 1024%nat.
    set (got := take 1024 (x :: d1)).
    assert (Hgot : (0 < length got)%nat) by (unfold got; simpl; lia).
    replace (Z.of_nat (length got) >? 0) with true
      by (symmetry; apply Z.gtb_lt; lia).
    replace (EINTR =? 0) with false by (symmetry; by apply Z.eqb_neq).
    rewrite Z.eqb_refl. cbn [andb].
    by destruct (read_loop rest _ _ _ _). }
  split; [|split].
  - rewrite Hfirst. cbn [read_loop sys_read].
    change (-1 >? 0) with false. change (-1 <? 0) with true.
    cbn [andb orb]. rewrite (Z.eqb_refl EAGAIN). cbn [andb orb]. reflexivity.
  - rewrite Hfirst. cbn [read_loop sys_read take length Z.of_nat].
    reflexivity.
  - intros H1 H2 H3. rewrite Hfirst. cbn [read_loop sys_read].
    change (-1 >? 0) with false. change (-1 <? 0) with true.
    rewrite (proj2 (Z.eqb_neq _ _) H1), (proj2 (Z.eqb_neq _ _) H2),
      (proj2 (Z.eqb_neq _ _) H3).
    cbn [andb orb negb]. reflexivity.
Qed.

(** The index at which partial data ends never passes 1024. *)
Lemma read_loop_bounded evs index partialData buffer final_buf :
  0 <= index <= 1024 ->
  match (read_loop evs index partialData buffer final_buf).2 with
  | Some (ByteArray l) => (length l <= 2048)%nat
  | _ => True
  end.
Proof.
  revert index partialData buffer final_buf.
  induction evs as [|ev evs IH]; intros index partialData buffer final_buf Hi;
    [exact I|].
  cbn [read_loop].
  assert (Hret : 0 <= (sys_read ev buffer BUFFER_SIZE).1.1 <= 1024
                 \/ (sys_read ev buffer BUFFER_SIZE).1.1 = -1).
  { destruct ev as [pending err|err]; cbn [sys_read fst]; [left|by right].
    rewrite length_take. change (Z.to_nat BUFFER_SIZE) with 1024%nat. lia. }
  destruct (sys_read ev buffer BUFFER_SIZE) as [[ret errno] buffer'].
  cbn [fst] in Hret.
  repeat match goal with
  | |- context [if ?b then _ else _] => destruct b eqn:?
  | |- context [let '(_, _) := read_loop ?a ?b ?c ?d ?e in _] =>
      let H := fresh in
      assert (H : 0 <= b <= 1024)
        by (first [lia | destruct Hret as [?| ->]; [lia|discriminate]]);
      apply (IH b c d e) in H; destruct (read_loop a b c d e)
  end; cbn [snd] in *; try done.
  all: rewrite ?length_take; cbn [length]; lia.
Qed.

(** X4: an array that [readBytes] returns never has more than 2048
    elements, so the function does not read [final_buf], of 3072
    elements, beyond its end. *)
Theorem readBytes_result_bounded (fd count : Z)
    (buffer0 final0 : list jbyte) (evs : list read_event) :
  match (readBytes fd count buffer0 final0 evs).2 with
  | Some (ByteArray l) => (length l <= 2048)%nat
  | _ => True
  end.
Proof. apply read_loop_bounded. lia. Qed.

(** *** writeBytes *)

Lemma total_nonneg rs : Forall (fun r => 0 < r) rs -> 0 <= Script.total rs.
Proof.
  induction 1 as [|r rs Hr _ IH]; cbn; [lia|].
  fold (Script.total rs). lia.
Qed.

(** The calls of a transfer that the system accepts in pieces. *)
Lemma write_loop_pieces rs ws fd count index :
  Forall (fun r => 0 < r) rs -> Script.total rs = count -> count < 2 ^ 64 ->
  write_loop (map Script.accepts rs ++ ws) fd count index
  = (Script.piece_calls fd count index rs ++ [ReleaseElements; Tcdrain fd],
     Some 0).
Proof.
  revert count index.
  induction rs as [|r rs IH]; intros count index Hpos Hsum Hc.
  - cbn in Hsum. subst count. cbn [map app Script.piece_calls].
    destruct ws; reflexivity.
  - apply Forall_cons in Hpos as [Hr Hpos].
    pose proof (total_nonneg rs Hpos) as Htot.
    cbn [Script.total foldr] in Hsum. fold (Script.total rs) in Hsum.
    cbn [map app Script.piece_calls write_loop Script.accepts w_ret w_errno].
    replace (count >? 0) with true by (symmetry; apply Z.gtb_lt; lia).
    replace (r =? 0) with false by (symmetry; apply Z.eqb_neq; lia).
    destruct (1 =? count) eqn:H1.
    + apply Z.eqb_eq in H1. cbn [negb].
      assert (rs = []) as ->.
      { destruct Hpos as [|r' rs' Hr' Hpos']; [done|].
        pose proof (total_nonneg rs' Hpos').
        cbn [Script.total foldr] in Hsum. fold (Script.total rs') in Hsum.
        lia. }
      reflexivity.
    + cbn [negb].
      replace (r <? 0) with false by (symmetry; apply Z.ltb_ge; lia).
      cbn [andb]. unfold size_t_wrap. rewrite Z.mod_small by lia.
      rewrite (IH (count - r) (index + r)); [reflexivity|done|lia|lia].
Qed.

(** X5: when the system accepts the array in pieces, of any positive sizes
    that add up to its length, [writeBytes] issues one [write] per
    piece, each from the offset where the pieces before it ended and for
    all the bytes left, then releases the array, drains the output and
    returns 0. For the empty array it issues no [write]. *)
Theorem writeBytes_accepts_in_pieces (fd : Z) (buffer : list jbyte)
    (delay : Z) (rs : list Z) (ws : list write_result) :
  Forall (fun r => 0 < r) rs ->
  Script.total rs = Z.of_nat (length buffer) ->
  Z.of_nat (length buffer) < 2 ^ 64 ->
  writeBytes fd buffer delay (map Script.accepts rs ++ ws)
  = (Script.piece_calls fd (Z.of_nat (length buffer)) 0 rs
       ++ [ReleaseElements; Tcdrain fd],
     Some 0).
Proof.
  intros Hpos Hsum Hc. unfold writeBytes.
  destruct (delay =? 0); by apply write_loop_pieces.
Qed.

(** The calls of a transfer that fails after some pieces. *)
Lemma write_loop_pieces_then_failure rs w ws fd count index :
  Forall (fun r => 0 < r) rs -> Script.total rs + 1 < count < 2 ^ 64 ->
  w_ret w < 0 -> w_errno w <> EINTR ->
  write_loop (map Script.accepts rs ++ w :: ws) fd count index
  = (Script.piece_calls fd count index rs
       ++ [SysWrite fd (index + Script.total rs) (count - Script.total rs)],
     Some (-1 * w_errno w)).
Proof.
  revert count index.
  induction rs as [|r rs IH]; intros count index Hpos Hc Hr He.
  - cbn [map app Script.piece_calls Script.total foldr] in *.
    rewrite Z.add_0_r, Z.sub_0_r. apply write_loop_abort; [lia|done|done].
  - apply Forall_cons in Hpos as [Hr0 Hpos].
    pose proof (total_nonneg rs Hpos) as Htot.
    cbn [Script.total foldr] in *. fold (Script.total rs) in *.
    cbn [map app Script.piece_calls].
    rewrite write_loop_advance
      by (cbn [Script.accepts w_ret]; lia).
    cbn [Script.accepts w_ret].
    rewrite (IH (count - r) (index + r)); [|done|lia|done|done].
    cbn [fst snd].
    replace (index + r + Script.total rs)
      with (index + (r + Script.total rs)) by lia.
    replace (count - r - Script.total rs)
      with (count - (r + Script.total rs)) by lia.
    reflexivity.
Qed.

(** X6: when a [write] fails with an error other than [EINTR] while more
    than one byte is left, [writeBytes] returns the negated [errno] at
    once. The pieces accepted before stay written; the array is not
    released and the output is not drained. *)
Theorem writeBytes_failure_aborts (fd : Z) (buffer : list jbyte)
    (delay : Z) (rs : list Z) (w : write_result) (ws : list write_result) :
  Forall (fun r => 0 < r) rs ->
  Script.total rs + 1 < Z.of_nat (length buffer) < 2 ^ 64 ->
  w_ret w < 0 -> w_errno w <> EINTR ->
  writeBytes fd buffer delay (map Script.accepts rs ++ w :: ws)
  = (Script.piece_calls fd (Z.of_nat (length buffer)) 0 rs
       ++ [SysWrite fd (Script.total rs)
             (Z.of_nat (length buffer) - Script.total rs)],
     Some (-1 * w_errno w)).
Proof.
  intros Hpos Hc Hr He. unfold writeBytes.
  destruct (delay =? 0);
    by rewrite write_loop_pieces_then_failure, Z.add_0_l.
Qed.

(** X7: while more than one byte is left, a [write] that a signal
    interrupts is repeated with the same offset and count, as often as
    that happens, and the transfer goes on as if it had not been. *)
Theorem writeBytes_repeats_interrupted_write (fd : Z) (buffer : list jbyte)
    (delay : Z) (n : nat) (ws : list write_result) :
  (1 < length buffer)%nat ->
  writeBytes fd buffer delay (replicate n Script.interrupted ++ ws)
  = (replicate n (SysWrite fd 0 (Z.of_nat (length buffer)))
       ++ (writeBytes fd buffer delay ws).1,
     (writeBytes fd buffer delay ws).2).
Proof.
  intros Hlen.
  assert (Hloop : write_loop (replicate n Script.interrupted ++ ws) fd
                    (Z.of_nat (length buffer)) 0
                  = (replicate n (SysWrite fd 0 (Z.of_nat (length buffer)))
                       ++ (write_loop ws fd (Z.of_nat (length buffer)) 0).1,
                     (write_loop ws fd (Z.of_nat (length buffer)) 0).2)).
  { induction n as [|n IH]; cbn [replicate app].
    - by destruct (write_loop ws fd (Z.of_nat (length buffer)) 0).
    - rewrite write_loop_retry; [|lia|cbn; lia|reflexivity].
      by rewrite IH. }
  unfold writeBytes. by destruct (delay =? 0).
Qed.

End IOMore.

Lemma readBytes_retries_until_data_witness :
  IO.readBytes (E := linux_errno) 5 1024 [] []
    (replicate 3 (IO.Fails (EINTR (errno_consts := linux_errno)))
       ++ IO.Delivers [7; 8] 0 :: [])
  = (replicate 4 1024, Some (IO.ByteArray (take 1024 [7; 8]))).
Proof.
  apply (readBytes_retries_until_data (E := linux_errno) 5 1024 [] [] 3 7 [8] []);
    discriminate.
Defined.

Lemma readBytes_keeps_first_part_only_witness :
  exists l,
    IO.readBytes (E := linux_errno) 5 1024
      (IO.stack_array IO.BUFFER_SIZE (fun _ => 0))
      (IO.stack_array IO.FINAL_BUF_SIZE (fun _ => 0))
      (IO.Delivers [1; 2; 3] (EINTR (errno_consts := linux_errno))
         :: IO.Delivers [4; 5] 0 :: [])
    = ([1024; 1024], Some (IO.ByteArray l))
    /\ length l = (3 + 2)%nat
    /\ take 3 l = [1; 2; 3]
    /\ take (2 - 3) (drop 3 l) = drop 3 [4; 5]
    /\ ((2 <= 3)%nat ->
        l = [1; 2; 3]
            ++ take 2 (drop 3 (IO.stack_array IO.FINAL_BUF_SIZE (fun _ => 0)))).
Proof.
  apply (readBytes_keeps_first_part_only (E := linux_errno) 5 1024
           (IO.stack_array IO.BUFFER_SIZE (fun _ => 0))
           (IO.stack_array IO.FINAL_BUF_SIZE (fun _ => 0))
           [1; 2; 3] [4; 5] []).
  - discriminate.
  - reflexivity.
  - reflexivity.
  - simpl; lia.
  - simpl; lia.
Defined.

Lemma readBytes_partial_data_is_lost_witness :
  IO.readBytes (E := linux_errno) 5 1024 [] []
    [IO.Delivers [1; 2] (EINTR (errno_consts := linux_errno));
     IO.Fails (EAGAIN (errno_consts := linux_errno))]
  = ([1024; 1024], Some (IO.ByteArray []))
  /\ IO.readBytes (E := linux_errno) 5 1024 [] []
       [IO.Delivers [1; 2] (EINTR (errno_consts := linux_errno));
        IO.Delivers [] 0]
     = ([1024; 1024], Some (IO.ByteArray []))
  /\ (5 <> EAGAIN (errno_consts := linux_errno) ->
      5 <> EWOULDBLOCK (errno_consts := linux_errno) ->
      5 <> EINTR (errno_consts := linux_errno) ->
      IO.readBytes (E := linux_errno) 5 1024 [] []
        [IO.Delivers [1; 2] (EINTR (errno_consts := linux_errno));
         IO.Fails 5]
      = ([1024; 1024], Some IO.NULL)).
Proof.
  apply (readBytes_partial_data_is_lost (E := linux_errno)
           5 1024 [] [] 1 [2] 5 []).
  discriminate.
Defined.

Lemma writeBytes_accepts_in_pieces_witness :
  IO.writeBytes (E := linux_errno) 5 [10; 20; 30; 40; 50] 0
    (map Script.accepts [2; 1; 2] ++ [])
  = (Script.piece_calls 5 5 0 [2; 1; 2]
       ++ [IO.ReleaseElements; IO.Tcdrain 5],
     Some 0).
Proof.
  apply (writeBytes_accepts_in_pieces (E := linux_errno)
           5 [10; 20; 30; 40; 50] 0 [2; 1; 2] []).
  - repeat constructor.
  - reflexivity.
  - reflexivity.
Defined.

Lemma writeBytes_failure_aborts_witness :
  IO.writeBytes (E := linux_errno) 5 [10; 20; 30; 40; 50] 0
    (map Script.accepts [2] ++ {| IO.w_ret := -1; IO.w_errno := 5 |} :: [])
  = (Script.piece_calls 5 5 0 [2] ++ [IO.SysWrite 5 2 (5 - 2)],
     Some (-1 * 5)).
Proof.
  apply (writeBytes_failure_aborts (E := linux_errno)
           5 [10; 20; 30; 40; 50] 0 [2]
           {| IO.w_ret := -1; IO.w_errno := 5 |} []).
  - repeat constructor.
  - split; reflexivity.
  - reflexivity.
  - discriminate.
Defined.

Lemma writeBytes_repeats_interrupted_write_witness :
  IO.writeBytes (E := linux_errno) 5 [10; 20] 0
    (replicate 2 (Script.interrupted (E := linux_errno))
       ++ [Script.accepts 2])
  = (replicate 2 (IO.SysWrite 5 0 2)
       ++ (IO.writeBytes (E := linux_errno) 5 [10; 20] 0
             [Script.accepts 2]).1,
     (IO.writeBytes (E := linux_errno) 5 [10; 20] 0 [Script.accepts 2]).2).
Proof.
  apply (writeBytes_repeats_interrupted_write (E := linux_errno)
           5 [10; 20] 0 2 [Script.accepts 2]).
  simpl. lia.
Defined.

(** ** The terminal configuration, continued *)

(** Equations between masks, bit by bit. *)
Ltac testbits H n :=
  apply (f_equal (fun z => Z.testbit z n)) in H;
  rewrite ?Z.land_spec, ?Z.lor_spec, ?Z.bits_0 in H.

Ltac bitwise n Hn :=
  apply Z.bits_inj'; intros n Hn;
  repeat first
    [ rewrite Z.land_spec | rewrite Z.lor_spec
    | rewrite Z.lnot_spec by assumption | rewrite Z.bits_0 ].

Section TermiosMore.
Import Termios.

(** *** Bit masks *)

Lemma land_bic_same x m : Z.land (bic x m) m = 0.
Proof. pose proof (bic_no_bits x m) as H. by apply Z.eqb_eq in H. Qed.

Lemma land_bis_disjoint x m k :
  Z.land m k = 0 -> Z.land (bis x m) k = Z.land x k.
Proof.
  intros H. unfold bis. bitwise n Hn. testbits H n.
  by destruct (Z.testbit x n), (Z.testbit m n), (Z.testbit k n).
Qed.

Lemma land_bic_disjoint x m k :
  Z.land m k = 0 -> Z.land (bic x m) k = Z.land x k.
Proof.
  intros H. unfold bic. bitwise n Hn. testbits H n.
  by destruct (Z.testbit x n), (Z.testbit m n), (Z.testbit k n).
Qed.

Lemma land_bic_part x m k : Z.land k m = k -> Z.land (bic x m) k = 0.
Proof.
  intros H. unfold bic. bitwise n Hn. testbits H n.
  by destruct (Z.testbit x n), (Z.testbit m n), (Z.testbit k n).
Qed.

Lemma field_set x m k :
  Z.land k m = k -> Z.land (bis (bic x m) k) m = k.
Proof.
  intros H. unfold bis, bic. bitwise n Hn. testbits H n.
  by destruct (Z.testbit x n), (Z.testbit m n), (Z.testbit k n).
Qed.

Lemma field_rest x m k :
  Z.land k m = k -> bic (bis (bic x m) k) m = bic x m.
Proof.
  intros H. unfold bis, bic. bitwise n Hn. testbits H n.
  by destruct (Z.testbit x n), (Z.testbit m n), (Z.testbit k n).
Qed.

Lemma bic_bic_same x m : bic (bic x m) m = bic x m.
Proof.
  unfold bic. bitwise n Hn.
  by destruct (Z.testbit x n), (Z.testbit m n).
Qed.

Lemma bic_bis_same x m : bic (bis x m) m = bic x m.
Proof.
  unfold bic, bis. bitwise n Hn.
  by destruct (Z.testbit x n), (Z.testbit m n).
Qed.

Lemma has_bits_false x m : m <> 0 -> Z.land x m = 0 -> has_bits x m = false.
Proof. intros Hm H. unfold has_bits. rewrite H. apply Z.eqb_neq. congruence. Qed.

Context {T : termios_consts}.

(** *** Data bits, stop bits, parity *)

(** The code of a number of data bits; 0, which clears the field, for
    a number that is none of 5, 6, 7 and 8. *)
Lemma set_data_bits_cflag dataBits c :
  c_cflag (set_data_bits dataBits c) =
    bis (bic (c_cflag c) CSIZE)
      (if dataBits =? 5 then CS5 else if dataBits =? 6 then CS6
       else if dataBits =? 7 then CS7 else if dataBits =? 8 then CS8
       else 0).
Proof.
  unfold set_data_bits.
  destruct (dataBits =? 5); [reflexivity|].
  destruct (dataBits =? 6); [reflexivity|].
  destruct (dataBits =? 7); [reflexivity|].
  destruct (dataBits =? 8); [reflexivity|].
  cbn. unfold bis. by rewrite Z.lor_0_r.
Qed.

(** X8: where each of [CS5], ..., [CS8] lies within [CSIZE], as in every
    header: the [CSIZE] field of the block that leaves the data-bits
    step holds the code of the number requested, and 0 (five bits, where
    [CS5] is 0) for a number that is none of 5, 6, 7 and 8; the bits
    outside [CSIZE] and the other fields are as they were. *)
Theorem data_bits_are_encoded_in_CSIZE (dataBits : Z) (c : termios) :
  Z.land CS5 CSIZE = CS5 -> Z.land CS6 CSIZE = CS6 ->
  Z.land CS7 CSIZE = CS7 -> Z.land CS8 CSIZE = CS8 ->
  Z.land (c_cflag (set_data_bits dataBits c)) CSIZE =
    (if dataBits =? 5 then CS5 else if dataBits =? 6 then CS6
     else if dataBits =? 7 then CS7 else if dataBits =? 8 then CS8
     else 0)
  /\ bic (c_cflag (set_data_bits dataBits c)) CSIZE = bic (c_cflag c) CSIZE
  /\ c_iflag (set_data_bits dataBits c) = c_iflag c
  /\ c_cc (set_data_bits dataBits c) = c_cc c.
Proof.
  intros H5 H6 H7 H8. rewrite set_data_bits_cflag.
  assert (Hk : Z.land
                 (if dataBits =? 5 then CS5 else if dataBits =? 6 then CS6
                  else if dataBits =? 7 then CS7
                  else if dataBits =? 8 then CS8 else 0) CSIZE
               = (if dataBits =? 5 then CS5 else if dataBits =? 6 then CS6
                  else if dataBits =? 7 then CS7
                  else if dataBits =? 8 then CS8 else 0)).
  { destruct (dataBits =? 5); [done|]. destruct (dataBits =? 6); [done|].
    destruct (dataBits =? 7); [done|]. destruct (dataBits =? 8); [done|].
    apply Z.land_0_l. }
  split; [by apply field_set|]. split; [by apply field_rest|].
  unfold set_data_bits.
  destruct (dataBits =? 5), (dataBits =? 6), (dataBits =? 7),
    (dataBits =? 8); done.
Qed.

(** X9: one stop bit is used exactly when [stopBits] is 1: for every other
    value, 1.5 and 2 among them, [CSTOPB] is set. No other bit of the
    control flags changes. *)
Theorem stop_bits_are_encoded_in_CSTOPB (stopBits : Z) (c : termios) :
  CSTOPB <> 0 ->
  has_bits (c_cflag (set_stop_bits stopBits c)) CSTOPB = negb (stopBits =? 1)
  /\ bic (c_cflag (set_stop_bits stopBits c)) CSTOPB = bic (c_cflag c) CSTOPB.
Proof.
  intros Hne. unfold set_stop_bits. destruct (stopBits =? 1); cbn [negb].
  - split; [|apply bic_bic_same].
    apply has_bits_false; [done|apply land_bic_same].
  - split; [apply bis_has_bits|apply bic_bis_same].
Qed.

(** X10: where [PARENB] and [PARODD] share no bit: no parity (1) leaves
    [PARENB] clear; odd parity (2) sets [PARENB] and [PARODD]; even
    parity (3) sets [PARENB] and leaves [PARODD] clear; odd and even
    parity enable the parity check of the input, [INPCK]. *)
Theorem parity_is_encoded_in_PARENB_PARODD (c : termios) :
  Z.land PARENB PARODD = 0 ->
  no_bits (c_cflag (set_parity 1 c)) PARENB = true
  /\ has_bits (c_cflag (set_parity 2 c)) (Z.lor PARENB PARODD) = true
  /\ has_bits (c_iflag (set_parity 2 c)) INPCK = true
  /\ has_bits (c_cflag (set_parity 3 c)) PARENB = true
  /\ no_bits (c_cflag (set_parity 3 c)) PARODD = true
  /\ has_bits (c_iflag (set_parity 3 c)) INPCK = true.
Proof.
  intros Hd. repeat split.
  - apply bic_no_bits.
  - apply bis_has_bits.
  - apply bis_has_bits.
  - cbn. unfold has_bits. rewrite land_bic_disjoint by by rewrite Z.land_comm.
    apply bis_has_bits.
  - apply bic_no_bits.
  - apply bis_has_bits.
Qed.

(** X11: mark (4) and space (5) parity need the stick-parity bit of the
    platform, [CMSPAR] or [PAREXT]. Where the header defines neither, as
    on mac OS, the two requests leave [PARENB] clear, so that no parity
    is generated at all, and yet enable the parity check of the input
    and let the call go on. *)
Theorem mark_and_space_parity_without_stick_bit (c : termios) :
  CMSPAR = None -> PAREXT = None ->
  no_bits (c_cflag (set_parity 4 c)) PARENB = true
  /\ no_bits (c_cflag (set_parity 5 c)) PARENB = true
  /\ has_bits (c_iflag (set_parity 4 c)) INPCK = true
  /\ has_bits (c_iflag (set_parity 5 c)) INPCK = true.
Proof.
  intros H1 H2. unfold set_parity, stick_bit. rewrite H1, H2.
  cbn [Z.eqb Pos.eqb]. cbn.
  assert (Hclr : forall x, Z.land (bic x (Z.lor (Z.lor PARENB PARODD) 0)) PARENB = 0).
  { intros x. apply land_bic_part. bitwise n Hn.
    by destruct (Z.testbit PARENB n), (Z.testbit PARODD n). }
  repeat split.
  - unfold no_bits. by rewrite Hclr.
  - unfold no_bits.
    replace (Z.land (bic (bic (c_cflag c) (Z.lor (Z.lor PARENB PARODD) 0)) PARODD) PARENB)
      with 0; [done|].
    symmetry. unfold bic. bitwise n Hn.
    by destruct (Z.testbit (c_cflag c) n), (Z.testbit PARENB n),
      (Z.testbit PARODD n).
  - apply bis_has_bits.
  - apply bis_has_bits.
Qed.

(** X12: with the stick-parity bit [m] of the platform, mark parity (4) sets
    [PARENB], [PARODD] and [m]; space parity (5) sets [PARENB] and [m]
    and, where [PARODD] shares no bit with them, leaves [PARODD]
    clear. *)
Theorem mark_and_space_parity_with_stick_bit (m : Z) (c : termios) :
  stick_bit = m -> (CMSPAR = Some m \/ PAREXT = Some m) ->
  Z.land (Z.lor PARENB m) PARODD = 0 ->
  has_bits (c_cflag (set_parity 4 c)) (Z.lor (Z.lor PARENB PARODD) m) = true
  /\ has_bits (c_cflag (set_parity 5 c)) (Z.lor PARENB m) = true
  /\ no_bits (c_cflag (set_parity 5 c)) PARODD = true.
Proof.
  intros Hs Hdef Hd. unfold set_parity. rewrite Hs.
  assert (Hor : forall (x y : termios),
            match CMSPAR, PAREXT with None, None => x | _, _ => y end = y).
  { intros x y. destruct Hdef as [-> | ->]; [done|]. by destruct CMSPAR. }
  cbn [Z.eqb Pos.eqb]. rewrite !Hor. repeat split.
  - apply bis_has_bits.
  - cbn. unfold has_bits.
    rewrite land_bic_disjoint by by rewrite Z.land_comm.
    apply bis_has_bits.
  - apply bic_no_bits.
Qed.

End TermiosMore.

Section TermiosCalls.
Import Termios.

Context {T : termios_consts}.

(** *** configureComPortData *)

(** The one block [configureComPortData] writes at its end holds the
    data bits, stop bits and parity requested. *)
Lemma configureComPortData_block p a fd dataBits stopBits parity baud cust c1 :
  In (SetAttr fd c1)
     (configureComPortData p a fd dataBits stopBits parity baud cust).2 ->
  exists c0,
    c1 = set_parity parity (set_stop_bits stopBits (set_data_bits dataBits c0)).
Proof.
  unfold configureComPortData, data_tail.
  destruct (s_ret (a_get a) <? 0), (baud =? 251), p,
    (s_ret (a_speed a) <? 0), (s_ret (a_set a) <? 0);
    cbn [snd app In]; intros Hin;
    repeat match goal with
    | H : _ \/ _ |- _ => destruct H
    | H : False |- _ => destruct H
    | H : SetAttr _ _ = SetAttr _ _ |- _ => inversion H; clear H
    | H : _ = SetAttr _ _ |- _ => discriminate H
    end; eauto.
Qed.

(** X13: on Linux the function does not look at what the final write of the
    control block returns: once the block was read (and, for a custom
    rate, the rate was set) it returns 0 and flushes the queues, also
    when the write failed. On mac OS and Solaris a failed write is
    reported with the negated [errno], and nothing is flushed. *)
Theorem configureComPortData_final_write (p : platform) (a : answers)
    (fd dataBits stopBits parity baud cust : Z) :
  0 <= s_ret (a_get a) -> 0 <= s_ret (a_speed a) ->
  let r := configureComPortData p a fd dataBits stopBits parity baud cust in
  (p = Linux -> r.1 = 0 /\ In (Flush fd) r.2)
  /\ (p <> Linux -> s_ret (a_set a) < 0 ->
      r.1 = -1 * s_errno (a_set a) /\ ~ In (Flush fd) r.2).
Proof.
  intros Hg Hs. cbv zeta. unfold configureComPortData, data_tail.
  replace (s_ret (a_get a) <? 0) with false by (symmetry; apply Z.ltb_ge; lia).
  replace (s_ret (a_speed a) <? 0) with false
    by (symmetry; apply Z.ltb_ge; lia).
  split.
  - intros ->. destruct (baud =? 251); cbn [fst snd app In]; auto 10.
  - intros Hp Hset.
    replace (s_ret (a_set a) <? 0) with true by (symmetry; apply Z.ltb_lt; lia).
    destruct (baud =? 251), p; try done; cbn [fst snd app In];
      (split; [done|]); intuition discriminate.
Qed.

(** *** configureComPortControl *)

Lemma set_flow_control_keeps p flowctrl xon xoff c k :
  Z.land CRTSCTS k = 0 -> Z.land CRTS_IFLOW k = 0 ->
  Z.land CCTS_OFLOW k = 0 -> Z.land CRTSXOFF k = 0 ->
  Z.land (c_cflag (set_flow_control p flowctrl xon xoff c)) k
  = Z.land (c_cflag c) k.
Proof.
  intros H1 H2 H3 H4. unfold set_flow_control.
  destruct (flowctrl =? 1); [|destruct (flowctrl =? 2);
    [|destruct (flowctrl =? 3)]]; destruct p; cbn;
    rewrite ?land_bic_disjoint, ?land_bis_disjoint by done; reflexivity.
Qed.

(** X14: the report of parity and framing errors cannot be switched on for
    a port that [configureComPortData] configured without parity:
    whatever flow control is requested with it, [configureComPortControl]
    returns -242 on the block that [configureComPortData] wrote with
    parity 1, and writes nothing. The flow-control bits are assumed to
    lie apart from [PARENB], as in every header. *)
Theorem parity_error_report_needs_parity (p : platform) (a a' : answers)
    (fd dataBits stopBits baud cust flowctrl xon xoff : Z)
    (overFlowErr : bool) (c1 : termios) :
  PARENB <> 0 ->
  Z.land CRTSCTS PARENB = 0 -> Z.land CRTS_IFLOW PARENB = 0 ->
  Z.land CCTS_OFLOW PARENB = 0 -> Z.land CRTSXOFF PARENB = 0 ->
  In (SetAttr fd c1)
     (configureComPortData p a fd dataBits stopBits 1 baud cust).2 ->
  0 <= s_ret (a_get a') -> a_current a' = c1 ->
  configureComPortControl p a' fd flowctrl xon xoff true overFlowErr
  = (-242, set_flow_control p flowctrl xon xoff c1, [GetAttr fd]).
Proof.
  intros Hne H1 H2 H3 H4 Hin Hg Hc.
  apply configureComPortData_block in Hin as [c0 ->].
  unfold configureComPortControl. rewrite Hc.
  replace (s_ret (a_get a') <? 0) with false by (symmetry; apply Z.ltb_ge; lia).
  rewrite set_flow_control_keeps by done.
  replace (Z.land (c_cflag (set_parity 1
             (set_stop_bits stopBits (set_data_bits dataBits c0)))) PARENB)
    with 0 by (symmetry; apply land_bic_same).
  replace (0 =? PARENB) with false by (symmetry; apply Z.eqb_neq; congruence).
  reflexivity.
Qed.

(** X15: when the report of parity errors is not requested, the function
    sets and then clears both [IGNPAR] and [PARMRK]: in the block it
    ends with neither is set, so a character with a parity error is
    neither dropped nor marked. [IMAXBEL] is assumed to lie apart from
    the two. *)
Theorem no_parity_error_report_clears_IGNPAR_and_PARMRK (p : platform)
    (a : answers) (fd flowctrl xon xoff : Z) (overFlowErr : bool) :
  Z.land IMAXBEL (Z.lor IGNPAR PARMRK) = 0 ->
  0 <= s_ret (a_get a) ->
  let r := configureComPortControl p a fd flowctrl xon xoff false overFlowErr in
  no_bits (c_iflag r.1.2) (Z.lor IGNPAR PARMRK) = true
  /\ (r.1.1 = 0 -> In (SetAttr fd r.1.2) r.2).
Proof.
  intros Hd Hg. cbv zeta. unfold configureComPortControl.
  replace (s_ret (a_get a) <? 0) with false by (symmetry; apply Z.ltb_ge; lia).
  cbn [andb].
  set (c := set_flow_control p flowctrl xon xoff (a_current a)).
  assert (Hclr : forall y,
            Z.land (bic (bic (bis (bis y IGNPAR) PARMRK) IGNPAR) PARMRK)
              (Z.lor IGNPAR PARMRK) = 0).
  { intros y. unfold bic, bis. bitwise n Hn.
    by destruct (Z.testbit y n), (Z.testbit IGNPAR n), (Z.testbit PARMRK n). }
  split.
  - unfold no_bits. apply Z.eqb_eq.
    destruct overFlowErr, (s_ret (a_set a) <? 0); cbn.
    all: rewrite ?land_bis_disjoint, ?land_bic_disjoint by done; apply Hclr.
  - destruct (s_ret (a_set a) <? 0); cbn [fst snd app In]; auto.
Qed.

(** X16: software flow control stores the low eight bits of [xon] and [xoff]
    as the start and stop characters, and changes no other control
    character. *)
Theorem software_flow_control_stores_xon_xoff (p : platform)
    (xon xoff : Z) (c : termios) :
  VSTART <> VSTOP -> 0 <= VSTART -> 0 <= VSTOP ->
  (Z.to_nat VSTART < length (c_cc c))%nat ->
  (Z.to_nat VSTOP < length (c_cc c))%nat ->
  let c' := set_flow_control p 3 xon xoff c in
  c_cc c' !! Z.to_nat VSTART = Some (xon mod 256)
  /\ c_cc c' !! Z.to_nat VSTOP = Some (xoff mod 256)
  /\ forall i, i <> Z.to_nat VSTART -> i <> Z.to_nat VSTOP ->
       c_cc c' !! i = c_cc c !! i.
Proof.
  intros Hne H0 H0' H1 H2. cbv zeta. cbn. unfold cc_t. repeat split.
  - rewrite list_lookup_insert_ne by lia. by rewrite list_lookup_insert_eq.
  - rewrite list_lookup_insert_eq; [done|]. by rewrite length_insert.
  - intros i Hi1 Hi2. by rewrite !list_lookup_insert_ne.
Qed.

End TermiosCalls.

Lemma data_bits_are_encoded_in_CSIZE_witness :
  Z.land (Termios.c_cflag
            (Termios.set_data_bits (T := Termios.solaris_consts) 7
               Examples.plain_block))
    (Termios.CSIZE (termios_consts := Termios.solaris_consts)) = 0x20.
Proof.
  apply (data_bits_are_encoded_in_CSIZE (T := Termios.solaris_consts)
           7 Examples.plain_block); reflexivity.
Defined.

Lemma stop_bits_are_encoded_in_CSTOPB_witness :
  Termios.has_bits
    (Termios.c_cflag
       (Termios.set_stop_bits (T := Termios.solaris_consts) 2
          Examples.plain_block))
    (Termios.CSTOPB (termios_consts := Termios.solaris_consts)) = true.
Proof.
  apply (stop_bits_are_encoded_in_CSTOPB (T := Termios.solaris_consts)
           2 Examples.plain_block).
  discriminate.
Defined.

Lemma parity_is_encoded_in_PARENB_PARODD_witness :
  Termios.no_bits
    (Termios.c_cflag
       (Termios.set_parity (T := Termios.solaris_consts) 1
          Examples.plain_block))
    (Termios.PARENB (termios_consts := Termios.solaris_consts)) = true.
Proof.
  apply (parity_is_encoded_in_PARENB_PARODD (T := Termios.solaris_consts)
           Examples.plain_block).
  reflexivity.
Defined.

Lemma mark_and_space_parity_without_stick_bit_witness :
  Termios.no_bits
    (Termios.c_cflag
       (Termios.set_parity (T := Samples.apple_consts) 4 Samples.apple_block))
    (Termios.PARENB (termios_consts := Samples.apple_consts)) = true.
Proof.
  apply (mark_and_space_parity_without_stick_bit (T := Samples.apple_consts)
           Samples.apple_block); reflexivity.
Defined.

Lemma mark_and_space_parity_with_stick_bit_witness :
  Termios.has_bits
    (Termios.c_cflag
       (Termios.set_parity (T := Termios.solaris_consts) 4
          Examples.plain_block))
    (Z.lor (Z.lor 0x100 0x200) 0x100000) = true.
Proof.
  apply (mark_and_space_parity_with_stick_bit (T := Termios.solaris_consts)
           0x100000 Examples.plain_block).
  - reflexivity.
  - right. reflexivity.
  - reflexivity.
Defined.

Lemma configureComPortData_final_write_witness :
  (Termios.configureComPortData (T := Termios.solaris_consts) Linux
     {| Termios.a_get := Termios.ok; Termios.a_current := Examples.plain_block;
        Termios.a_speed := Termios.ok;
        Termios.a_cfsetspeed := fun c _ => c;
        Termios.a_set := Samples.failed 5 |} 5 8 1 1 9600 0).1 = 0
  /\ In (Termios.Flush 5)
       (Termios.configureComPortData (T := Termios.solaris_consts) Linux
          {| Termios.a_get := Termios.ok;
             Termios.a_current := Examples.plain_block;
             Termios.a_speed := Termios.ok;
             Termios.a_cfsetspeed := fun c _ => c;
             Termios.a_set := Samples.failed 5 |} 5 8 1 1 9600 0).2.
Proof.
  refine (proj1 (configureComPortData_final_write
                   (T := Termios.solaris_consts) Linux
                   {| Termios.a_get := Termios.ok;
                      Termios.a_current := Examples.plain_block;
                      Termios.a_speed := Termios.ok;
                      Termios.a_cfsetspeed := fun c _ => c;
                      Termios.a_set := Samples.failed 5 |} 5 8 1 1 9600 0
                   _ _) eq_refl); discriminate.
Defined.

Lemma parity_error_report_needs_parity_witness :
  Termios.configureComPortControl (T := Termios.solaris_consts) SunOS
    (Examples.all_ok
       (Termios.set_parity (T := Termios.solaris_consts) 1
          (Termios.set_stop_bits (T := Termios.solaris_consts) 1
             (Termios.set_data_bits (T := Termios.solaris_consts) 8
                Examples.plain_block))))
    5 1 17 19 true false
  = (-242,
     Termios.set_flow_control (T := Termios.solaris_consts) SunOS 1 17 19
       (Termios.set_parity (T := Termios.solaris_consts) 1
          (Termios.set_stop_bits (T := Termios.solaris_consts) 1
             (Termios.set_data_bits (T := Termios.solaris_consts) 8
                Examples.plain_block))),
     [Termios.GetAttr 5]).
Proof.
  apply (parity_error_report_needs_parity (T := Termios.solaris_consts)
           SunOS (Examples.all_ok Examples.plain_block) _ 5 8 1 9600 0
           1 17 19 false).
  - discriminate.
  - reflexivity.
  - reflexivity.
  - reflexivity.
  - reflexivity.
  - right. right. left. reflexivity.
  - discriminate.
  - reflexivity.
Defined.

Lemma no_parity_error_report_clears_IGNPAR_and_PARMRK_witness :
  Termios.no_bits
    (Termios.c_iflag
       (Termios.configureComPortControl (T := Termios.solaris_consts) SunOS
          (Examples.all_ok Examples.plain_block) 5 1 17 19 false true).1.2)
    (Z.lor 0x4 0x8) = true.
Proof.
  apply (no_parity_error_report_clears_IGNPAR_and_PARMRK
           (T := Termios.solaris_consts) SunOS
           (Examples.all_ok Examples.plain_block) 5 1 17 19 true).
  - reflexivity.
  - discriminate.
Defined.

Lemma software_flow_control_stores_xon_xoff_witness :
  Termios.c_cc
    (Termios.set_flow_control (T := Termios.solaris_consts) SunOS 3
       0x111 0x113 Examples.plain_block) !! 8%nat
  = Some (0x111 mod 256).
Proof.
  apply (software_flow_control_stores_xon_xoff (T := Termios.solaris_consts)
           SunOS 0x111 0x113 Examples.plain_block).
  - discriminate.
  - discriminate.
  - discriminate.
  - simpl. lia.
  - simpl. lia.
Defined.

(** ** Reading the configuration, and the minimum read length *)

Section ConfigFacts.
Import Termios Config.

(** X17: [setMinDataLength] stores the low eight bits of [numOfBytes] in
    [c_cc[VMIN]] of the block it read and writes that block: a request
    for 256 bytes sets a minimum of 0. Nothing else in the block
    changes. *)
Theorem setMinDataLength_stores_low_byte (vmin : Z) (get set : sys_result)
    (c : termios) (fd numOfBytes : Z) :
  0 <= s_ret get -> 0 <= s_ret set ->
  0 <= vmin -> (Z.to_nat vmin < length (c_cc c))%nat ->
  exists c',
    setMinDataLength vmin get c set fd numOfBytes
      = (0, [GetBlock fd; SetBlock fd c'])
    /\ c_cc c' !! Z.to_nat vmin = Some (numOfBytes mod 256)
    /\ (forall i, i <> Z.to_nat vmin -> c_cc c' !! i = c_cc c !! i)
    /\ c_iflag c' = c_iflag c /\ c_oflag c' = c_oflag c
    /\ c_cflag c' = c_cflag c /\ c_lflag c' = c_lflag c.
Proof.
  intros Hg Hs H0 Hlen. unfold setMinDataLength.
  replace (s_ret get <? 0) with false by (symmetry; apply Z.ltb_ge; lia).
  replace (s_ret set <? 0) with false by (symmetry; apply Z.ltb_ge; lia).
  eexists. split; [reflexivity|]. cbn. unfold cc_t. repeat split.
  - by rewrite list_lookup_insert_eq.
  - intros i Hi. by rewrite list_lookup_insert_ne.
Qed.

Lemma land_low a m : 0 <= m < 2 ^ 32 -> Z.land a m = Z.land (a mod 2 ^ 32) m.
Proof.
  intros Hm. rewrite <- (Z.land_ones a 32) by lia.
  rewrite <- Z.land_assoc. f_equal.
  rewrite Z.land_comm, Z.land_ones by lia. symmetry. by apply Z.mod_small.
Qed.

Lemma to_jint_low x : to_jint x mod 2 ^ 32 = x mod 2 ^ 32.
Proof.
  unfold to_jint. rewrite Zminus_mod_idemp_l. f_equal. lia.
Qed.

Lemma to_jint_range x : - 2 ^ 31 <= to_jint x < 2 ^ 31.
Proof.
  unfold to_jint. pose proof (Z.mod_pos_bound (x + 2 ^ 31) (2 ^ 32)). lia.
Qed.

Lemma to_jint_mask x m : 0 <= m < 2 ^ 32 -> Z.land (to_jint x) m = Z.land x m.
Proof.
  intros Hm. rewrite (land_low (to_jint x)), (land_low x) by done.
  by rewrite to_jint_low.
Qed.

(** X18: the array [getCurrentConfigurationU] returns. When the block cannot
    be read it has the one element -1, whatever [errno] is. Otherwise it
    has 25 elements on Linux and 23 on mac OS and Solaris; element 0 is
    0, elements 1 to 4 are the four flag words, the 17 control
    characters [c_cc[0]], ..., [c_cc[16]] follow (after [c_line] on
    Linux); Linux ends with the two speeds, while on mac OS and Solaris
    the speeds are not reported and the last element is an unset 0. *)
Theorem getCurrentConfigurationU_layout (p : platform) (get : sys_result)
    (c : termios) (c_line fd : Z) :
  let r := getCurrentConfigurationU p get c c_line fd in
  (s_ret get < 0 -> r = [-1])
  /\ (0 <= s_ret get ->
      length r = (if p is Linux then 25 else 23)%nat
      /\ take 5 r = [0; to_jint (c_iflag c); to_jint (c_oflag c);
                     to_jint (c_cflag c); to_jint (c_lflag c)]
      /\ (forall k, (k < 17)%nat ->
            r !! ((if p is Linux then 6 else 5) + k)%nat
            = Some (to_jint (c_cc c !!! k)))
      /\ drop 22 r
         = (if p is Linux then [to_jint (c_cc c !!! 16%nat);
                                to_jint (c_ispeed c); to_jint (c_ospeed c)]
            else [0])).
Proof.
  cbv zeta. unfold getCurrentConfigurationU. split.
  - intros Hg.
    by replace (s_ret get <? 0) with true by (symmetry; apply Z.ltb_lt; lia).
  - intros Hg.
    replace (s_ret get <? 0) with false by (symmetry; apply Z.ltb_ge; lia).
    destruct p; (split; [reflexivity|]); (split; [reflexivity|]);
      (split; [|reflexivity]); intros k Hk;
      do 17 (destruct k as [|k]; [reflexivity|]); lia.
Qed.

(** X19: a flag word is reported as a signed 32-bit integer, negative when
    its bit 31 is set (as with [CRTSCTS] on Solaris). Testing it against
    any mask of 32 bits still gives what the same test gives on the
    control block. *)
Theorem getCurrentConfigurationU_masks (p : platform) (get : sys_result)
    (c : termios) (c_line fd m : Z) :
  0 <= s_ret get -> 0 <= m < 2 ^ 32 ->
  exists i o cf l rest,
    getCurrentConfigurationU p get c c_line fd = 0 :: i :: o :: cf :: l :: rest
    /\ Z.land i m = Z.land (c_iflag c) m
    /\ Z.land o m = Z.land (c_oflag c) m
    /\ Z.land cf m = Z.land (c_cflag c) m
    /\ Z.land l m = Z.land (c_lflag c) m
    /\ - 2 ^ 31 <= cf < 2 ^ 31.
Proof.
  intros Hg Hm. unfold getCurrentConfigurationU.
  replace (s_ret get <? 0) with false by (symmetry; apply Z.ltb_ge; lia).
  destruct p; cbn [app]; do 5 eexists;
    (split; [reflexivity|]);
    rewrite !to_jint_mask by done; repeat split; apply to_jint_range.
Qed.

End ConfigFacts.

Lemma setMinDataLength_stores_low_byte_witness :
  exists c',
    Config.setMinDataLength 16 Termios.ok Samples.apple_block Termios.ok 5 256
      = (0, [Config.GetBlock 5; Config.SetBlock 5 c'])
    /\ Termios.c_cc c' !! 16%nat = Some 0.
Proof.
  destruct (setMinDataLength_stores_low_byte 16 Termios.ok Termios.ok
              Samples.apple_block 5 256) as (c' & H1 & H2 & _).
  - discriminate.
  - discriminate.
  - discriminate.
  - simpl. lia.
  - exists c'. split; [exact H1|exact H2].
Defined.

Lemma getCurrentConfigurationU_layout_witness :
  Config.getCurrentConfigurationU Apple (Samples.failed 5)
    Samples.apple_block 0 5 = [-1].
Proof.
  apply (getCurrentConfigurationU_layout Apple (Samples.failed 5)
           Samples.apple_block 0 5).
  reflexivity.
Defined.

Lemma getCurrentConfigurationU_masks_witness :
  exists i o cf l rest,
    Config.getCurrentConfigurationU SunOS Termios.ok
      (Termios.set_cflag 0x800000B0 Examples.plain_block) 0 5
    = 0 :: i :: o :: cf :: l :: rest
    /\ Z.land i 0x80000000 = Z.land 0 0x80000000
    /\ Z.land o 0x80000000 = Z.land 0 0x80000000
    /\ Z.land cf 0x80000000 = Z.land 0x800000B0 0x80000000
    /\ Z.land l 0x80000000 = Z.land 0 0x80000000
    /\ - 2 ^ 31 <= cf < 2 ^ 31.
Proof.
  apply (getCurrentConfigurationU_masks SunOS Termios.ok
           (Termios.set_cflag 0x800000B0 Examples.plain_block) 0 5
           0x80000000).
  - discriminate.
  - split; [discriminate|reflexivity].
Defined.

(** ** Modem lines and queues *)

Section LinesFacts.
Import Termios Lines.
Context {M : modem_consts}.

(** The word that [setRTS] or [setDTR] writes reports the line as
    requested and every line whose bit lies apart as before. *)
Lemma set_line_word (line status : Z) (enabled : bool) :
  line <> 0 ->
  let status' := if enabled then Z.lor status line
                 else Z.land status (Z.lnot line) in
  asserted status' line = (if enabled then 1 else 0)
  /\ forall bit, Z.land line bit = 0 ->
       asserted status' bit = asserted status bit.
Proof.
  intros Hne. cbv zeta. unfold asserted. split.
  - destruct enabled.
    + pose proof (bis_has_bits status line) as H.
      unfold has_bits, bis in H. apply Z.eqb_eq in H. rewrite H.
      by rewrite (proj2 (Z.eqb_neq _ _) Hne).
    + pose proof (bic_no_bits status line) as H.
      unfold no_bits, bic in H. by rewrite H.
  - intros bit Hd. destruct enabled.
    + pose proof (land_bis_disjoint status line bit Hd) as H.
      unfold bis in H. by rewrite H.
    + pose proof (land_bic_disjoint status line bit Hd) as H.
      unfold bic in H. by rewrite H.
Qed.

(** X20: after [setRTS] succeeds, [getLinesStatus] on the word it wrote
    reports RTS, element 6, as requested, and the other lines as they
    were read. The bit of RTS is assumed to lie apart from those of the
    other five lines, as in every header. *)
Theorem setRTS_then_getLinesStatus (get set : sys_result)
    (status fd : Z) (enabled : bool) :
  TIOCM_RTS <> 0 ->
  Z.land TIOCM_RTS TIOCM_CTS = 0 -> Z.land TIOCM_RTS TIOCM_DSR = 0 ->
  Z.land TIOCM_RTS TIOCM_CD = 0 -> Z.land TIOCM_RTS TIOCM_RI = 0 ->
  Z.land TIOCM_RTS TIOCM_DTR = 0 ->
  0 <= s_ret get -> 0 <= s_ret set ->
  exists status',
    setRTS get status set fd enabled
      = (0, [ModemGet fd; ModemSet fd status'])
    /\ getLinesStatus ok status' fd
       = <[6%nat := (if enabled then 1 else 0) : Z]> (getLinesStatus ok status fd).
Proof.
  intros Hne H1 H2 H3 H4 H5 Hg Hs. unfold setRTS, set_line.
  replace (s_ret get <? 0) with false by (symmetry; apply Z.ltb_ge; lia).
  replace (s_ret set <? 0) with false by (symmetry; apply Z.ltb_ge; lia).
  eexists. split; [reflexivity|].
  destruct (set_line_word TIOCM_RTS status enabled Hne) as [Hl Ho].
  unfold getLinesStatus. cbn [ok s_ret Z.ltb Z.compare list_insert insert].
  rewrite Hl, !Ho by done. reflexivity.
Qed.

(** X21: after [setDTR] succeeds, [getLinesStatus] on the word it wrote
    reports DTR, element 7, as requested, and the other lines as they
    were read, the bit of DTR lying apart from those of the other five
    lines. *)
Theorem setDTR_then_getLinesStatus (get set : sys_result)
    (status fd : Z) (enabled : bool) :
  TIOCM_DTR <> 0 ->
  Z.land TIOCM_DTR TIOCM_CTS = 0 -> Z.land TIOCM_DTR TIOCM_DSR = 0 ->
  Z.land TIOCM_DTR TIOCM_CD = 0 -> Z.land TIOCM_DTR TIOCM_RI = 0 ->
  Z.land TIOCM_DTR TIOCM_RTS = 0 ->
  0 <= s_ret get -> 0 <= s_ret set ->
  exists status',
    setDTR get status set fd enabled
      = (0, [ModemGet fd; ModemSet fd status'])
    /\ getLinesStatus ok status' fd
       = <[7%nat := (if enabled then 1 else 0) : Z]> (getLinesStatus ok status fd).
Proof.
  intros Hne H1 H2 H3 H4 H5 Hg Hs. unfold setDTR, set_line.
  replace (s_ret get <? 0) with false by (symmetry; apply Z.ltb_ge; lia).
  replace (s_ret set <? 0) with false by (symmetry; apply Z.ltb_ge; lia).
  eexists. split; [reflexivity|].
  destruct (set_line_word TIOCM_DTR status enabled Hne) as [Hl Ho].
  unfold getLinesStatus. cbn [ok s_ret Z.ltb Z.compare list_insert insert].
  rewrite Hl, !Ho by done. reflexivity.
Qed.

End LinesFacts.

(** X22: [clearPortIOBuffers] discards the input queue exactly when
    [rxPortbuf] is set and the output queue exactly when [txPortbuf] is
    set, with at most one [tcflush]; with neither set it calls nothing
    and returns 0. *)
Theorem clearPortIOBuffers_discards_what_was_asked
    (res : Termios.sys_result) (fd : Z) (rxPortbuf txPortbuf : bool) :
  let r := Lines.clearPortIOBuffers res fd rxPortbuf txPortbuf in
  existsb Lines.discards_input r.2 = rxPortbuf
  /\ existsb Lines.discards_output r.2 = txPortbuf
  /\ (length r.2 <= 1)%nat
  /\ (rxPortbuf = false -> txPortbuf = false -> r = (0, [])).
Proof.
  cbv zeta. unfold Lines.clearPortIOBuffers.
  destruct rxPortbuf, txPortbuf, (Termios.s_ret res <? 0); cbn;
    repeat split; try lia; done.
Qed.

Lemma setRTS_then_getLinesStatus_witness :
  exists status',
    Lines.setRTS (M := Lines.unix_modem_consts) Termios.ok 0x122 Termios.ok
      5 true
    = (0, [Lines.ModemGet 5; Lines.ModemSet 5 status'])
    /\ Lines.getLinesStatus (M := Lines.unix_modem_consts) Termios.ok status' 5
       = <[6%nat := 1]>
           (Lines.getLinesStatus (M := Lines.unix_modem_consts) Termios.ok
              0x122 5).
Proof.
  apply (setRTS_then_getLinesStatus (M := Lines.unix_modem_consts)
           Termios.ok Termios.ok 0x122 5 true);
    first [discriminate | reflexivity].
Defined.

Lemma setDTR_then_getLinesStatus_witness :
  exists status',
    Lines.setDTR (M := Lines.unix_modem_consts) Termios.ok 0x122 Termios.ok
      5 false
    = (0, [Lines.ModemGet 5; Lines.ModemSet 5 status'])
    /\ Lines.getLinesStatus (M := Lines.unix_modem_consts) Termios.ok status' 5
       = <[7%nat := 0]>
           (Lines.getLinesStatus (M := Lines.unix_modem_consts) Termios.ok
              0x122 5).
Proof.
  apply (setDTR_then_getLinesStatus (M := Lines.unix_modem_consts)
           Termios.ok Termios.ok 0x122 5 false);
    first [discriminate | reflexivity].
Defined.

(** ** Opening and closing a port *)

Section PortFacts.
Import Termios Port.

(** X23: [closeComPort] does not look at what draining the output returns.
    On Linux and mac OS, when the exclusive ownership cannot be given
    up, it returns the negated [errno] without closing the descriptor.
    Otherwise [close] is its last call, and it returns what [close]
    returned, or the negated [errno] when [close] failed. *)
Theorem closeComPort_outcomes (p : platform)
    (drain drain' nxcl close : sys_result) (fd : Z) :
  let r := closeComPort p drain nxcl close fd in
  r = closeComPort p drain' nxcl close fd
  /\ (p <> SunOS -> s_ret nxcl < 0 ->
      r = (-1 * s_errno nxcl, [Drain fd; NotExclusive fd]))
  /\ (p = SunOS \/ 0 <= s_ret nxcl ->
      last r.2 = Some (Close fd)
      /\ r.1 = (if s_ret close <? 0 then -1 * s_errno close
                else s_ret close)).
Proof.
  cbv zeta. unfold closeComPort. split; [reflexivity|]. split.
  - intros Hp Hn.
    replace (s_ret nxcl <? 0) with true by (symmetry; apply Z.ltb_lt; lia).
    by destruct p.
  - intros [-> | Hn].
    + by destruct (s_ret close <? 0).
    + replace (s_ret nxcl <? 0) with false
        by (symmetry; apply Z.ltb_ge; lia).
      by destruct p, (s_ret close <? 0).
Qed.

Context {T : termios_consts} {O : open_consts}.

(** X24: [openComPort] never closes the descriptor it opened. When a step
    after a successful [open] fails, the function returns a negative
    code with the port left open and its descriptor known to nobody. On
    Solaris this is what every request for exclusive ownership gets:
    the port is opened, nothing is configured, and -241 is returned. *)
Theorem openComPort_never_closes (p : platform) (a : open_answers)
    (portpath : string) (enableRead enableWrite exclusiveOwner : bool) :
  let r := openComPort p a (Some portpath) enableRead enableWrite
             exclusiveOwner in
  existsb is_close r.2 = false
  /\ (exists flags, head r.2 = Some (Open portpath flags))
  /\ (0 <= o_fd a -> p = SunOS -> exclusiveOwner = true ->
      exists flags, r = (-241, [Open portpath flags; ReleaseChars])).
Proof.
  cbv zeta. unfold openComPort. split; [|split].
  - destruct (o_fd a <? 0), exclusiveOwner, p, (s_ret (o_excl a) <? 0),
      (s_ret (o_speed a) <? 0), (s_ret (o_set a) <? 0); reflexivity.
  - destruct (o_fd a <? 0), exclusiveOwner, p, (s_ret (o_excl a) <? 0),
      (s_ret (o_speed a) <? 0), (s_ret (o_set a) <? 0); cbn; eauto.
  - intros Hfd -> ->.
    replace (o_fd a <? 0) with false by (symmetry; apply Z.ltb_ge; lia).
    eauto.
Qed.

(** X25: when neither reading nor writing is enabled, [OPEN_MODE] keeps its
    initial value -1, and the flags passed to [open] are -1, every bit
    set, whatever [O_NOCTTY] and [O_NONBLOCK] are. *)
Theorem openComPort_without_access_mode (p : platform) (a : open_answers)
    (portpath : string) (exclusiveOwner : bool) :
  head (openComPort p a (Some portpath) false false exclusiveOwner).2
  = Some (Open portpath (-1)).
Proof.
  unfold openComPort, open_mode. cbn [andb].
  assert (Hm1 : forall x, Z.lor (-1) x = -1) by (intros x; apply Z.lor_m1_l).
  rewrite !Hm1.
  destruct (o_fd a <? 0), exclusiveOwner, p, (s_ret (o_excl a) <? 0),
    (s_ret (o_speed a) <? 0), (s_ret (o_set a) <? 0); reflexivity.
Qed.

Lemma bic_zero m : bic 0 m = 0.
Proof. apply Z.land_0_l. Qed.

(** The block [openComPort] has built when it comes to the speed: on a
    zeroed block, so that nothing of it depends on what the port was
    left with. *)
Lemma default_settings_fields (p : platform) :
  0 <= VMIN -> 0 <= VTIME -> VMIN <> VTIME ->
  VMIN < NCCS -> VTIME < NCCS ->
  let c := default_settings p in
  c_oflag c = 0 /\ c_lflag c = 0
  /\ Z.land (c_iflag c) (Z.lnot IGNBRK) = 0
  /\ c_cflag c = (let k := Z.lor (bits [CS8; CREAD; CLOCAL]) HUPCL in
                  if p is Apple then bic k MDMBUF else k)
  /\ c_cc c = <[Z.to_nat VTIME := 1]>
                (<[Z.to_nat VMIN := 1]> (replicate (Z.to_nat NCCS) 0))
  /\ c_cc c !! Z.to_nat VMIN = Some 1 /\ c_cc c !! Z.to_nat VTIME = Some 1.
Proof.
  intros H0 H0' Hne H1 H2. cbv zeta.
  assert (Hcc : forall q, c_cc (default_settings q)
                  = <[Z.to_nat VTIME := 1]>
                      (<[Z.to_nat VMIN := 1]> (replicate (Z.to_nat NCCS) 0))).
  { intros q. unfold default_settings, clear_if_defined.
    destruct q, IUCLC, OXTABS, ONOEOT; reflexivity. }
  split; [|split; [|split; [|split; [|split; [|split]]]]].
  - unfold default_settings, clear_if_defined.
    destruct p, IUCLC, OXTABS, ONOEOT; cbn; by rewrite ?bic_zero.
  - unfold default_settings, clear_if_defined.
    destruct p, IUCLC, OXTABS, ONOEOT; cbn; by rewrite ?bic_zero.
  - assert (Hb : forall x, Z.land (bis 0 x) (Z.lnot x) = 0).
    { intros x. unfold bis. rewrite Z.lor_0_l. apply Z.land_lnot_diag. }
    assert (Hb' : forall x m, Z.land (bic (bis 0 x) m) (Z.lnot x) = 0).
    { intros x m. unfold bic, bis. rewrite Z.lor_0_l.
      rewrite <- Z.land_assoc, (Z.land_comm (Z.lnot m)), Z.land_assoc.
      by rewrite Z.land_lnot_diag. }
    unfold default_settings, clear_if_defined.
    destruct p, IUCLC, OXTABS, ONOEOT; cbn; rewrite ?bic_zero;
      first [apply Hb | apply Hb'].
  - unfold default_settings, clear_if_defined.
    destruct p, IUCLC, OXTABS, ONOEOT; cbn;
      rewrite ?bic_zero; unfold bis; by rewrite Z.lor_0_l.
  - apply Hcc.
  - rewrite Hcc. rewrite list_lookup_insert_ne by lia.
    apply list_lookup_insert_eq. rewrite length_replicate. lia.
  - rewrite Hcc. apply list_lookup_insert_eq.
    rewrite length_insert, length_replicate. lia.
Qed.

(** The blocks [openComPort] writes: at most one, and when no step
    before the write fails exactly the one built on
    [default_settings]. *)
Lemma openComPort_written_block (p : platform) (a : open_answers)
    (portpath : string) (enableRead enableWrite exclusiveOwner : bool) :
  let r := openComPort p a (Some portpath) enableRead enableWrite
             exclusiveOwner in
  let c := if p is Linux
           then set_speeds (Bmacro 9600) (Bmacro 9600) (default_settings p)
           else o_cfsetspeed a (default_settings p) (Bmacro 9600) in
  (forall fd' c', In (SetAttr fd' c') r.2 -> fd' = o_fd a /\ c' = c)
  /\ (0 <= o_fd a ->
      (exclusiveOwner = true -> p <> SunOS /\ 0 <= s_ret (o_excl a)) ->
      (p <> Linux -> 0 <= s_ret (o_speed a)) ->
      In (SetAttr (o_fd a) c) r.2).
Proof.
  cbv zeta. unfold openComPort. split.
  - intros fd' c'.
    destruct (o_fd a <? 0), exclusiveOwner, p, (s_ret (o_excl a) <? 0),
      (s_ret (o_speed a) <? 0), (s_ret (o_set a) <? 0); cbn [snd app In];
      intros Hin;
      repeat match goal with
      | H : _ \/ _ |- _ => destruct H
      | H : False |- _ => destruct H
      | H : SetAttr _ _ = SetAttr _ _ |- _ => inversion H; clear H
      | H : _ = SetAttr _ _ |- _ => discriminate H
      end; done.
  - intros Hfd Hex Hsp.
    replace (o_fd a <? 0) with false by (symmetry; apply Z.ltb_ge; lia).
    destruct exclusiveOwner.
    + destruct Hex as [Hp He]; [done|].
      replace (s_ret (o_excl a) <? 0) with false
        by (symmetry; apply Z.ltb_ge; lia).
      destruct p; [|specialize (Hsp ltac:(done))|done];
        rewrite ?(proj2 (Z.ltb_ge _ _) Hsp);
        destruct (s_ret (o_set a) <? 0); cbn [snd app In]; auto 10.
    + destruct p; [|specialize (Hsp ltac:(done))|specialize (Hsp ltac:(done))];
        rewrite ?(proj2 (Z.ltb_ge _ _) Hsp);
        destruct (s_ret (o_set a) <? 0); cbn [snd app In]; auto 10.
Qed.

(** X26: the settings a port is opened with. When [open], the request
    for exclusive ownership and, on mac OS and Solaris, [cfsetspeed]
    succeed, [openComPort] writes one control block, and it writes no
    other. The block is built on a zeroed one, so it does not depend on
    what the port was left with. On Linux its control flags are exactly
    [CS8 | CREAD | CLOCAL | HUPCL], its two speed fields hold [B9600],
    no output flag and no line flag is set, of the input flags only
    [IGNBRK] can be set, and [VMIN] and [VTIME] are 1 with every other
    control character 0. On mac OS and Solaris the block is what
    [cfsetspeed] made of a block with these control flags (less
    [MDMBUF] on mac OS); where [cfsetspeed] leaves the input, output
    and line flags and the control characters alone, these are in the
    written block as on Linux, while the control flags are then
    [cfsetspeed]'s. *)
Theorem openComPort_default_settings (p : platform) (a : open_answers)
    (portpath : string) (enableRead enableWrite exclusiveOwner : bool) :
  0 <= VMIN -> 0 <= VTIME -> VMIN <> VTIME ->
  VMIN < NCCS -> VTIME < NCCS ->
  0 <= o_fd a ->
  (exclusiveOwner = true -> p <> SunOS /\ 0 <= s_ret (o_excl a)) ->
  (p <> Linux -> 0 <= s_ret (o_speed a)) ->
  (p <> Linux -> forall c0 b,
     c_iflag (o_cfsetspeed a c0 b) = c_iflag c0
     /\ c_oflag (o_cfsetspeed a c0 b) = c_oflag c0
     /\ c_lflag (o_cfsetspeed a c0 b) = c_lflag c0
     /\ c_cc (o_cfsetspeed a c0 b) = c_cc c0) ->
  let r := openComPort p a (Some portpath) enableRead enableWrite
             exclusiveOwner in
  let k := Z.lor (bits [CS8; CREAD; CLOCAL]) HUPCL in
  exists c,
    In (SetAttr (o_fd a) c) r.2
    /\ (forall fd' c', In (SetAttr fd' c') r.2 -> fd' = o_fd a /\ c' = c)
    /\ c_oflag c = 0 /\ c_lflag c = 0
    /\ Z.land (c_iflag c) (Z.lnot IGNBRK) = 0
    /\ c_cc c = <[Z.to_nat VTIME := 1]>
                  (<[Z.to_nat VMIN := 1]> (replicate (Z.to_nat NCCS) 0))
    /\ c_cc c !! Z.to_nat VMIN = Some 1 /\ c_cc c !! Z.to_nat VTIME = Some 1
    /\ (p = Linux ->
        c_cflag c = k /\ c_ispeed c = speed_t (Bmacro 9600)
        /\ c_ospeed c = speed_t (Bmacro 9600))
    /\ (p <> Linux ->
        exists c0, c = o_cfsetspeed a c0 (Bmacro 9600)
          /\ c_cflag c0 = if p is Apple then bic k MDMBUF else k).
Proof.
  intros H0 H0' Hne H1 H2 Hfd Hex Hsp Hframe. cbv zeta.
  destruct (openComPort_written_block p a portpath enableRead enableWrite
              exclusiveOwner) as [Honly Hin].
  specialize (Hin Hfd Hex Hsp).
  destruct (default_settings_fields p H0 H0' Hne H1 H2)
    as (Ho & Hl & Hi & Hc & Hcc & Hmin & Htime).
  eexists. split; [exact Hin|]. split; [exact Honly|].
  destruct p.
  - cbn [c_oflag c_lflag c_iflag c_cc c_cflag c_ispeed c_ospeed set_speeds].
    repeat split; done.
  - destruct (Hframe ltac:(done) (default_settings Apple) (Bmacro 9600))
      as (Ei & Eo & El & Ec).
    rewrite Eo, El, Ei, Ec.
    split; [done|]. split; [done|]. split; [done|]. split; [done|].
    split; [done|]. split; [done|]. split; [done|]. eauto.
  - destruct (Hframe ltac:(done) (default_settings SunOS) (Bmacro 9600))
      as (Ei & Eo & El & Ec).
    rewrite Eo, El, Ei, Ec.
    split; [done|]. split; [done|]. split; [done|]. split; [done|].
    split; [done|]. split; [done|]. split; [done|]. eauto.
Qed.

End PortFacts.

Lemma closeComPort_outcomes_witness :
  Port.closeComPort Apple Termios.ok (Samples.failed 25) Termios.ok 5
  = (-1 * 25, [Port.Drain 5; Port.NotExclusive 5]).
Proof.
  apply (closeComPort_outcomes Apple Termios.ok Termios.ok
           (Samples.failed 25) Termios.ok 5).
  - discriminate.
  - reflexivity.
Defined.

Lemma openComPort_never_closes_witness :
  exists flags,
    Port.openComPort (T := Termios.solaris_consts)
      (O := Samples.apple_open_consts) SunOS
      {| Port.o_fd := 5; Port.o_errno := 0; Port.o_excl := Termios.ok;
         Port.o_speed := Termios.ok; Port.o_cfsetspeed := fun c _ => c;
         Port.o_set := Termios.ok |}
      (Some "/dev/term/a") true true true
    = (-241, [Port.Open "/dev/term/a" flags; Port.ReleaseChars]).
Proof.
  apply (openComPort_never_closes (T := Termios.solaris_consts)
           (O := Samples.apple_open_consts) SunOS
           {| Port.o_fd := 5; Port.o_errno := 0; Port.o_excl := Termios.ok;
              Port.o_speed := Termios.ok; Port.o_cfsetspeed := fun c _ => c;
              Port.o_set := Termios.ok |}
           "/dev/term/a" true true true).
  - discriminate.
  - reflexivity.
  - reflexivity.
Defined.

Lemma openComPort_default_settings_witness :
  exists c,
    In (Port.SetAttr 5 c)
       (Port.openComPort (T := Samples.apple_consts)
          (O := Samples.apple_open_consts) Apple
          {| Port.o_fd := 5; Port.o_errno := 0; Port.o_excl := Termios.ok;
             Port.o_speed := Termios.ok; Port.o_cfsetspeed := fun c _ => c;
             Port.o_set := Termios.ok |}
          (Some "/dev/cu.usbserial") true true true).2
    /\ Termios.c_oflag c = 0 /\ Termios.c_lflag c = 0
    /\ Termios.c_cc c !! 16%nat = Some 1
    /\ Termios.c_cc c !! 17%nat = Some 1.
Proof.
  destruct (openComPort_default_settings (T := Samples.apple_consts)
              (O := Samples.apple_open_consts) Apple
              {| Port.o_fd := 5; Port.o_errno := 0;
                 Port.o_excl := Termios.ok;
                 Port.o_speed := Termios.ok;
                 Port.o_cfsetspeed := fun c _ => c;
                 Port.o_set := Termios.ok |}
              "/dev/cu.usbserial" true true true)
    as (c & Hin & _ & Ho & Hl & _ & _ & Hmin & Htime & _).
  - discriminate.
  - discriminate.
  - discriminate.
  - reflexivity.
  - reflexivity.
  - discriminate.
  - intros _. split; discriminate.
  - intros _. discriminate.
  - intros _ c0 b. repeat split; reflexivity.
  - exists c. repeat split; assumption.
Defined.

(** ** The listener table, continued *)

Section TableMore.
Context {A : Type} `{Inhabited A} (fd_of : A -> Z).

(** The scan stops at the first slot that holds the descriptor. *)
Lemma scan_loop_at n (ptr : list A) y fd0 k e :
  ptr !! k = Some e -> fd_of e = fd0 ->
  (forall j e', (j < k)%nat -> ptr !! j = Some e' -> fd_of e' <> fd0) ->
  (k < n)%nat ->
  scan_loop fd_of n ptr y fd0 = (y + Z.of_nat k, true).
Proof.
  revert n ptr y. induction k as [|k IH]; intros n ptr y Hk Hfd Hfirst Hn.
  - destruct n; [lia|]. destruct ptr as [|e0 ptr]; [done|].
    injection Hk as ->. cbn. rewrite Hfd, Z.eqb_refl. f_equal. lia.
  - destruct n; [lia|]. destruct ptr as [|e0 ptr]; [done|].
    cbn [scan_loop].
    replace (fd_of e0 =? fd0) with false
      by (symmetry; apply Z.eqb_neq; apply (Hfirst 0%nat); [lia|done]).
    rewrite (IH n ptr (y + 1)); [f_equal; lia|done|done| |lia].
    intros j e' Hj. apply (Hfirst (S j)). lia.
Qed.

Lemma scan_at (t : list A) fd0 k e :
  length t = Z.to_nat MAX_NUM_THREADS ->
  t !! k = Some e -> fd_of e = fd0 ->
  (forall j e', (j < k)%nat -> t !! j = Some e' -> fd_of e' <> fd0) ->
  scan fd_of t fd0 = (Z.of_nat k, true).
Proof.
  intros Hlen Hk Hfd Hfirst. unfold scan.
  rewrite (scan_loop_at _ _ _ _ k e); [done|done|done|done|].
  apply lookup_lt_Some in Hk. lia.
Qed.

End TableMore.

Section RegistryMore.
Import Registry.

Lemma setUpEventLooperThread_new_entry g fd0 newref cr n m v x :
  length (fd_looper_info g) = Z.to_nat MAX_NUM_THREADS ->
  scan fd (fd_looper_info g) fd0 = (x, false) -> newref <> 0 ->
  0 <= dtp_index g < MAX_NUM_THREADS -> 0 <= cr_ret cr -> v <> 0 ->
  setUpEventLooperThread g fd0 newref cr (replicate n None) = Spins /\
  setUpEventLooperThread g fd0 newref cr
    (replicate n None ++ Some v :: replicate m None) =
  Done (if 1 =? v then 0 else v,
        with_index (dtp_index g + 1)
          (with_table
             (<[Z.to_nat (dtp_index g) :=
                  set_event_init_done v
                    (set_event_thread_id (cr_tid cr) (new_params g fd0 newref))]>
                (fd_looper_info g)) g),
        [PthreadCreate "event_looper" (dtp_index g)]).
Proof.
  intros Hlen Hs Hr Hi Hc Hv.
  assert (Hil : (Z.to_nat (dtp_index g) < length (fd_looper_info g))%nat).
  { rewrite Hlen. unfold MAX_NUM_THREADS in *. lia. }
  unfold setUpEventLooperThread. rewrite Hs.
  apply Z.eqb_neq in Hr. rewrite Hr. cbn [negb andb].
  unfold store_slot. rewrite in_table_true by done.
  cbn [mbind outcome_bind].
  replace (cr_ret cr <? 0) with false by (symmetry; apply Z.ltb_ge; lia).
  rewrite (update_slot_in table_name) by (rewrite ?length_insert; done).
  cbn [mbind outcome_bind].
  rewrite !slot_insert by (rewrite ?length_insert; done).
  rewrite list_insert_insert_eq.
  change (event_init_done (set_event_thread_id (cr_tid cr)
            (new_params g fd0 newref))) with 0.
  split.
  - by rewrite rendezvous_never.
  - rewrite rendezvous_once by done.
    rewrite (update_slot_in table_name) by (rewrite ?length_insert; done).
    cbn [mbind outcome_bind].
    rewrite !slot_insert by (rewrite ?length_insert; done).
    by rewrite list_insert_insert_eq.
Qed.

(** X27: a registration for a descriptor that has no entry, in a table
    with room, makes the entry at [dtp_index] and waits for the thread
    it created. As long as that thread stores nothing in its flag the
    call does not return. Once the thread has stored a value [v] other
    than 0 the call returns 0 when [v] is 1 and [v] itself otherwise;
    the entry then records the descriptor, the looper reference, the
    thread and the flag, and [dtp_index] has advanced by one. Any return
    value of [pthread_create] that is not negative is taken for a
    success. *)
Theorem setUp_new_entry_waits_for_its_thread (g : globals)
    (fd0 newref : Z) (cr : create_result) (n m : nat) (v x : Z) :
  length (fd_looper_info g) = Z.to_nat MAX_NUM_THREADS ->
  scan fd (fd_looper_info g) fd0 = (x, false) -> newref <> 0 ->
  0 <= dtp_index g < MAX_NUM_THREADS -> 0 <= cr_ret cr -> v <> 0 ->
  let script := replicate n None ++ Some v :: replicate m None in
  let entry := new_params g fd0 newref in
  let stored e :=
    with_index (dtp_index g + 1)
      (with_table (<[Z.to_nat (dtp_index g) := e]> (fd_looper_info g)) g) in
  setUpDataLooperThread g fd0 newref cr (replicate n None) = Spins
  /\ setUpEventLooperThread g fd0 newref cr (replicate n None) = Spins
  /\ setUpDataLooperThread g fd0 newref cr script
     = Done (if 1 =? v then 0 else v,
             stored (set_data_init_done v
                       (set_data_thread_id (cr_tid cr) entry)),
             [PthreadCreate "data_looper" (dtp_index g)])
  /\ setUpEventLooperThread g fd0 newref cr script
     = Done (if 1 =? v then 0 else v,
             stored (set_event_init_done v
                       (set_event_thread_id (cr_tid cr) entry)),
             [PthreadCreate "event_looper" (dtp_index g)]).
Proof.
  intros Hlen Hs Hr Hi Hc Hv. cbv zeta.
  destruct (setUpDataLooperThread_new_entry g fd0 newref cr n m v x)
    as [Hd1 Hd2]; try done.
  destruct (setUpEventLooperThread_new_entry g fd0 newref cr n m v x)
    as [He1 He2]; done.
Qed.

(** X28: a second registration for a descriptor uses the entry the first one
    made: [setUpEventLooperThread] on a descriptor that has an entry,
    whose [event_init_done] is 0, creates the thread on that entry,
    waits for its flag and records the thread and the flag in it. The
    descriptor, the looper object and the data thread of the entry stay
    as they were, as do all other entries and [dtp_index]. The looper
    object passed with the call is not stored anywhere: [NewGlobalRef]
    is not consulted. *)
Theorem setUpEventLooperThread_reuses_entry (g : globals)
    (fd0 newref : Z) (cr : create_result) (n m : nat) (v x : Z) :
  length (fd_looper_info g) = Z.to_nat MAX_NUM_THREADS ->
  scan fd (fd_looper_info g) fd0 = (x, true) ->
  event_init_done (slot (fd_looper_info g) x) = 0 ->
  0 <= cr_ret cr -> v <> 0 ->
  let e := slot (fd_looper_info g) x in
  let e' := set_event_init_done v (set_event_thread_id (cr_tid cr) e) in
  setUpEventLooperThread g fd0 newref cr
    (replicate n None ++ Some v :: replicate m None)
  = Done (if 1 =? v then 0 else v,
          with_table (<[Z.to_nat x := e']> (fd_looper_info g)) g,
          [PthreadCreate "event_looper" x])
  /\ fd e' = fd0 /\ looper e' = looper e
  /\ data_thread_id e' = data_thread_id e
  /\ data_init_done e' = data_init_done e.
Proof.
  intros Hlen Hs Hflag Hc Hv. cbv zeta.
  destruct (scan_found fd _ _ _ Hlen Hs) as (_ & _ & _ & Hfd).
  split; [|by repeat split].
  rewrite (setUpEventLooperThread_found _ _ _ _ _ _ Hlen Hs Hc).
  rewrite Hflag. by rewrite rendezvous_once.
Qed.

(** After [destroyDataLooperThread] has freed the entry of [fd0], a
    scan for a descriptor that no entry held, and that is not -1,
    misses. *)
Lemma scan_after_free (t : list com_thread_params) (x fd1 : Z)
    (e : com_thread_params) :
  length t = Z.to_nat MAX_NUM_THREADS ->
  (forall e', e' ∈ t -> fd e' <> fd1) -> fd e <> fd1 ->
  scan fd (<[Z.to_nat x := e]> t) fd1 = (MAX_NUM_THREADS, false).
Proof.
  intros Hlen Hall He.
  apply scan_misses; [by rewrite length_insert|].
  intros e' [j Hj]%list_elem_of_lookup.
  destruct (decide (j = Z.to_nat x)) as [->|Hne].
  - apply list_lookup_insert_Some in Hj as [(_ & <- & _)|(? & _)]; done.
  - rewrite list_lookup_insert_ne in Hj by done.
    apply Hall. by eapply list_elem_of_lookup_2.
Qed.

(** X29: a slot that a stop operation has marked free is not used
    again. After [destroyDataLooperThread] has freed the entry of a
    descriptor, in slot [x] below [dtp_index], [dtp_index] is what it
    was, and the registration of another descriptor does not go to the
    free slot. In a table with room it makes its entry at [dtp_index],
    changes no other slot, so that slot [x] stays free, and advances
    [dtp_index]. When [dtp_index] has reached the end of the table it
    stores outside the table, although a slot is free. *)
Theorem freed_slot_is_not_reused (g : globals) (fd0 fd1 newref x : Z)
    (cr : create_result) (n m : nat) (v : Z) :
  length (fd_looper_info g) = Z.to_nat MAX_NUM_THREADS ->
  scan fd (fd_looper_info g) fd0 = (x, true) ->
  event_thread_id (slot (fd_looper_info g) x) = 0 ->
  (forall e, e ∈ fd_looper_info g -> fd e <> fd1) ->
  fd1 <> -1 -> newref <> 0 -> 0 <= cr_ret cr -> v <> 0 ->
  x < dtp_index g ->
  exists g1 calls,
    destroyDataLooperThread g fd0 0 = Done (0, g1, calls)
    /\ fd (slot (fd_looper_info g1) x) = -1
    /\ dtp_index g1 = dtp_index g
    /\ (dtp_index g < MAX_NUM_THREADS ->
        exists g2,
          setUpDataLooperThread g1 fd1 newref cr
            (replicate n None ++ Some v :: replicate m None)
          = Done (if 1 =? v then 0 else v, g2,
                  [PthreadCreate "data_looper" (dtp_index g)])
          /\ fd (slot (fd_looper_info g2) (dtp_index g)) = fd1
          /\ fd (slot (fd_looper_info g2) x) = -1
          /\ (forall j, j <> Z.to_nat (dtp_index g) ->
                fd_looper_info g2 !! j = fd_looper_info g1 !! j)
          /\ dtp_index g2 = dtp_index g + 1)
    /\ (MAX_NUM_THREADS <= dtp_index g ->
        forall script,
          setUpDataLooperThread g1 fd1 newref cr script
          = OutOfBounds "fd_looper_info" (dtp_index g)).
Proof.
  intros Hlen Hs Hev Hall Hfd1 Hr Hc Hv Hlt.
  destruct (scan_found fd _ _ _ Hlen Hs) as (Hx & Hxl & _ & _).
  rewrite (destroyDataLooperThread_found _ _ _ _ Hlen Hs).
  cbn [Z.eqb]. rewrite Hev. cbn [Z.eqb].
  set (e3 := set_fd (-1) (set_data_thread_id 0
               (set_data_thread_exit 1 (slot (fd_looper_info g) x)))).
  set (g1 := with_table (<[Z.to_nat x := e3]> (fd_looper_info g)) g).
  assert (Hlen1 : length (fd_looper_info g1) = Z.to_nat MAX_NUM_THREADS)
    by (cbn [g1 fd_looper_info with_table]; by rewrite length_insert).
  assert (Hs1 : scan fd (fd_looper_info g1) fd1 = (MAX_NUM_THREADS, false)).
  { cbn [g1 fd_looper_info with_table].
    apply scan_after_free; [done|done|]. cbn. congruence. }
  exists g1, [EvfdWrite (evfd (slot (fd_looper_info g) x));
              PthreadJoin (data_thread_id (slot (fd_looper_info g) x))].
  split; [reflexivity|].
  split; [cbn [g1 fd_looper_info with_table]; by rewrite slot_insert|].
  split; [reflexivity|]. split.
  - intros Hroom.
    assert (Hi : 0 <= dtp_index g1 < MAX_NUM_THREADS)
      by (cbn [g1 dtp_index with_table]; lia).
    destruct (setUpDataLooperThread_new_entry g1 fd1 newref cr n m v
                MAX_NUM_THREADS Hlen1 Hs1 Hr Hi Hc Hv) as [_ Hdone].
    eexists. split; [exact Hdone|].
    cbn [fd_looper_info dtp_index with_table with_index g1].
    assert (Hil : (Z.to_nat (dtp_index g) < length (fd_looper_info g))%nat)
      by (rewrite Hlen; unfold MAX_NUM_THREADS in *; lia).
    split; [by rewrite slot_insert by (by rewrite length_insert)|].
    split; [|split; [|reflexivity]].
    + unfold slot. rewrite list_lookup_total_insert_ne by lia.
      by rewrite list_lookup_total_insert_eq.
    + intros j Hj. by rewrite list_lookup_insert_ne.
  - intros Hfull script.
    rewrite (setUpDataLooperThread_unbounded _ _ _ _ _ MAX_NUM_THREADS);
      [reflexivity|done|done|].
    cbn [g1 dtp_index with_table]. unfold MAX_NUM_THREADS in *. lia.
Qed.

End RegistryMore.

(** ** The monitor table, continued *)

Section MonitorMore.
Import Monitor.

(** What [unregisterPortMonitorListener] does when slot [k] is the
    first that holds the descriptor. *)
Lemma unregisterPortMonitorListener_at (p : platform)
    (g : globals) (fd0 kill_ret : Z) (k : nat) (e : port_info) :
  length (port_monitor_info g) = Z.to_nat MAX_NUM_THREADS ->
  port_monitor_info g !! k = Some e -> fd e = fd0 ->
  (forall j e', (j < k)%nat -> port_monitor_info g !! j = Some e' ->
     fd e' <> fd0) ->
  (p = Linux -> kill_ret = 0) ->
  unregisterPortMonitorListener p g fd0 kill_ret 0
  = Done (0,
          with_table
            (<[k := set_fd (-1) (set_thread_id 0 (set_thread_exit 1 e))]>
               (port_monitor_info g)) g,
          (if p is Linux then [PthreadKill (thread_id e)] else [])
            ++ [PthreadJoin (thread_id e)]).
Proof.
  intros Hlen Hk Hfd Hfirst Hkill.
  pose proof (lookup_lt_Some _ _ _ Hk) as Hkl.
  assert (Hmax : (k < Z.to_nat MAX_NUM_THREADS)%nat) by lia.
  unfold unregisterPortMonitorListener.
  rewrite (scan_at fd _ fd0 k e) by done.
  assert (Hslot : slot (port_monitor_info g) (Z.of_nat k) = e).
  { unfold slot. rewrite Nat2Z.id. by apply list_lookup_total_correct. }
  rewrite (update_slot_in table_name)
    by (rewrite ?Nat2Z.id; unfold MAX_NUM_THREADS in *; lia).
  cbn [mbind outcome_bind]. rewrite Hslot, Nat2Z.id.
  replace (match p with Linux => negb (kill_ret =? 0) | _ => false end)
    with false by (destruct p; [rewrite Hkill|..]; done).
  cbn [Z.eqb negb].
  rewrite (update_slot_in table_name)
    by (rewrite ?Nat2Z.id, ?length_insert; unfold MAX_NUM_THREADS in *; lia).
  cbn [mbind outcome_bind].
  rewrite (update_slot_in table_name)
    by (rewrite ?Nat2Z.id, ?length_insert; unfold MAX_NUM_THREADS in *; lia).
  cbn [mbind outcome_bind]. unfold slot. rewrite !Nat2Z.id.
  rewrite !list_lookup_total_insert_eq by (rewrite ?length_insert; done).
  rewrite !list_insert_insert_eq.
  by destruct p.
Qed.

(** X30: [unregisterPortMonitorListener] stops one monitor, the one in the
    first slot that holds the descriptor: it joins the thread of that
    entry (after signalling it, on Linux), and leaves the entry with its
    exit flag set and its thread id and descriptor cleared. Every other
    entry stays as it was, a later monitor on the same descriptor too,
    and [port_monitor_index] does not change. *)
Theorem unregisterPortMonitorListener_frees_first_entry (p : platform)
    (g : globals) (fd0 kill_ret : Z) (k : nat) (e : port_info) :
  length (port_monitor_info g) = Z.to_nat MAX_NUM_THREADS ->
  port_monitor_info g !! k = Some e -> fd e = fd0 ->
  (forall j e', (j < k)%nat -> port_monitor_info g !! j = Some e' ->
     fd e' <> fd0) ->
  (p = Linux -> kill_ret = 0) ->
  exists g',
    unregisterPortMonitorListener p g fd0 kill_ret 0
    = Done (0, g',
            (if p is Linux then [PthreadKill (thread_id e)] else [])
              ++ [PthreadJoin (thread_id e)])
    /\ port_monitor_info g' !! k
       = Some (set_fd (-1) (set_thread_id 0 (set_thread_exit 1 e)))
    /\ (forall j, j <> k ->
          port_monitor_info g' !! j = port_monitor_info g !! j)
    /\ port_monitor_index g' = port_monitor_index g.
Proof.
  intros Hlen Hk Hfd Hfirst Hkill.
  pose proof (lookup_lt_Some _ _ _ Hk) as Hkl.
  rewrite (unregisterPortMonitorListener_at p g fd0 kill_ret k e) by done.
  eexists. split; [reflexivity|].
  cbn [port_monitor_info with_table port_monitor_index].
  split; [by apply list_lookup_insert_eq|]. split; [|reflexivity].
  intros j Hj. by apply list_lookup_insert_ne.
Qed.

End MonitorMore.

Lemma setUp_new_entry_waits_for_its_thread_witness :
  Registry.setUpDataLooperThread (Registry.initial 7 9) 5 9005
    (Examples.started 5005) (replicate 2 None) = Spins
  /\ Registry.setUpDataLooperThread (Registry.initial 7 9) 5 9005
       (Examples.started 5005) Examples.ready
     = Done (0, Examples.data_only, [PthreadCreate "data_looper" 0]).
Proof.
  destruct (setUp_new_entry_waits_for_its_thread (Registry.initial 7 9)
              5 9005 (Examples.started 5005) 2 0 1 1024)
    as (H1 & _ & H2 & _).
  - reflexivity.
  - vm_compute. reflexivity.
  - discriminate.
  - split; [discriminate|reflexivity].
  - discriminate.
  - discriminate.
  - split; [exact H1|]. etransitivity; [exact H2|].
    vm_compute. reflexivity.
Defined.

Lemma setUpEventLooperThread_reuses_entry_witness :
  Registry.setUpEventLooperThread Examples.data_only 5 0
    (Examples.started 6005) (replicate 2 None ++ Some 1 :: replicate 0 None)
  = Done (if 1 =? 1 then 0 else 1,
          Registry.with_table
            (<[Z.to_nat 0 :=
                 Registry.set_event_init_done 1
                   (Registry.set_event_thread_id
                      (cr_tid (Examples.started 6005))
                      (slot (Registry.fd_looper_info Examples.data_only) 0))]>
               (Registry.fd_looper_info Examples.data_only))
            Examples.data_only,
          [PthreadCreate "event_looper" 0]).
Proof.
  apply (setUpEventLooperThread_reuses_entry Examples.data_only 5 0
           (Examples.started 6005) 2 0 1 0).
  - reflexivity.
  - vm_compute. reflexivity.
  - reflexivity.
  - discriminate.
  - discriminate.
Defined.

Lemma freed_slot_is_not_reused_witness :
  exists g1 g2 calls,
    Registry.destroyDataLooperThread Examples.data_only 5 0
      = Done (0, g1, calls)
    /\ Registry.fd (slot (Registry.fd_looper_info g1) 0) = -1
    /\ Registry.setUpDataLooperThread g1 6 77 (Examples.started 1)
         Examples.ready
       = Done (0, g2, [PthreadCreate "data_looper" 1])
    /\ Registry.fd (slot (Registry.fd_looper_info g2) 1) = 6
    /\ Registry.fd (slot (Registry.fd_looper_info g2) 0) = -1
    /\ Registry.dtp_index g2 = 2.
Proof.
  destruct (freed_slot_is_not_reused Examples.data_only 5 6 77 0
              (Examples.started 1) 2 0 1)
    as (g1 & calls & Hd & Hfree & _ & Hroom & _).
  - reflexivity.
  - vm_compute. reflexivity.
  - reflexivity.
  - apply Forall_forall.
    refine (bool_decide_unpack
              (Forall (fun e => Registry.fd e <> 6) _) _).
    vm_compute. exact I.
  - discriminate.
  - discriminate.
  - discriminate.
  - discriminate.
  - reflexivity.
  - destruct Hroom as (g2 & Hs & H1 & H0 & _ & Hidx); [reflexivity|].
    exists g1, g2, calls. repeat split; assumption.
Defined.

Lemma unregisterPortMonitorListener_frees_first_entry_witness :
  exists g',
    Monitor.unregisterPortMonitorListener Apple
      (Examples.two_monitors "/dev/ttyUSB0") 5 0 0
    = Done (0, g',
            [] ++ [PthreadJoin
                     (Monitor.thread_id
                        (Examples.monitor_entry "/dev/ttyUSB0" 41))])
    /\ Monitor.port_monitor_info g' !! 0%nat
       = Some (Monitor.set_fd (-1)
                 (Monitor.set_thread_id 0
                    (Monitor.set_thread_exit 1
                       (Examples.monitor_entry "/dev/ttyUSB0" 41))))
    /\ (forall j, j <> 0%nat ->
          Monitor.port_monitor_info g' !! j
          = Monitor.port_monitor_info
              (Examples.two_monitors "/dev/ttyUSB0") !! j)
    /\ Monitor.port_monitor_index g'
       = Monitor.port_monitor_index (Examples.two_monitors "/dev/ttyUSB0").
Proof.
  apply (unregisterPortMonitorListener_frees_first_entry Apple
           (Examples.two_monitors "/dev/ttyUSB0") 5 0 0
           (Examples.monitor_entry "/dev/ttyUSB0" 41)).
  - reflexivity.
  - reflexivity.
  - reflexivity.
  - intros j e' Hj. lia.
  - discriminate.
Defined.
